(** * ROC AUC with a bootstrap confidence interval

    A shallow embedding of [assets/scripts/Python/roc_utils.py] (function
    [roc_auc_ci], the bootstrap estimator, on values and once more in a
    process with objects; function [plot_roc_panels_pub]) and of
    [assets/scripts/Python/test.py] (the analytic estimator [roc_auc_ci]
    and [call_ROC_value]).

    Conventions.
    - A Python float is a finite value, modelled by an exact rational
      ([Q], numeric equality being [Qeq], written [==]), or nan
      ([pyfloat]).  The scores handed in are finite.
    - Labels are the two classes 0 and 1, modelled by [bool].
    - A call either returns a value or raises: [result].
    - The library routines the scripts call (scikit-learn's [roc_auc_score],
      numpy's [unique], [sort], [percentile], fancy indexing and
      [random.RandomState]) are not part of the repository; they are modelled
      here from their documented behaviour, each in its own block. *)

From Stdlib Require Import String.
From Stdlib Require Import ZArith QArith Qround List Bool Lia Lqa.
From Stdlib Require Import Sorted Permutation.
Import ListNotations.

(* ================================================================== *)
(** ** Python values, exceptions and results *)
(* ================================================================== *)

(** A Python exception, identified by the name of its class. *)
Inductive exception : Type :=
  | Exception (class_name : string).

Definition ValueError : exception := Exception "ValueError".
Definition IndexError : exception := Exception "IndexError".
Definition ZeroDivisionError : exception := Exception "ZeroDivisionError".
Definition NameError : exception := Exception "NameError".
Definition TypeError : exception := Exception "TypeError".

(** The error kinds the specification asks for on invalid input and when
    no bootstrap resample survives.  Neither script defines or raises an
    exception of either name. *)
Definition InvalidInput : exception := Exception "InvalidInput".
Definition InsufficientBootstrapSamples : exception :=
  Exception "InsufficientBootstrapSamples".

(** Outcome of a call: a returned value or a raised exception. *)
Inductive result (A : Type) : Type :=
  | Ok (a : A)
  | Raise (e : exception).
Arguments Ok {A} a.
Arguments Raise {A} e.

Definition bind {A B : Type} (r : result A) (f : A -> result B) : result B :=
  match r with
  | Ok a => f a
  | Raise e => Raise e
  end.

Notation "x <- c ;; k" := (bind c (fun x => k))
  (at level 61, c at next level, right associativity).
Notation "' p <- c ;; k" := (bind c (fun x => let 'p := x in k))
  (at level 61, p pattern, c at next level, right associativity).

(** A Python float: a finite value or nan (what [roc_auc_score] hands back
    where the AUC is undefined). *)
Inductive pyfloat : Type :=
  | finite (q : Q)
  | nan.

Definition isnan (x : pyfloat) : bool :=
  match x with
  | nan => true
  | finite _ => false
  end.

(** The finite values of an array, in their order. *)
Definition finites (a : list pyfloat) : list Q :=
  flat_map (fun x => match x with finite q => [q] | nan => [] end) a.

(** Arithmetic on floats: nan is contagious, and every comparison with nan
    is false. *)
Definition lift2 (f : Q -> Q -> Q) (a b : pyfloat) : pyfloat :=
  match a, b with
  | finite x, finite y => finite (f x y)
  | _, _ => nan
  end.

Definition fadd : pyfloat -> pyfloat -> pyfloat := lift2 Qplus.
Definition fsub : pyfloat -> pyfloat -> pyfloat := lift2 Qminus.
Definition fmul : pyfloat -> pyfloat -> pyfloat := lift2 Qmult.

Definition fpow (a : pyfloat) (n : Z) : pyfloat :=
  match a with
  | finite x => finite (x ^ n)
  | nan => nan
  end.

Definition Qlt_bool (a b : Q) : bool := negb (Qle_bool b a).

Definition flt (a b : pyfloat) : bool :=
  match a, b with
  | finite x, finite y => Qlt_bool x y
  | _, _ => false
  end.

Declare Scope float_scope.
Delimit Scope float_scope with float.
Bind Scope float_scope with pyfloat.
Arguments fpow a%_float n%_Z.
Notation "a + b" := (fadd a b) : float_scope.
Notation "a - b" := (fsub a b) : float_scope.
Notation "a * b" := (fmul a b) : float_scope.
Notation "a ^ n" := (fpow a n) : float_scope.
Coercion finite : Q >-> pyfloat.

(** What [roc_auc_ci] of roc_utils.py hands back: [None] or the dictionary
    [{"AUC": auc_val, "CI": (ci_lower, auc_val, ci_upper)}]. *)
Inductive retval : Type :=
  | PyNone
  | Dict (AUC : pyfloat) (CI : pyfloat * pyfloat * pyfloat).

(** State outside the function: what has been printed, and the state of
    numpy's module-level generator (the one [np.random.seed] sets).
    Warnings are kept with the objects of the process, in
    [roc_utils_process]. *)
Record world (G : Type) : Type := mkWorld {
  stdout : list string;
  np_random : G
}.
Arguments mkWorld {G} stdout np_random.
Arguments stdout {G} w.
Arguments np_random {G} w.

Definition print {G : Type} (s : string) (w : world G) : world G :=
  {| stdout := stdout w ++ [s]; np_random := np_random w |}.

(* ================================================================== *)
(** ** numpy: unique, fancy indexing, sort, percentile *)
(* ================================================================== *)

(** [np.unique] on an array of labels: the distinct values, ascending. *)
Definition np_unique (a : list bool) : list bool :=
  (if existsb negb a then [false] else []) ++
  (if existsb (fun b => b) a then [true] else []).

(** [a[indices]] for an index array: a fresh array; an index past the end
    raises IndexError. *)
Fixpoint take {A : Type} (a : list A) (indices : list nat) : result (list A) :=
  match indices with
  | [] => Ok []
  | i :: rest =>
      match nth_error a i with
      | None => Raise IndexError
      | Some x => xs <- take a rest ;; Ok (x :: xs)
      end
  end.

Fixpoint insert_sorted (x : Q) (l : list Q) : list Q :=
  match l with
  | [] => [x]
  | y :: t => if Qle_bool x y then x :: y :: t else y :: insert_sorted x t
  end.

(** Finite values in ascending order. *)
Definition sort_Q (a : list Q) : list Q :=
  fold_right insert_sorted [] a.

(** [np.sort]: a sorted copy, the finite values ascending and every nan
    after them; the argument is left as it is. *)
Definition np_sort (a : list pyfloat) : list pyfloat :=
  map finite (sort_Q (finites a)) ++ filter isnan a.

(** [arr[i]] for a single integer index, negative indices counting from the
    end ([d] is only returned out of bounds, which [percentile_Q] never
    asks for). *)
Definition getitem (arr : list Q) (i : Z) (d : Q) : Q :=
  nth (Z.to_nat (if (i <? 0)%Z then i + Z.of_nat (length arr) else i)) arr d.

(** numpy's [_get_indexes]: the neighbours of a virtual index, clipped to
    the last element (index -1) above the range and to the first below. *)
Definition _get_indexes (virtual_index : Q) (valid_values_count : nat) : Z * Z :=
  let previous_index := Qfloor virtual_index in
  let next_index := (previous_index + 1)%Z in
  let '(previous_index, next_index) :=
    if Qle_bool (inject_Z (Z.of_nat valid_values_count - 1)) virtual_index
    then ((-1)%Z, (-1)%Z) else (previous_index, next_index) in
  if Qle_bool 0 virtual_index then (previous_index, next_index)
  else (0%Z, 0%Z).

(** numpy's [_lerp]: [a + (b - a) * t], evaluated from the right end when
    [t >= 0.5]. *)
Definition _lerp (a b t : Q) : Q :=
  if Qle_bool (1 # 2) t then b - (b - a) * (1 - t) else a + (b - a) * t.

(** [np.percentile(a, q)] with the default method (linear) on an array of
    finite values.  [q] outside [0, 100] raises ValueError.  The routine
    orders a copy of [a] itself (numpy partitions it around the two
    positions it reads, which shows the same two values as a full sort),
    then interpolates between the neighbours of the virtual index
    [(n - 1) * q / 100].  On an empty array the look-up of the last element
    raises IndexError. *)
Definition percentile_Q (a : list Q) (q : Q) : result Q :=
  if negb (Qle_bool 0 q && Qle_bool q 100) then Raise ValueError
  else
    let arr := sort_Q a in
    let values_count := length arr in
    match arr with
    | [] => Raise IndexError
    | d :: _ =>
        let virtual_index := inject_Z (Z.of_nat values_count - 1) * (q / 100) in
        let '(previous_index, next_index) :=
          _get_indexes virtual_index values_count in
        let previous := getitem arr previous_index d in
        let next := getitem arr next_index d in
        let gamma := virtual_index - inject_Z previous_index in
        Ok (_lerp previous next gamma)
    end.

(** [np.percentile(a, q)] on any array of floats: a nan in the array makes
    the result nan. *)
Definition np_percentile (a : list pyfloat) (q : Q) : result pyfloat :=
  if existsb isnan a
  then if negb (Qle_bool 0 q && Qle_bool q 100) then Raise ValueError
       else Ok nan
  else v <- percentile_Q (finites a) q ;; Ok (finite v).

(* ================================================================== *)
(** ** scikit-learn: roc_auc_score (binary labels) *)
(* ================================================================== *)

(** Scores of the observations whose label is [c]. *)
Definition scores_of (c : bool) (y_true : list bool) (y_score : list Q) : list Q :=
  map snd (filter (fun p => Bool.eqb (fst p) c) (combine y_true y_score)).

(** Credit of one (positive, negative) pair: 1 when the positive scores
    higher, 1/2 on a tie, 0 otherwise. *)
Definition pair_credit (p n : Q) : Q :=
  match p ?= n with
  | Gt => 1
  | Eq => 1 # 2
  | Lt => 0
  end.

Definition Qsum (l : list Q) : Q := fold_right Qplus 0 l.

(** The rank statistic: the mean credit over all (positive, negative)
    pairs. *)
Definition rank_auc (y_true : list bool) (y_score : list Q) : Q :=
  let pos := scores_of true y_true y_score in
  let neg := scores_of false y_true y_score in
  Qsum (map (fun pn => pair_credit (fst pn) (snd pn)) (list_prod pos neg))
  / inject_Z (Z.of_nat (length pos * length neg)).

(** Modelled from the spec: [sklearn.metrics.roc_auc_score] is library code
    outside the repository.  The area under the ROC curve is the rank
    statistic the specification names.  Around it the call behaves as the
    library does: an empty array is refused with ValueError; on labels of
    one class the score is undefined, and the call warns
    (UndefinedMetricWarning) and returns nan instead of raising; arrays of
    different lengths are refused with ValueError by the curve
    computation.  The guard on line 57 of roc_utils.py keeps the nan out of
    the bootstrap distribution. *)
Definition roc_auc_score (y_true : list bool) (y_score : list Q)
    : result pyfloat :=
  if ((length y_true =? 0) || (length y_score =? 0))%nat
  then Raise ValueError
  else if negb (length (np_unique y_true) =? 2)%nat then Ok nan
  else if negb (length y_true =? length y_score)%nat then Raise ValueError
  else Ok (finite (rank_auc y_true y_score)).

(* ================================================================== *)
(** ** numpy: random.RandomState *)
(* ================================================================== *)

(** The part of [np.random.RandomState] the estimator uses: the constructor
    from an integer seed and [randint(low, high, size)]. *)
Record RandomState : Type := mkRandomState {
  rs_state : Type;
  rs_new : Z -> result rs_state;
  rs_randint : rs_state -> nat -> nat -> nat -> result (list nat * rs_state)
}.

(** The documented contract: a seed must lie in [0, 2**32 - 1]; [randint]
    raises ValueError unless [low < high], and otherwise returns [size]
    integers of the half-open interval [low, high). *)
Record lawful (R : RandomState) : Prop := mkLawful {
  new_ok : forall seed : Z,
    (0 <= seed < 2 ^ 32)%Z -> exists g, rs_new R seed = Ok g;
  new_range : forall seed : Z,
    ~ (0 <= seed < 2 ^ 32)%Z -> rs_new R seed = Raise ValueError;
  randint_ok : forall g low high size,
    (low < high)%nat ->
    exists l g', rs_randint R g low high size = Ok (l, g') /\
                 length l = size /\
                 Forall (fun i => (low <= i < high)%nat) l;
  randint_empty : forall g low high size,
    (high <= low)%nat -> rs_randint R g low high size = Raise ValueError
}.

(** *** The generator behind RandomState: MT19937 *)

Definition RK_STATE_LEN : nat := 624.
Definition MT_M : nat := 397.
Definition MATRIX_A : Z := 0x9908b0df.
Definition UPPER_MASK : Z := 0x80000000.
Definition LOWER_MASK : Z := 0x7fffffff.

(** Truncation to an unsigned 32-bit word. *)
Definition u32 (x : Z) : Z := Z.land x 0xffffffff.

Record mt19937_state : Type := mkMT {
  key : list Z;
  pos : nat
}.

Fixpoint seed_loop (n : nat) (p : Z) (seed : Z) : list Z :=
  match n with
  | O => []
  | S n' =>
      seed :: seed_loop n' (p + 1)%Z
                (u32 (1812433253 * Z.lxor seed (Z.shiftr seed 30) + p + 1))
  end.

(** [mt19937_seed]: Knuth's recurrence fills the 624 words of the key. *)
Definition mt19937_seed (seed : Z) : mt19937_state :=
  {| key := seed_loop RK_STATE_LEN 0 (u32 seed); pos := RK_STATE_LEN |}.

Fixpoint upd (k : nat) (v : Z) (l : list Z) : list Z :=
  match l, k with
  | [], _ => []
  | _ :: t, O => v :: t
  | h :: t, S k' => h :: upd k' v t
  end.

Definition twist_word (a b c : Z) : Z :=
  let y := Z.lor (Z.land a UPPER_MASK) (Z.land b LOWER_MASK) in
  Z.lxor (Z.lxor c (Z.shiftr y 1)) (if Z.odd y then MATRIX_A else 0).

(** The in-place regeneration loop: word [i] is rebuilt from words [i],
    [i + 1] and [i + 397], indices taken modulo 624. *)
Fixpoint gen_loop (ks : list nat) (mt : list Z) : list Z :=
  match ks with
  | [] => mt
  | i :: rest =>
      gen_loop rest
        (upd i (twist_word (nth i mt 0%Z)
                           (nth ((i + 1) mod RK_STATE_LEN) mt 0%Z)
                           (nth ((i + MT_M) mod RK_STATE_LEN) mt 0%Z)) mt)
  end.

Definition mt19937_gen (s : mt19937_state) : mt19937_state :=
  {| key := gen_loop (seq 0 RK_STATE_LEN) (key s); pos := 0 |}.

Definition temper (y : Z) : Z :=
  let y := Z.lxor y (Z.shiftr y 11) in
  let y := Z.lxor y (Z.land (u32 (Z.shiftl y 7)) 0x9d2c5680) in
  let y := Z.lxor y (Z.land (u32 (Z.shiftl y 15)) 0xefc60000) in
  Z.lxor y (Z.shiftr y 18).

(** [mt19937_next]: the next 32-bit output. *)
Definition mt19937_next (s : mt19937_state) : Z * mt19937_state :=
  let s := if (pos s =? RK_STATE_LEN)%nat then mt19937_gen s else s in
  (temper (nth (pos s) (key s) 0%Z), {| key := key s; pos := S (pos s) |}).

(** Smallest bit mask covering [max]. *)
Definition gen_mask (max : Z) : Z :=
  let mask := max in
  let mask := Z.lor mask (Z.shiftr mask 1) in
  let mask := Z.lor mask (Z.shiftr mask 2) in
  let mask := Z.lor mask (Z.shiftr mask 4) in
  let mask := Z.lor mask (Z.shiftr mask 8) in
  let mask := Z.lor mask (Z.shiftr mask 16) in
  Z.lor mask (Z.shiftr mask 32).

(** Number of redraws after which the rejection loop below is cut. *)
Definition MAX_REDRAWS : nat := 128.

(** numpy's masked rejection sampling: draw, mask, redraw while the value
    exceeds [rng].  numpy's loop has no bound; each draw is accepted with
    probability above one half, and when [rng + 1] is a power of two the
    first draw always is.  The model cuts the loop after [MAX_REDRAWS]
    redraws and then reduces the last draw modulo [rng + 1]. *)
Fixpoint bounded_masked_uint32 (redraws : nat) (s : mt19937_state)
    (rng mask : Z) : Z * mt19937_state :=
  let '(v, s') := mt19937_next s in
  let val := Z.land v mask in
  if (val <=? rng)%Z then (val, s')
  else
    match redraws with
    | O => ((val mod (rng + 1))%Z, s')
    | S r => bounded_masked_uint32 r s' rng mask
    end.

(** [random_bounded_uint64_fill] for ranges that fit 32 bits: [cnt] values
    in [off, off + rng]. *)
Fixpoint random_bounded_fill (cnt : nat) (s : mt19937_state) (off rng : Z)
    : list nat * mt19937_state :=
  match cnt with
  | O => ([], s)
  | S cnt' =>
      let '(v, s1) :=
        if (rng =? 0)%Z then (0%Z, s)
        else bounded_masked_uint32 MAX_REDRAWS s rng (gen_mask rng) in
      let '(vs, s2) := random_bounded_fill cnt' s1 off rng in
      (Z.to_nat (off + v) :: vs, s2)
  end.

(** [RandomState(seed)] for an integer seed. *)
Definition mt19937_new (seed : Z) : result mt19937_state :=
  if ((0 <=? seed) && (seed <? 2 ^ 32))%Z then Ok (mt19937_seed seed)
  else Raise ValueError.

(** [RandomState.randint(low, high, size)] for bounds that are natural
    numbers and a range that fits 32 bits (the length of an array). *)
Definition mt19937_randint (s : mt19937_state) (low high size : nat)
    : result (list nat * mt19937_state) :=
  if (high <=? low)%nat then Raise ValueError
  else Ok (random_bounded_fill size s (Z.of_nat low)
             (Z.of_nat high - 1 - Z.of_nat low)).

Definition MT19937 : RandomState :=
  {| rs_state := mt19937_state;
     rs_new := mt19937_new;
     rs_randint := mt19937_randint |}.

(* ================================================================== *)
(** ** roc_utils.py: the bootstrap estimator *)
(* ================================================================== *)

Module roc_utils.

Section Estimator.

Variable R : RandomState.

(** The double quote and the line feed. *)
Definition dq : string := String (Ascii.ascii_of_nat 34) EmptyString.
Definition nl : string := String (Ascii.ascii_of_nat 10) EmptyString.

(** The docstring, lines 24-43, which [help=True] prints: the text between
    the triple quotes, line by line. *)
Definition __doc__ : string :=
  String.concat nl
    [ EmptyString;
      "    Compute the ROC AUC value and its 95% confidence interval using bootstrapping.";
      EmptyString;
      "    Args:";
      "        y_true (array-like): True binary labels (0 or 1).";
      "        y_score (array-like): Predicted continuous scores or probabilities.";
      "        help (bool): If True, print this docstring and return None.";
      "        n_bootstrap (int): Number of bootstrap resamples for CI estimation.";
      "        random_state (int): Random seed for reproducibility.";
      EmptyString;
      "    Returns:";
      "        dict: {";
      "            " ++ dq ++ "AUC" ++ dq ++ ": float,           # Calculated AUC value";
      "            " ++ dq ++ "CI" ++ dq ++ ": (lower, mean, upper)";
      "        }";
      EmptyString;
      "    Example:";
      "        >>> result = roc_auc_ci([0, 1, 1, 0], [0.2, 0.8, 0.7, 0.3])";
      "        >>> print(result[" ++ dq ++ "AUC" ++ dq ++ "], result[" ++ dq ++ "CI" ++ dq ++ "])";
      "    " ]%string.

(** The [for _ in range(n_bootstrap)] loop, lines 55-60: [rng] and
    [boot_scores] are the two variables it updates. *)
Fixpoint bootstrap_loop (y_true : list bool) (y_score : list Q)
    (n_bootstrap : nat) (rng : rs_state R) (boot_scores : list pyfloat)
    : result (list pyfloat * rs_state R) :=
  match n_bootstrap with
  | O => Ok (boot_scores, rng)
  | S n =>
      ' (indices, rng) <-
        rs_randint R rng 0 (length y_score) (length y_score) ;;
      labels <- take y_true indices ;;
      if (length (np_unique labels) <? 2)%nat
      then bootstrap_loop y_true y_score n rng boot_scores
      else
        scores <- take y_score indices ;;
        boot_auc <- roc_auc_score labels scores ;;
        bootstrap_loop y_true y_score n rng (boot_scores ++ [boot_auc])
  end.

(** [roc_auc_ci(y_true, y_score, help, n_bootstrap, random_state)], run in
    a world [w]; the outcome comes with the world the call leaves.
    [np.array] copies its argument, so the arrays are values here.
    [n_bootstrap] is a natural number: [range] of a negative count is as
    empty as [range(0)]. *)
Definition roc_auc_ci (y_true : list bool) (y_score : list Q) (help : bool)
    (n_bootstrap : nat) (random_state : Z) (w : world (rs_state R))
    : result retval * world (rs_state R) :=
  if help then (Ok PyNone, print __doc__ w)
  else
    (auc_val <- roc_auc_score y_true y_score ;;
     rng <- rs_new R random_state ;;
     ' (boot_scores, _) <- bootstrap_loop y_true y_score n_bootstrap rng [] ;;
     let sorted_scores := np_sort boot_scores in
     ci_lower <- np_percentile sorted_scores 2.5 ;;
     ci_upper <- np_percentile sorted_scores 97.5 ;;
     Ok (Dict auc_val (ci_lower, auc_val, ci_upper)),
     w).

End Estimator.

(** Defaults of the keyword arguments. *)
Definition default_n_bootstrap : nat := 2000.
Definition default_random_state : Z := 42.

End roc_utils.

(* ================================================================== *)
(** ** roc_utils.py: the bootstrap estimator in a process with objects *)
(* ================================================================== *)

(** The embedding above passes arrays by value.  What the call does to its
    arguments and to the state around it cannot be read off values, so the
    same function is embedded a second time: its arguments and locals are
    addresses of objects in a process, and every call it makes says what
    it reads, creates and changes.  An address that holds nothing raises
    NameError, an object of the wrong kind TypeError. *)
Module roc_utils_process.

Section Process.

Variable R : RandomState.

(** What lives at an address: an array or list of labels, of finite
    scores, of floats or of indices, or a RandomState. *)
Inductive object : Type :=
  | Labels (a : list bool)
  | Scores (a : list Q)
  | Floats (a : list pyfloat)
  | Indices (a : list nat)
  | Generator (g : rs_state R).

(** The state of the Python process: the objects by address, the next
    free address, the world of the value-level embedding (what was
    printed, numpy's module-level generator), and the warnings issued so
    far, by category. *)
Record process : Type := mkProcess {
  objects : nat -> option object;
  next : nat;
  console : world (rs_state R);
  warnings : list string
}.

(** A computation in the process: an outcome and the process it leaves
    (also when it raises). *)
Definition M (A : Type) : Type := process -> result A * process.

Definition ret {A : Type} (a : A) : M A := fun p => (Ok a, p).

Definition lift {A : Type} (r : result A) : M A := fun p => (r, p).

Definition bindM {A B : Type} (m : M A) (f : A -> M B) : M B :=
  fun p =>
    match m p with
    | (Ok a, p') => f a p'
    | (Raise e, p') => (Raise e, p')
    end.

Notation "x <~ c ;; k" := (bindM c (fun x => k))
  (at level 61, c at next level, right associativity).

(** The process after a new object was created, after the object at an
    address was changed in place, after a warning, after a print. *)
Definition with_new (o : object) (p : process) : process :=
  {| objects := fun r => if (r =? next p)%nat then Some o else objects p r;
     next := S (next p);
     console := console p;
     warnings := warnings p |}.

Definition with_object (r : nat) (o : object) (p : process) : process :=
  {| objects := fun r' => if (r' =? r)%nat then Some o else objects p r';
     next := next p;
     console := console p;
     warnings := warnings p |}.

Definition with_warning (category : string) (p : process) : process :=
  {| objects := objects p;
     next := next p;
     console := console p;
     warnings := warnings p ++ [category] |}.

Definition with_print (s : string) (p : process) : process :=
  {| objects := objects p;
     next := next p;
     console := print s (console p);
     warnings := warnings p |}.

Definition alloc (o : object) : M nat := fun p => (Ok (next p), with_new o p).

Definition assign (r : nat) (o : object) : M unit :=
  fun p => (Ok tt, with_object r o p).

Definition warn (category : string) : M unit :=
  fun p => (Ok tt, with_warning category p).

Definition load (r : nat) : M object :=
  fun p =>
    match objects p r with
    | Some o => (Ok o, p)
    | None => (Raise NameError, p)
    end.

Definition labels_at (r : nat) : M (list bool) :=
  o <~ load r ;;
  match o with Labels a => ret a | _ => lift (Raise TypeError) end.

Definition scores_at (r : nat) : M (list Q) :=
  o <~ load r ;;
  match o with Scores a => ret a | _ => lift (Raise TypeError) end.

Definition floats_at (r : nat) : M (list pyfloat) :=
  o <~ load r ;;
  match o with Floats a => ret a | _ => lift (Raise TypeError) end.

Definition indices_at (r : nat) : M (list nat) :=
  o <~ load r ;;
  match o with Indices a => ret a | _ => lift (Raise TypeError) end.

Definition generator_at (r : nat) : M (rs_state R) :=
  o <~ load r ;;
  match o with Generator g => ret g | _ => lift (Raise TypeError) end.

(** The calls of the function, by what they read, create and change.
    [np.array(x)] builds a new array from [x]; [len] reads; [a[indices]]
    and [np.unique] build new arrays; [roc_auc_score] reads its two
    arguments and, where it returns nan, issues UndefinedMetricWarning;
    [RandomState(seed)] creates a generator of its own, and [randint]
    advances that generator and creates the index array; [append] changes
    the list in place; [np.sort] builds a sorted copy; [np.percentile]
    reads. *)
Definition np_array (x : nat) : M nat :=
  o <~ load x ;; alloc o.

Definition len (x : nat) : M nat :=
  o <~ load x ;;
  match o with
  | Labels a => ret (length a)
  | Scores a => ret (length a)
  | Floats a => ret (length a)
  | Indices a => ret (length a)
  | Generator _ => lift (Raise TypeError)
  end.

Definition getitem (a indices : nat) : M nat :=
  o <~ load a ;;
  idx <~ indices_at indices ;;
  match o with
  | Labels l => x <~ lift (take l idx) ;; alloc (Labels x)
  | Scores l => x <~ lift (take l idx) ;; alloc (Scores x)
  | _ => lift (Raise TypeError)
  end.

Definition np_unique_at (a : nat) : M nat :=
  l <~ labels_at a ;; alloc (Labels (np_unique l)).

Definition roc_auc_score_at (y_true y_score : nat) : M pyfloat :=
  a <~ labels_at y_true ;;
  b <~ scores_at y_score ;;
  v <~ lift (roc_auc_score a b) ;;
  _ <~ (if isnan v then warn "UndefinedMetricWarning" else ret tt) ;;
  ret v.

Definition RandomState_new (seed : Z) : M nat :=
  g <~ lift (rs_new R seed) ;; alloc (Generator g).

Definition randint (rng : nat) (low high size : nat) : M nat :=
  g <~ generator_at rng ;;
  drawn <~ lift (rs_randint R g low high size) ;;
  _ <~ assign rng (Generator (snd drawn)) ;;
  alloc (Indices (fst drawn)).

Definition list_new : M nat := alloc (Floats []).

Definition append (l : nat) (x : pyfloat) : M unit :=
  a <~ floats_at l ;; assign l (Floats (a ++ [x])).

Definition np_sort_at (a : nat) : M nat :=
  l <~ floats_at a ;; alloc (Floats (np_sort l)).

Definition np_percentile_at (a : nat) (q : Q) : M pyfloat :=
  l <~ floats_at a ;; lift (np_percentile l q).

Definition print_at (s : string) : M unit :=
  fun p => (Ok tt, with_print s p).

(** The loop, lines 55-60; the four arguments are the addresses the local
    names [y_true], [y_score], [rng] and [boot_scores] are bound to. *)
Fixpoint bootstrap_loop (y_true y_score rng boot_scores : nat)
    (n_bootstrap : nat) : M unit :=
  match n_bootstrap with
  | O => ret tt
  | S n =>
      N <~ len y_score ;;
      indices <~ randint rng 0 N N ;;
      labels <~ getitem y_true indices ;;
      classes <~ np_unique_at labels ;;
      k <~ len classes ;;
      if (k <? 2)%nat
      then bootstrap_loop y_true y_score rng boot_scores n
      else
        labels <~ getitem y_true indices ;;
        scores <~ getitem y_score indices ;;
        boot_auc <~ roc_auc_score_at labels scores ;;
        _ <~ append boot_scores boot_auc ;;
        bootstrap_loop y_true y_score rng boot_scores n
  end.

(** [roc_auc_ci(y_true, y_score, help, n_bootstrap, random_state)], called
    with the addresses of its two array arguments. *)
Definition roc_auc_ci (y_true y_score : nat) (help : bool)
    (n_bootstrap : nat) (random_state : Z) : M retval :=
  if help
  then _ <~ print_at roc_utils.__doc__ ;; ret PyNone
  else
    y_true <~ np_array y_true ;;
    y_score <~ np_array y_score ;;
    auc_val <~ roc_auc_score_at y_true y_score ;;
    rng <~ RandomState_new random_state ;;
    boot_scores <~ list_new ;;
    _ <~ bootstrap_loop y_true y_score rng boot_scores n_bootstrap ;;
    sorted_scores <~ np_sort_at boot_scores ;;
    ci_lower <~ np_percentile_at sorted_scores 2.5 ;;
    ci_upper <~ np_percentile_at sorted_scores 97.5 ;;
    ret (Dict auc_val (ci_lower, auc_val, ci_upper)).

End Process.

Arguments ret {R A} a.
Arguments lift {R A} r.
Arguments bindM {R A B} m f.
Arguments Labels {R} a.
Arguments Scores {R} a.
Arguments Floats {R} a.
Arguments Indices {R} a.
Arguments Generator {R} g.
Arguments objects {R} p.
Arguments next {R} p.
Arguments console {R} p.
Arguments warnings {R} p.

(** What a call may not touch: the objects below an address stay as they
    are, no address is given up, and nothing is printed or drawn from
    numpy's module-level generator. *)
Definition frame {R : RandomState} (base : nat) (p p' : process R) : Prop :=
  (forall r, (r < base)%nat -> objects p' r = objects p r) /\
  (next p <= next p')%nat /\
  console p' = console p.

End roc_utils_process.

(* ================================================================== *)
(** ** test.py: the analytic (Hanley-McNeil) estimator *)
(* ================================================================== *)

Module test.

Section Analytic.

(** [math.sqrt] on floats: a parameter, with its contract
    ([sqrt_lawful]) stated after the section. *)
Variable sqrt : Q -> result Q.

Local Open Scope float_scope.

(** Python's [/] on floats: a zero divisor raises ZeroDivisionError, also
    under a nan; a nan divisor gives nan. *)
Definition truediv (a b : pyfloat) : result pyfloat :=
  match b with
  | finite y =>
      if Qeq_bool y 0 then Raise ZeroDivisionError else Ok (lift2 Qdiv a b)
  | nan => Ok nan
  end.

(** [math.sqrt] on a float: nan for nan. *)
Definition fsqrt (a : pyfloat) : result pyfloat :=
  match a with
  | finite x => r <- sqrt x ;; Ok (finite r)
  | nan => Ok nan
  end.

(** [y_true.count(c)] on a list of labels. *)
Definition count (c : bool) (y_true : list bool) : nat :=
  count_occ bool_dec y_true c.

(** [roc_auc_ci(y_true, y_score)], lines 16-29: it returns
    [(lower, upper), SE_AUC].  [y_true] is a Python list of labels 0/1
    ([count(1)] and [count(0)] count its positives and negatives, two
    integers). *)
Definition roc_auc_ci (y_true : list bool) (y_score : list Q)
    : result ((pyfloat * pyfloat) * pyfloat) :=
  AUC <- roc_auc_score y_true y_score ;;
  let N1 := finite (inject_Z (Z.of_nat (count true y_true))) in
  let N2 := finite (inject_Z (Z.of_nat (count false y_true))) in
  Q1 <- truediv AUC (2 - AUC) ;;
  Q2 <- truediv (2 * AUC ^ 2) (1 + AUC) ;;
  variance <-
    truediv (AUC * (1 - AUC) + (N1 - 1) * (Q1 - AUC ^ 2)
             + (N2 - 1) * (Q2 - AUC ^ 2))
            (N1 * N2) ;;
  SE_AUC <- fsqrt variance ;;
  let lower := AUC - 1.96 * SE_AUC in
  let upper := AUC + 1.96 * SE_AUC in
  let lower := if flt lower 0 then finite 0 else lower in
  let upper := if flt 1 upper then finite 1 else upper in
  Ok ((lower, upper), SE_AUC).

End Analytic.

(** Contract of [math.sqrt]: ValueError below zero, a non-negative result
    otherwise. *)
Record sqrt_lawful (sqrt : Q -> result Q) : Prop := mkSqrtLawful {
  sqrt_domain : forall x, x < 0 -> sqrt x = Raise ValueError;
  sqrt_total : forall x, 0 <= x -> exists r, sqrt x = Ok r;
  sqrt_nonneg : forall x r, sqrt x = Ok r -> 0 <= r
}.

(** An executable square root meeting the contract: the integer square
    root of the fraction scaled by 10^12, i.e. six decimals. *)
Definition sqrt_6dp (x : Q) : result Q :=
  if Qlt_bool x 0 then Raise ValueError
  else Ok (Z.sqrt ((Qnum x * 10 ^ 12) / Z.pos (Qden x)) # 10 ^ 6).

End test.

(* ================================================================== *)
(** ** Vocabulary of the statements *)
(* ================================================================== *)

(** A probability: a rational in [0, 1]. *)
Definition unit_interval (x : Q) : Prop := 0 <= x /\ x <= 1.

(** The [k]-th order statistic of a sorted array, counted from 0; past the
    end it is the largest element. *)
Definition order_stat (s : list Q) (k : nat) : Q := nth k s (last s 0).

(** The percentile as the specification words it: linear interpolation
    between the two order statistics around position [(n - 1) * q / 100]
    of the sorted array [s]. *)
Definition interpolated_percentile (s : list Q) (q : Q) : Q :=
  let h := inject_Z (Z.of_nat (length s) - 1) * (q / 100) in
  let k := Z.to_nat (Qfloor h) in
  order_stat s k
  + (h - inject_Z (Qfloor h)) * (order_stat s (k + 1) - order_stat s k).

(** The observations an index array selects ([d] pads indices out of
    range, which a lawful generator never draws). *)
Definition resample {A : Type} (a : list A) (d : A) (indices : list nat)
    : list A :=
  map (fun i => nth i a d) indices.

(** Whether the labels selected by [indices] show both classes. *)
Definition two_classes (y_true : list bool) (indices : list nat) : bool :=
  (2 <=? length (np_unique (resample y_true false indices)))%nat.

(** What one resample adds to the bootstrap distribution: its AUC when
    that is defined, nothing otherwise. *)
Definition contribution (y_true : list bool) (y_score : list Q)
    (indices : list nat) : list Q :=
  match roc_auc_score (resample y_true false indices)
                      (resample y_score 0 indices) with
  | Ok (finite v) => [v]
  | _ => []
  end.

(** The index arrays of [n] successive calls [randint(0, N, N)] from
    generator state [g], with the state they leave. *)
Fixpoint draw_seq (R : RandomState) (N n : nat) (g : rs_state R)
    : list (list nat) * rs_state R :=
  match n with
  | O => ([], g)
  | S n' =>
      match rs_randint R g 0 N N with
      | Ok (indices, g') =>
          let '(rest, g'') := draw_seq R N n' g' in (indices :: rest, g'')
      | Raise _ => ([], g)
      end
  end.

(** The index arrays a call with seed [random_state] draws. *)
Definition bootstrap_draws (R : RandomState) (N n : nat) (random_state : Z)
    : list (list nat) :=
  match rs_new R random_state with
  | Ok rng => fst (draw_seq R N n rng)
  | Raise _ => []
  end.

(** [N] indices, each in [0, N). *)
Definition in_range (N : nat) (indices : list nat) : Prop :=
  length indices = N /\ Forall (fun i => (i < N)%nat) indices.

(** The first [n] outputs of the generator from state [s]. *)
Fixpoint mt19937_outputs (n : nat) (s : mt19937_state) : list Z :=
  match n with
  | O => []
  | S n' => let '(v, s') := mt19937_next s in v :: mt19937_outputs n' s'
  end.

(** The docstring's example data. *)
Definition toy_labels : list bool := [false; true; true; false].
Definition toy_scores : list Q := [0.2; 0.8; 0.7; 0.3].

(** Four observations that are not perfectly separated, and the smallest
    data set with both classes. *)
Definition mixed_labels : list bool := [false; true; true; false].
Definition mixed_scores : list Q := [0.2; 0.8; 0.25; 0.3].
Definition pair_labels : list bool := [false; true].
Definition pair_scores : list Q := [0.2; 0.8].

(** The world the demo section sets up: nothing printed yet, numpy's
    module-level generator seeded with 2025. *)
Definition demo_world : world mt19937_state :=
  {| stdout := []; np_random := mt19937_seed 2025 |}.

(** The warnings a call on these arrays issues: the one [roc_auc_score]
    gives on labels of one class. *)
Definition issued (y_true : list bool) (y_score : list Q) : list string :=
  match roc_auc_score y_true y_score with
  | Ok v => if isnan v then ["UndefinedMetricWarning"%string] else []
  | Raise _ => []
  end.

(** A process that holds two arrays, at addresses 0 and 1, and nothing
    else. *)
Definition demo_process (y_true : list bool) (y_score : list Q)
    : roc_utils_process.process MT19937 :=
  roc_utils_process.mkProcess MT19937
    (fun r =>
       match r with
       | O => Some (roc_utils_process.Labels y_true)
       | S O => Some (roc_utils_process.Scores y_score)
       | _ => None
       end)
    2 demo_world [].

(** Every positive observation scores strictly above every negative
    one. *)
Definition separated (y_true : list bool) (y_score : list Q) : bool :=
  forallb (fun p => forallb (fun n => negb (Qle_bool p n))
                            (scores_of false y_true y_score))
          (scores_of true y_true y_score).

(** Arrays of one length that show both classes. *)
Definition valid_input (y_true : list bool) (y_score : list Q) : bool :=
  (length y_true =? length y_score)%nat &&
  (2 <=? length (np_unique y_true))%nat.

(** A seed [RandomState] accepts. *)
Definition valid_seed (random_state : Z) : bool :=
  ((0 <=? random_state) && (random_state <? 2 ^ 32))%Z.


(* ================================================================== *)
(** ** roc_utils.py: the faceted figure of plot_roc_panels_pub *)
(* ================================================================== *)

Module roc_utils_plots.

(** A row of [infer_df], reduced to the three columns the function reads:
    "Dataset", [truth_col] and [score_col] (a frame that lacks one of them
    is outside the model). *)
Record row : Type := mkRow {
  Dataset : string;
  truth : bool;
  score : Q
}.

(** [infer_df[infer_df["Dataset"] == ds]]: the rows of one dataset, in
    their order. *)
Definition rows_of (infer_df : list row) (ds : string) : list row :=
  filter (fun r => String.eqb (Dataset r) ds) infer_df.

(** [Series.unique().tolist()]: the distinct values in order of first
    appearance. *)
Fixpoint unique (l : list string) : list string :=
  match l with
  | [] => []
  | x :: t => x :: filter (fun y => negb (String.eqb y x)) (unique t)
  end.

(** [d.get(k, None)] on a dictionary given by its items. *)
Fixpoint dict_get (d : list (string * string)) (k : string) : option string :=
  match d with
  | [] => None
  | (k', v) :: t => if String.eqb k' k then Some v else dict_get t k
  end.

(** [a or b] on an optional integer: [None] and 0 are falsy. *)
Definition py_or (a : option Z) (b : Z) : Z :=
  match a with
  | Some x => if (x =? 0)%Z then b else x
  | None => b
  end.

(** The keyword arguments of [plot_roc_panels_pub]. *)
Record kwargs : Type := mkKwargs {
  colors : option (list (string * string));
  title_main : string;
  base_font : Z;
  title_font : option Z;
  line_width : Q;
  alpha : Q;
  ncol : Z;
  panel_size : Q * Q;
  legend_title : string;
  legend_font_delta : Z;
  fixedlocator : bool
}.

Definition defaults : kwargs :=
  {| colors := None;
     title_main := "ROC Curve Panels";
     base_font := 20;
     title_font := None;
     line_width := 2.0;
     alpha := 1.0;
     ncol := 3;
     panel_size := (5, 5);
     legend_title := "AUC";
     legend_font_delta := -6;
     fixedlocator := true |}.

(** What the function does to one Axes, call by call.  Arguments that are
    constants in the source are left out. *)
Inductive ax_call : Type :=
  | Plot (fpr tpr : list pyfloat) (color : option string) (lw alpha : Q)
         (auc_val : pyfloat)
      (* ax.plot(fpr, tpr, color=, lw=, alpha=,
                 label=f"AUC = {auc_val:.2f}") *)
  | Legend (fontsize : Z) (title : string) (title_fontsize : Z)
      (* ax.legend(frameon=False, fontsize=, title=, title_fontsize=,
                   loc='lower right'), its box then aligned right *)
  | ROC_spine (base_font : Z) (fixedlocator : bool)
      (* plot_ROC_spine(ax, base_font=, fixedlocator=) *)
  | Tick_params
      (* the two ax.tick_params calls with constant arguments *)
  | Set_title (label : string) (fontsize : Z).
      (* ax.set_title(ds, fontsize=, weight='bold', pad=5) *)

(** An Axes: the calls made on it so far, and whether the figure still
    holds it. *)
Record Axes : Type := mkAxes {
  calls : list ax_call;
  in_figure : bool
}.

(** A figure with its grid of Axes, row by row. *)
Record Figure : Type := mkFigure {
  nrows : Z;
  ncols : Z;
  figsize : Q * Q;
  axes : list Axes;
  suptitle : option (string * Z)
}.

(** [plt.subplots(nrow, ncol, figsize=, squeeze=False)]: a grid of fresh
    Axes; ValueError for a negative figure size, and unless both counts
    are positive. *)
Definition subplots (nrow ncol : Z) (size : Q * Q) : result Figure :=
  if (Qlt_bool (fst size) 0 || Qlt_bool (snd size) 0
      || negb (0 <? nrow)%Z || negb (0 <? ncol)%Z)%bool
  then Raise ValueError
  else Ok {| nrows := nrow; ncols := ncol; figsize := size;
             axes := repeat {| calls := []; in_figure := true |}
                            (Z.to_nat (nrow * ncol));
             suptitle := None |}.

(** Position of [axes[r, c]] in the row-major grid; IndexError outside
    it.  (Negative indices, which numpy would wrap, do not arise: [r]
    and [c] come from [divmod] by a positive [ncol].) *)
Definition index2 (nrow ncol r c : Z) : result nat :=
  if ((0 <=? r) && (r <? nrow) && (0 <=? c) && (c <? ncol))%Z
  then Ok (Z.to_nat (r * ncol + c))
  else Raise IndexError.

(** The Axes at position [i] after [f] was applied to it. *)
Fixpoint update (i : nat) (f : Axes -> Axes) (l : list Axes) : list Axes :=
  match l, i with
  | [], _ => []
  | a :: t, O => f a :: t
  | a :: t, S i' => a :: update i' f t
  end.

(** An Axes after further calls. *)
Definition add_calls (cs : list ax_call) (a : Axes) : Axes :=
  {| calls := calls a ++ cs; in_figure := in_figure a |}.

Section Panels.

(** [sklearn.metrics.roc_curve], of which the first two outputs are used:
    library code, a parameter here.  (On labels of one class it hands back
    a rate of nan.) *)
Variable roc_curve :
  list bool -> list Q -> result (list pyfloat * list pyfloat).

(** What matplotlib makes of one call on an Axes, and of the closing
    [fig.tight_layout(rect=...)] and [fig.canvas.draw_idle()]: it may
    refuse the arguments (a colour it does not know, an alpha outside
    [0, 1]) or fail on the geometry.  Library code, two parameters. *)
Variable mpl : ax_call -> result unit.
Variable layout : Figure -> result unit.

Variable infer_df : list row.
Variable kw : kwargs.

(** One call on [axes.flatten()[ax]]. *)
Definition call (ax : nat) (c : ax_call) (axs : list Axes)
    : result (list Axes) :=
  _ <- mpl c ;;
  Ok (update ax (add_calls [c]) axs).

(** The body of [for idx, ds in enumerate(datasets)], lines 272-311. *)
Fixpoint draw_panels (nrow : Z) (idx : Z) (datasets : list string)
    (axs : list Axes) : result (list Axes) :=
  match datasets with
  | [] => Ok axs
  | ds :: rest =>
      let '(r, c) := ((idx / ncol kw)%Z, (idx mod ncol kw)%Z) in
      ax <- index2 nrow (ncol kw) r c ;;
      let sub := rows_of infer_df ds in
      let y_true := map truth sub in
      let y_score := map score sub in
      ' (fpr, tpr) <- roc_curve y_true y_score ;;
      auc_val <- roc_auc_score y_true y_score ;;
      let color :=
        match colors kw with
        | Some d => dict_get d ds
        | None => None
        end in
      axs <- call ax (Plot fpr tpr color (line_width kw) (alpha kw) auc_val)
               axs ;;
      axs <- call ax (Legend (Z.max 6 (base_font kw + legend_font_delta kw))
                        (legend_title kw)
                        (Z.max 6 (base_font kw + legend_font_delta kw + 2)))
               axs ;;
      axs <- call ax (ROC_spine (base_font kw) (fixedlocator kw)) axs ;;
      axs <- call ax Tick_params axs ;;
      axs <- call ax (Set_title ds (py_or (title_font kw) (base_font kw)))
               axs ;;
      draw_panels nrow (idx + 1)%Z rest axs
  end.

(** [for j in range(n_datasets, total_axes): fig.delaxes(...)]. *)
Definition delaxes_from (n_datasets total_axes : nat) (axs : list Axes)
    : list Axes :=
  fold_left
    (fun l j => update j (fun a => {| calls := calls a;
                                      in_figure := false |}) l)
    (seq n_datasets (total_axes - n_datasets)) axs.

(** [plot_roc_panels_pub(infer_df, datasets, ...)], lines 260-322; the
    returned pair [(fig, axes)] is the figure with its grid. *)
Definition plot_roc_panels_pub (datasets : option (list string))
    : result Figure :=
  let datasets :=
    match datasets with
    | None => unique (map Dataset infer_df)
    | Some l => l
    end in
  let n_datasets := length datasets in
  if (ncol kw =? 0)%Z then Raise ZeroDivisionError
  else
    let nrow :=
      Qceiling (inject_Z (Z.of_nat n_datasets) / inject_Z (ncol kw)) in
    fig <- subplots nrow (ncol kw)
             (fst (panel_size kw) * inject_Z (ncol kw),
              snd (panel_size kw) * inject_Z nrow) ;;
    axs <- draw_panels nrow 0 datasets (axes fig) ;;
    let total_axes := Z.to_nat (nrow * ncol kw) in
    let axs := delaxes_from n_datasets total_axes axs in
    let fig :=
      {| nrows := nrows fig; ncols := ncols fig; figsize := figsize fig;
         axes := axs;
         suptitle := Some (title_main kw,
                           py_or (title_font kw) (base_font kw + 4)) |} in
    _ <- layout fig ;;
    Ok fig.

End Panels.

(** The datasets that get a panel: the list given, or all datasets of the
    frame. *)
Definition panel_datasets (infer_df : list row)
    (datasets : option (list string)) : list string :=
  match datasets with
  | None => unique (map Dataset infer_df)
  | Some l => l
  end.

(** Labels and scores of one dataset. *)
Definition labels_of (infer_df : list row) (ds : string) : list bool :=
  map truth (rows_of infer_df ds).
Definition values_of (infer_df : list row) (ds : string) : list Q :=
  map score (rows_of infer_df ds).

(** The calls one dataset's panel receives, in order. *)
Definition panel_calls (kw : kwargs) (ds : string) (fpr tpr : list pyfloat)
    (auc_val : pyfloat) : list ax_call :=
  [ Plot fpr tpr
      (match colors kw with Some d => dict_get d ds | None => None end)
      (line_width kw) (alpha kw) auc_val;
    Legend (Z.max 6 (base_font kw + legend_font_delta kw)) (legend_title kw)
           (Z.max 6 (base_font kw + legend_font_delta kw + 2));
    ROC_spine (base_font kw) (fixedlocator kw);
    Tick_params;
    Set_title ds (py_or (title_font kw) (base_font kw)) ].

(** A fresh Axes, drawing one dataset on an Axes, and removing an Axes
    from the figure. *)
Definition blank : Axes := {| calls := []; in_figure := true |}.

Definition draw (kw : kwargs) (ds : string) (fpr tpr : list pyfloat)
    (auc_val : pyfloat) (a : Axes) : Axes :=
  add_calls (panel_calls kw ds fpr tpr auc_val) a.

Definition remove (a : Axes) : Axes :=
  {| calls := calls a; in_figure := false |}.

End roc_utils_plots.

(* ================================================================== *)
(** ** test.py: call_ROC_value *)
(* ================================================================== *)

Module test_script.

(** [np.argmax] scans for the first largest element. *)
Fixpoint argmax_from (best : Q) (best_idx idx : nat) (a : list Q) : nat :=
  match a with
  | [] => best_idx
  | x :: t =>
      if Qlt_bool best x then argmax_from x idx (S idx) t
      else argmax_from best best_idx (S idx) t
  end.

(** [np.argmax(a)]: ValueError on an empty array. *)
Definition np_argmax (a : list Q) : result nat :=
  match a with
  | [] => Raise ValueError
  | x :: t => Ok (argmax_from x 0 1 t)
  end.

(** [a - b] on one-dimensional arrays: element by element when the
    lengths agree, an array of length one being broadcast; ValueError
    otherwise. *)
Definition np_subtract (a b : list Q) : result (list Q) :=
  if (length a =? length b)%nat
  then Ok (map (fun p => fst p - snd p) (combine a b))
  else
    match a, b with
    | [x], _ => Ok (map (fun y => x - y) b)
    | _, [y] => Ok (map (fun x => x - y) a)
    | _, _ => Raise ValueError
    end.

(** [a[i]] for one index that is not negative. *)
Definition item {T : Type} (a : list T) (i : nat) : result T :=
  match nth_error a i with
  | Some x => Ok x
  | None => Raise IndexError
  end.

Section CallROC.

(** [metrics.roc_curve(y, scores, pos_label=pos)] and [metrics.auc]:
    library code, parameters here; so is [math.sqrt].  The function only
    indexes the thresholds, so their type is left open (the library puts
    an infinite one first).  The rates are typed for labels of two
    classes; on labels of one class, where the library hands back a rate
    of nan, line 37 raises. *)
Variable threshold : Type.
Variable roc_curve :
  list bool -> list Q -> bool -> result (list Q * list Q * list threshold).
Variable auc : list Q -> list Q -> result Q.
Variable sqrt : Q -> result Q.

(** [call_ROC_value(idata, col, pos)], lines 30-38; [factor] and [scores]
    are the columns [idata['factor']] and [idata[col]]. *)
Definition call_ROC_value (factor : list bool) (scores : list Q) (pos : bool)
    : result (list Q * list Q * Q * ((pyfloat * pyfloat) * pyfloat)
              * list threshold * threshold) :=
  let y_true := factor in
  ' (fpr, tpr, thresholds) <- roc_curve factor scores pos ;;
  youden <- np_subtract tpr fpr ;;
  optimal_idx <- np_argmax youden ;;
  optimal_threshold <- item thresholds optimal_idx ;;
  auc_val <- auc fpr tpr ;;
  ci <- test.roc_auc_ci sqrt y_true scores ;;
  Ok (fpr, tpr, auc_val, ci, thresholds, optimal_threshold).

End CallROC.

End test_script.


(* ================================================================== *)
(** ** Executable stand-ins for the library routines taken as parameters *)
(* ================================================================== *)

(** Points of the ROC curve with every score taken as threshold, from the
    highest down, after the origin: what [roc_curve] plots for data with
    both classes (before it prunes collinear points). *)
Definition roc_rates (y_true : list bool) (y_score : list Q)
    : result (list Q * list Q) :=
  if negb (length y_true =? length y_score)%nat then Raise ValueError
  else if negb (length (np_unique y_true) =? 2)%nat then Raise ValueError
  else
    let thresholds := rev (sort_Q y_score) in
    let P := inject_Z (Z.of_nat (length (scores_of true y_true y_score))) in
    let N := inject_Z (Z.of_nat (length (scores_of false y_true y_score))) in
    let above (c : bool) (t : Q) :=
      inject_Z (Z.of_nat (length (filter (fun s => Qle_bool t s)
                                         (scores_of c y_true y_score)))) in
    Ok (0 :: map (fun t => above false t / N) thresholds,
        0 :: map (fun t => above true t / P) thresholds).

(** The same for any labels: a rate over an empty class is nan. *)
Definition roc_points (y_true : list bool) (y_score : list Q)
    : result (list pyfloat * list pyfloat) :=
  if negb (length y_true =? length y_score)%nat then Raise ValueError
  else
    let thresholds := rev (sort_Q y_score) in
    let rates (c : bool) : list pyfloat :=
      let of_class := scores_of c y_true y_score in
      match of_class with
      | [] => repeat nan (S (length thresholds))
      | _ =>
          finite 0
          :: map (fun t =>
                    finite
                      (inject_Z (Z.of_nat (length (filter (fun s => Qle_bool t s)
                                                          of_class)))
                       / inject_Z (Z.of_nat (length of_class))))
               thresholds
      end in
    Ok (rates false, rates true).

(** The same with the thresholds, for a chosen positive label; [None] is
    the infinite threshold the library puts first. *)
Definition roc_points_pos (y_true : list bool) (y_score : list Q) (pos : bool)
    : result (list Q * list Q * list (option Q)) :=
  ' (fpr, tpr) <- roc_rates (map (Bool.eqb pos) y_true) y_score ;;
  let thresholds := rev (sort_Q y_score) in
  Ok (fpr, tpr, None :: map Some thresholds).

(** A matplotlib that accepts every call. *)
Definition mpl_accepts (c : roc_utils_plots.ax_call) : result unit := Ok tt.
Definition layout_accepts (fig : roc_utils_plots.Figure) : result unit :=
  Ok tt.

(** The trapezoidal rule behind [metrics.auc]. *)
Fixpoint trapezoid (x y : list Q) : Q :=
  match x, y with
  | x0 :: ((x1 :: _) as xt), y0 :: ((y1 :: _) as yt) =>
      (x1 - x0) * (y0 + y1) / 2 + trapezoid xt yt
  | _, _ => 0
  end.

Definition trapezoid_auc (x y : list Q) : result Q :=
  if (length x <? 2)%nat then Raise ValueError else Ok (trapezoid x y).

(** A frame with four datasets, their rows interleaved. *)
Definition demo_rows : list roc_utils_plots.row :=
  map (fun t => roc_utils_plots.mkRow (fst (fst t)) (snd (fst t)) (snd t))
    [ ("A"%string, false, 0.2); ("A"%string, true, 0.8);
      ("B"%string, false, 0.4); ("B"%string, true, 0.3);
      ("A"%string, true, 0.7); ("C"%string, true, 0.9);
      ("C"%string, false, 0.1); ("D"%string, false, 0.5);
      ("D"%string, true, 0.5) ].

(* ================================================================== *)
(** ** Facts about the result monad *)
(* ================================================================== *)

Lemma bind_Ok_inv {A B : Type} (r : result A) (f : A -> result B) (b : B) :
  bind r f = Ok b -> exists a, r = Ok a /\ f a = Ok b.
Proof.
  destruct r as [a | e]; simpl; intros H.
  - exists a. split; [reflexivity | exact H].
  - discriminate H.
Qed.

(** One step of a successful sequence of calls: from
    [H : (x <- c ;; k) = Ok b] to [E : c = Ok x] and [H : k = Ok b]. *)
Tactic Notation "bind_inv" hyp(H) "as" simple_intropattern(x) ident(E) :=
  apply bind_Ok_inv in H; destruct H as (x & E & H).

(* ================================================================== *)
(** ** Facts about roc_auc_score *)
(* ================================================================== *)

Local Open Scope Q_scope.

Lemma pair_credit_unit (p n : Q) : unit_interval (pair_credit p n).
Proof.
  unfold pair_credit, unit_interval.
  destruct (p ?= n); split; lra.
Qed.

Lemma Qsum_bounds (l : list Q) :
  Forall unit_interval l ->
  0 <= Qsum l /\ Qsum l <= inject_Z (Z.of_nat (length l)).
Proof.
  induction 1 as [| x l [Hx0 Hx1] _ [IH0 IH1]].
  - simpl. split; apply Qle_refl.
  - change (Qsum (x :: l)) with (x + Qsum l).
    change (length (x :: l)) with (S (length l)).
    rewrite Nat2Z.inj_succ, <- Z.add_1_r, inject_Z_plus.
    change (inject_Z 1) with 1.
    split; lra.
Qed.

Lemma Qdiv_unit (s d : Q) : 0 <= s -> s <= d -> unit_interval (s / d).
Proof.
  intros Hs Hd. unfold unit_interval.
  destruct (Qlt_le_dec 0 d) as [Hpos | Hnonpos].
  - split.
    + apply Qle_shift_div_l; [exact Hpos | lra].
    + apply Qle_shift_div_r; [exact Hpos | lra].
  - assert (Hd0 : d == 0) by lra.
    assert (Hs0 : s == 0) by lra.
    rewrite Hs0. unfold Qdiv. rewrite Qmult_0_l. split; lra.
Qed.

Lemma rank_auc_unit (y_true : list bool) (y_score : list Q) :
  unit_interval (rank_auc y_true y_score).
Proof.
  unfold rank_auc.
  set (pos := scores_of true y_true y_score).
  set (neg := scores_of false y_true y_score).
  set (credits := map (fun pn => pair_credit (fst pn) (snd pn)) (list_prod pos neg)).
  assert (Hall : Forall unit_interval credits).
  { apply Forall_forall. intros x Hx. apply in_map_iff in Hx.
    destruct Hx as [[p n] [<- _]]. apply pair_credit_unit. }
  destruct (Qsum_bounds credits Hall) as [H0 H1].
  apply Qdiv_unit; [exact H0 |].
  unfold credits in H1 at 2. rewrite length_map, length_prod in H1. exact H1.
Qed.

(** A finite score is the rank statistic of arrays of one length that show
    both classes. *)
Lemma roc_auc_score_finite_inv (y_true : list bool) (y_score : list Q) (v : Q) :
  roc_auc_score y_true y_score = Ok (finite v) ->
  v = rank_auc y_true y_score /\
  length y_true = length y_score /\
  length (np_unique y_true) = 2%nat.
Proof.
  unfold roc_auc_score.
  destruct ((length y_true =? 0) || (length y_score =? 0))%nat;
    [discriminate |].
  destruct (Nat.eqb_spec (length (np_unique y_true)) 2) as [Hc | _];
    cbn [negb]; [| discriminate].
  destruct (Nat.eqb_spec (length y_true) (length y_score)) as [Hl | _];
    cbn [negb]; [| discriminate].
  intros H. injection H as <-. repeat split; assumption.
Qed.

Lemma roc_auc_score_unit (y_true : list bool) (y_score : list Q) (v : Q) :
  roc_auc_score y_true y_score = Ok (finite v) -> unit_interval v.
Proof.
  intros H. apply roc_auc_score_finite_inv in H. destruct H as (-> & _).
  apply rank_auc_unit.
Qed.

Lemma np_unique_length_le (a : list bool) :
  (length (np_unique a) <= length a)%nat.
Proof.
  unfold np_unique.
  destruct a as [| [|] a]; [simpl; lia | |].
  - cbn [existsb negb orb length app].
    destruct (existsb negb a) eqn:E; cbn [length app]; [| lia].
    destruct a as [| y a]; [discriminate | simpl; lia].
  - cbn [existsb negb orb length app].
    destruct (existsb (fun b => b) a) eqn:E; cbn [length app];
      [| simpl; lia].
    destruct a as [| y a]; [discriminate | simpl; lia].
Qed.

Lemma np_unique_length_le_2 (a : list bool) :
  (length (np_unique a) <= 2)%nat.
Proof.
  unfold np_unique.
  destruct (existsb negb a), (existsb (fun b => b) a); simpl; lia.
Qed.

(** On arrays of one length that show both classes the score is the rank
    statistic. *)
Lemma roc_auc_score_returns (y_true : list bool) (y_score : list Q) :
  length y_true = length y_score ->
  (2 <= length (np_unique y_true))%nat ->
  roc_auc_score y_true y_score = Ok (finite (rank_auc y_true y_score)).
Proof.
  intros Hlen Hcls. unfold roc_auc_score.
  pose proof (np_unique_length_le y_true) as Hle.
  pose proof (np_unique_length_le_2 y_true) as Hle2.
  destruct (Nat.eqb_spec (length y_true) 0) as [E | _]; [lia |].
  destruct (Nat.eqb_spec (length y_score) 0) as [E | _]; [lia |].
  cbn [orb].
  destruct (Nat.eqb_spec (length (np_unique y_true)) 2) as [_ | Hc]; [| lia].
  cbn [negb].
  destruct (Nat.eqb_spec (length y_true) (length y_score)) as [_ | Hl];
    [reflexivity | contradiction].
Qed.

(** An empty array, and arrays of different lengths that show both
    classes, are refused. *)
Lemma roc_auc_score_raises (y_true : list bool) (y_score : list Q) :
  y_true = [] \/ y_score = [] \/
  (length y_true <> length y_score /\
   (2 <= length (np_unique y_true))%nat) ->
  roc_auc_score y_true y_score = Raise ValueError.
Proof.
  intros H. unfold roc_auc_score.
  destruct (Nat.eqb_spec (length y_true) 0) as [E | Ht]; [reflexivity |].
  destruct (Nat.eqb_spec (length y_score) 0) as [E | Hs]; [reflexivity |].
  cbn [orb].
  destruct H as [-> | [-> | [Hl Hc]]]; [contradiction | contradiction |].
  pose proof (np_unique_length_le_2 y_true) as Hle2.
  destruct (Nat.eqb_spec (length (np_unique y_true)) 2) as [_ | Hc']; [| lia].
  cbn [negb].
  destruct (Nat.eqb_spec (length y_true) (length y_score)) as [Hl' | _];
    [contradiction | reflexivity].
Qed.

(** On labels of one class the score is nan, whatever the scores. *)
Lemma roc_auc_score_one_class (y_true : list bool) (y_score : list Q) :
  y_true <> [] -> y_score <> [] ->
  (length (np_unique y_true) < 2)%nat ->
  roc_auc_score y_true y_score = Ok nan.
Proof.
  intros Ht Hs Hc. unfold roc_auc_score.
  destruct (Nat.eqb_spec (length y_true) 0) as [E | _];
    [apply length_zero_iff_nil in E; contradiction |].
  destruct (Nat.eqb_spec (length y_score) 0) as [E | _];
    [apply length_zero_iff_nil in E; contradiction |].
  cbn [orb].
  destruct (Nat.eqb_spec (length (np_unique y_true)) 2) as [E | _]; [lia |].
  reflexivity.
Qed.

Lemma roc_auc_score_nan_inv (y_true : list bool) (y_score : list Q) :
  roc_auc_score y_true y_score = Ok nan ->
  (length (np_unique y_true) < 2)%nat.
Proof.
  unfold roc_auc_score.
  destruct ((length y_true =? 0) || (length y_score =? 0))%nat;
    [discriminate |].
  pose proof (np_unique_length_le_2 y_true) as Hle2.
  destruct (Nat.eqb_spec (length (np_unique y_true)) 2) as [Hc | Hc];
    cbn [negb]; [| intros _; lia].
  destruct (negb (length y_true =? length y_score)%nat); discriminate.
Qed.


(* ================================================================== *)
(** ** Facts about sort_Q *)
(* ================================================================== *)

Lemma insert_sorted_perm (x : Q) (l : list Q) :
  Permutation (insert_sorted x l) (x :: l).
Proof.
  induction l as [| y t IH]; simpl.
  - apply Permutation_refl.
  - destruct (Qle_bool x y).
    + apply Permutation_refl.
    + apply perm_trans with (y :: x :: t).
      * apply perm_skip. exact IH.
      * apply perm_swap.
Qed.

Lemma sort_Q_perm (a : list Q) : Permutation (sort_Q a) a.
Proof.
  induction a as [| x a IH]; simpl.
  - apply perm_nil.
  - apply perm_trans with (x :: sort_Q a).
    + apply insert_sorted_perm.
    + apply perm_skip. exact IH.
Qed.

Lemma sort_Q_length (a : list Q) : length (sort_Q a) = length a.
Proof. apply Permutation_length, sort_Q_perm. Qed.

Lemma insert_sorted_sorted (x : Q) (l : list Q) :
  StronglySorted Qle l -> StronglySorted Qle (insert_sorted x l).
Proof.
  induction 1 as [| y t Hs IH Hall]; simpl.
  - constructor; constructor.
  - destruct (Qle_bool x y) eqn:E.
    + apply Qle_bool_iff in E.
      constructor; [constructor; assumption |].
      constructor; [exact E |].
      eapply Forall_impl; [| exact Hall].
      intros z Hz. eapply Qle_trans; eassumption.
    + assert (Hyx : y <= x).
      { destruct (Qlt_le_dec y x) as [Hlt | Hle].
        - apply Qlt_le_weak. exact Hlt.
        - apply Qle_bool_iff in Hle. congruence. }
      constructor; [exact IH |].
      eapply Permutation_Forall.
      * apply Permutation_sym, insert_sorted_perm.
      * constructor; assumption.
Qed.

Lemma sort_Q_sorted (a : list Q) : StronglySorted Qle (sort_Q a).
Proof.
  induction a as [| x a IH]; simpl.
  - constructor.
  - apply insert_sorted_sorted. exact IH.
Qed.

(** Sorting a sorted array changes nothing. *)
Lemma sort_Q_of_sorted (l : list Q) : StronglySorted Qle l -> sort_Q l = l.
Proof.
  induction 1 as [| x t Hs IH Hall]; simpl; [reflexivity |].
  rewrite IH. destruct t as [| y t']; simpl; [reflexivity |].
  inversion Hall as [| ? ? Hxy _]; subst.
  apply Qle_bool_iff in Hxy. rewrite Hxy. reflexivity.
Qed.

Lemma sort_Q_idem (a : list Q) : sort_Q (sort_Q a) = sort_Q a.
Proof. apply sort_Q_of_sorted, sort_Q_sorted. Qed.

(* ================================================================== *)
(** ** Order statistics and the interpolated percentile *)
(* ================================================================== *)

Lemma order_stat_In (s : list Q) (k : nat) :
  s <> [] -> In (order_stat s k) s.
Proof.
  intros Hne. unfold order_stat.
  destruct (Nat.lt_ge_cases k (length s)) as [Hlt | Hge].
  - apply nth_In. exact Hlt.
  - rewrite nth_overflow by exact Hge.
    destruct (exists_last Hne) as [l' [a ->]].
    rewrite last_last. apply in_or_app. right. left. reflexivity.
Qed.

Lemma sorted_le_last (s : list Q) (x : Q) :
  StronglySorted Qle s -> In x s -> x <= last s 0.
Proof.
  intros Hs. revert x.
  induction Hs as [| y t Hs IH Hall]; intros x Hin; [contradiction |].
  destruct t as [| z t'].
  - destruct Hin as [<- | []]. simpl. apply Qle_refl.
  - change (last (y :: z :: t') 0) with (last (z :: t') 0).
    destruct Hin as [<- | Hin].
    + apply Qle_trans with z.
      * inversion Hall; assumption.
      * apply IH. left. reflexivity.
    + apply IH. exact Hin.
Qed.

Lemma sorted_nth_mono (s : list Q) (d : Q) (i j : nat) :
  StronglySorted Qle s -> (i <= j)%nat -> (j < length s)%nat ->
  nth i s d <= nth j s d.
Proof.
  intros Hs. revert i j.
  induction Hs as [| y t Hs IH Hall]; intros i j Hij Hj; simpl in Hj; [lia |].
  destruct i as [| i], j as [| j]; simpl; try lia.
  - apply Qle_refl.
  - rewrite Forall_forall in Hall. apply Hall, nth_In. lia.
  - apply IH; lia.
Qed.

Lemma order_stat_mono (s : list Q) (i j : nat) :
  StronglySorted Qle s -> (i <= j)%nat -> order_stat s i <= order_stat s j.
Proof.
  intros Hs Hij. unfold order_stat.
  destruct (Nat.lt_ge_cases j (length s)) as [Hlt | Hge].
  - apply sorted_nth_mono; assumption.
  - rewrite (nth_overflow s (last s 0) Hge).
    destruct (Nat.lt_ge_cases i (length s)) as [Hi | Hi].
    + apply sorted_le_last; [exact Hs | apply nth_In; exact Hi].
    + rewrite nth_overflow by exact Hi. apply Qle_refl.
Qed.

Lemma Qfloor_frac (h : Q) :
  0 <= h - inject_Z (Qfloor h) /\ h - inject_Z (Qfloor h) < 1.
Proof.
  pose proof (Qfloor_le h) as Hle. pose proof (Qlt_floor h) as Hlt.
  rewrite inject_Z_plus in Hlt. change (inject_Z 1) with 1 in Hlt.
  split; lra.
Qed.

(** The interpolated value lies between the two order statistics. *)
Lemma interpolated_between (s : list Q) (q : Q) :
  StronglySorted Qle s ->
  let h := inject_Z (Z.of_nat (length s) - 1) * (q / 100) in
  let k := Z.to_nat (Qfloor h) in
  order_stat s k <= interpolated_percentile s q /\
  interpolated_percentile s q <= order_stat s (k + 1).
Proof.
  intros Hs h k. unfold interpolated_percentile. fold h. fold k.
  pose proof (order_stat_mono s k (k + 1) Hs ltac:(lia)) as Hmono.
  destruct (Qfloor_frac h) as [Hf0 Hf1].
  set (f := h - inject_Z (Qfloor h)) in *.
  set (a := order_stat s k) in *. set (b := order_stat s (k + 1)) in *.
  split; nra.
Qed.

Lemma interpolated_unit (s : list Q) (q : Q) :
  s <> [] -> StronglySorted Qle s -> Forall unit_interval s ->
  unit_interval (interpolated_percentile s q).
Proof.
  intros Hne Hs Hall.
  destruct (interpolated_between s q Hs) as [Hlo Hhi].
  cbv zeta in Hlo, Hhi.
  rewrite Forall_forall in Hall.
  split.
  - eapply Qle_trans; [| exact Hlo]. apply Hall, order_stat_In, Hne.
  - eapply Qle_trans; [exact Hhi |]. apply Hall, order_stat_In, Hne.
Qed.

(** The interpolated percentile grows with the requested percentage. *)
Lemma interpolated_mono (s : list Q) (q1 q2 : Q) :
  StronglySorted Qle s -> s <> [] -> 0 <= q1 -> q1 <= q2 ->
  interpolated_percentile s q1 <= interpolated_percentile s q2.
Proof.
  intros Hs Hne Hq0 Hq.
  pose proof (interpolated_between s q1 Hs) as [Hlo1 Hhi1].
  pose proof (interpolated_between s q2 Hs) as [Hlo2 Hhi2].
  cbv zeta in *.
  set (n1 := inject_Z (Z.of_nat (length s) - 1)) in *.
  assert (Hn1 : 0 <= n1).
  { unfold n1. change 0 with (inject_Z 0). rewrite <- Zle_Qle.
    destruct s; [congruence | simpl length; lia]. }
  set (h1 := n1 * (q1 / 100)) in *. set (h2 := n1 * (q2 / 100)) in *.
  assert (Hh : h1 <= h2).
  { unfold h1, h2.
    assert (Hdiv : q1 / 100 <= q2 / 100).
    { unfold Qdiv. apply Qmult_le_compat_r; [exact Hq | discriminate]. }
    rewrite !(Qmult_comm n1).
    apply Qmult_le_compat_r; assumption. }
  pose proof (Qfloor_resp_le _ _ Hh) as Hk.
  destruct (Z.eq_dec (Qfloor h1) (Qfloor h2)) as [Heq | Hne12].
  - unfold interpolated_percentile. fold n1. fold h1. fold h2.
    rewrite <- Heq.
    pose proof (order_stat_mono s (Z.to_nat (Qfloor h1))
                  (Z.to_nat (Qfloor h1) + 1) Hs ltac:(lia)) as Hmono.
    set (a := order_stat s (Z.to_nat (Qfloor h1))) in *.
    set (b := order_stat s (Z.to_nat (Qfloor h1) + 1)) in *.
    set (k := inject_Z (Qfloor h1)) in *.
    nra.
  - assert (Hlt : (Qfloor h1 < Qfloor h2)%Z) by lia.
    eapply Qle_trans; [exact Hhi1 |].
    eapply Qle_trans; [| exact Hlo2].
    apply order_stat_mono; [exact Hs |].
    assert (Hh0 : 0 <= h1).
    { unfold h1. apply Qmult_le_0_compat; [exact Hn1 |].
      apply Qle_shift_div_l; [reflexivity | lra]. }
    pose proof (Qfloor_resp_le _ _ Hh0) as Hk0.
    change (Qfloor 0) with 0%Z in Hk0. lia.
Qed.

(* ================================================================== *)
(** ** percentile_Q computes the interpolated percentile *)
(* ================================================================== *)

Lemma _lerp_eq (a b t : Q) : _lerp a b t == a + t * (b - a).
Proof. unfold _lerp. destruct (Qle_bool (1 # 2) t); ring. Qed.

Lemma Qle_bool_false (x y : Q) : Qle_bool x y = false -> y < x.
Proof.
  intros E. destruct (Qlt_le_dec y x) as [Hlt | Hle]; [exact Hlt |].
  apply Qle_bool_iff in Hle. congruence.
Qed.

Lemma percentile_Q_empty (q : Q) :
  0 <= q -> q <= 100 -> percentile_Q [] q = Raise IndexError.
Proof.
  intros H0 H1. unfold percentile_Q.
  apply Qle_bool_iff in H0, H1. rewrite H0, H1. reflexivity.
Qed.

Lemma percentile_Q_Ok_nonempty (a : list Q) (q v : Q) :
  percentile_Q a q = Ok v -> a <> [].
Proof.
  intros H ->. unfold percentile_Q in H.
  destruct (negb (Qle_bool 0 q && Qle_bool q 100)); discriminate H.
Qed.

Lemma percentile_Q_spec (a : list Q) (q : Q) :
  a <> [] -> 0 <= q -> q <= 100 ->
  exists v, percentile_Q a q = Ok v /\
            v == interpolated_percentile (sort_Q a) q.
Proof.
  intros Hne H0 H1. unfold percentile_Q.
  rewrite (proj2 (Qle_bool_iff 0 q) H0), (proj2 (Qle_bool_iff q 100) H1).
  simpl negb. cbv iota.
  pose proof (sort_Q_length a) as Hlen.
  set (s := sort_Q a) in *.
  destruct s as [| d t] eqn:Es.
  { destruct a; [congruence | discriminate Hlen]. }
  rewrite <- Es. cbv zeta.
  set (n := length s).
  assert (Hn : (1 <= n)%nat) by (unfold n; rewrite Es; simpl; lia).
  unfold interpolated_percentile. fold n.
  set (h := inject_Z (Z.of_nat n - 1) * (q / 100)).
  assert (Hq1 : 0 <= q / 100 /\ q / 100 <= 1).
  { split.
    - apply Qle_shift_div_l; [reflexivity | lra].
    - apply Qle_shift_div_r; [reflexivity | lra]. }
  assert (Hn1 : 0 <= inject_Z (Z.of_nat n - 1)).
  { change 0 with (inject_Z 0). rewrite <- Zle_Qle. lia. }
  assert (Hh0 : 0 <= h) by (apply Qmult_le_0_compat; tauto).
  assert (Hh1 : h <= inject_Z (Z.of_nat n - 1)).
  { unfold h. set (m := inject_Z (Z.of_nat n - 1)) in *.
    destruct Hq1 as [_ Hq1]. nra. }
  pose proof (Qfloor_resp_le _ _ Hh0) as Hk0.
  change (Qfloor 0) with 0%Z in Hk0.
  unfold _get_indexes.
  destruct (Qle_bool (inject_Z (Z.of_nat n - 1)) h) eqn:Etop.
  - (* the position is the last element *)
    apply Qle_bool_iff in Etop.
    assert (Hh : h == inject_Z (Z.of_nat n - 1)) by lra.
    rewrite (proj2 (Qle_bool_iff 0 h) Hh0).
    eexists. split; [reflexivity |].
    assert (Hfl : Qfloor h = (Z.of_nat n - 1)%Z).
    { rewrite Hh. apply Qfloor_Z. }
    rewrite Hfl, _lerp_eq.
    unfold getitem. fold n. change (-1 <? 0)%Z with true. cbv iota.
    replace (Z.to_nat (-1 + Z.of_nat n)) with (n - 1)%nat by lia.
    replace (Z.to_nat (Z.of_nat n - 1)) with (n - 1)%nat by lia.
    unfold order_stat.
    rewrite (nth_indep s d (last s 0)) by (unfold n in *; lia).
    rewrite Hh. ring.
  - (* the position is strictly inside *)
    apply Qle_bool_false in Etop.
    rewrite (proj2 (Qle_bool_iff 0 h) Hh0).
    eexists. split; [reflexivity |].
    set (k := Qfloor h) in *.
    assert (Hk1 : (k < Z.of_nat n - 1)%Z).
    { rewrite Zlt_Qlt. eapply Qle_lt_trans; [apply Qfloor_le | exact Etop]. }
    rewrite _lerp_eq. unfold getitem. fold n.
    destruct (Z.ltb_spec k 0) as [Hneg | _]; [lia |].
    destruct (Z.ltb_spec (k + 1) 0) as [Hneg | _]; [lia |].
    replace (Z.to_nat (k + 1)) with (Z.to_nat k + 1)%nat by lia.
    unfold order_stat.
    rewrite (nth_indep s d (last s 0)) by (unfold n in *; lia).
    rewrite (nth_indep s d (last s 0) (n:=(Z.to_nat k + 1)%nat)) by (unfold n in *; lia).
    ring.
Qed.

(** On a single value the percentile is that value, whatever [q]. *)
Lemma interpolated_singleton (x q : Q) : interpolated_percentile [x] q == x.
Proof.
  unfold interpolated_percentile.
  set (h := inject_Z (Z.of_nat (length [x]) - 1) * (q / 100)).
  assert (Hh : h == 0).
  { unfold h. change (inject_Z (Z.of_nat (length [x]) - 1)) with 0. ring. }
  assert (Hfl : Qfloor h = 0%Z) by (rewrite Hh; reflexivity).
  rewrite Hfl. unfold order_stat. simpl. rewrite Hh. ring.
Qed.

(* ================================================================== *)
(** ** The bootstrap loop *)
(* ================================================================== *)

Lemma take_resample {A : Type} (a : list A) (d : A) (indices : list nat) :
  Forall (fun i => (i < length a)%nat) indices ->
  take a indices = Ok (resample a d indices).
Proof.
  induction 1 as [| i rest Hi _ IH]; simpl; [reflexivity |].
  destruct (nth_error a i) as [x |] eqn:E.
  - rewrite IH. simpl. rewrite (nth_error_nth a i d E). reflexivity.
  - apply nth_error_None in E. lia.
Qed.

Lemma resample_length {A : Type} (a : list A) (d : A) (indices : list nat) :
  length (resample a d indices) = length indices.
Proof. apply length_map. Qed.

Lemma contribution_discarded (y_true : list bool) (y_score : list Q)
    (indices : list nat) :
  (length (np_unique (resample y_true false indices)) < 2)%nat ->
  contribution y_true y_score indices = [].
Proof.
  intros H. unfold contribution.
  destruct (roc_auc_score _ _) as [[v |] | e] eqn:E; try reflexivity.
  apply roc_auc_score_finite_inv in E. lia.
Qed.

Lemma contribution_kept (y_true : list bool) (y_score : list Q)
    (indices : list nat) :
  (2 <= length (np_unique (resample y_true false indices)))%nat ->
  exists v,
    roc_auc_score (resample y_true false indices)
                  (resample y_score 0 indices) = Ok (finite v) /\
    contribution y_true y_score indices = [v].
Proof.
  intros H. unfold contribution.
  rewrite (roc_auc_score_returns (resample y_true false indices)
             (resample y_score 0 indices)).
  - eexists. split; reflexivity.
  - rewrite !resample_length. reflexivity.
  - exact H.
Qed.

Lemma contribution_length (y_true : list bool) (y_score : list Q)
    (indices : list nat) :
  (length (contribution y_true y_score indices) <= 1)%nat.
Proof.
  unfold contribution. destruct (roc_auc_score _ _) as [[v |] | e]; simpl; lia.
Qed.

Lemma flat_map_contribution_length (y_true : list bool) (y_score : list Q)
    (draws : list (list nat)) :
  (length (flat_map (contribution y_true y_score) draws) <= length draws)%nat.
Proof.
  induction draws as [| d ds IH]; simpl; [lia |].
  rewrite length_app. pose proof (contribution_length y_true y_score d). lia.
Qed.

Lemma draw_seq_spec (R : RandomState) (N n : nat) (g : rs_state R) :
  lawful R -> (0 < N)%nat ->
  length (fst (draw_seq R N n g)) = n /\
  Forall (in_range N) (fst (draw_seq R N n g)).
Proof.
  intros HR HN. revert g. induction n as [| n IH]; intros g; simpl.
  - split; [reflexivity | constructor].
  - destruct (randint_ok R HR g 0 N N HN) as (l & g' & -> & Hlen & Hall).
    specialize (IH g'). destruct (draw_seq R N n g') as [rest g''].
    simpl in *. destruct IH as [IH1 IH2]. split; [lia |].
    constructor; [| exact IH2]. split; [exact Hlen |].
    eapply Forall_impl; [| exact Hall]. simpl. intros i Hi. lia.
Qed.

(** With a lawful generator and arrays of one length, the loop never
    raises: it returns what the successive draws contribute, in order. *)
Lemma bootstrap_loop_spec (R : RandomState) (y_true : list bool)
    (y_score : list Q) (n : nat) (g : rs_state R) (acc : list pyfloat) :
  lawful R ->
  length y_true = length y_score ->
  (0 < length y_score)%nat ->
  roc_utils.bootstrap_loop R y_true y_score n g acc =
  Ok (acc ++ map finite
               (flat_map (contribution y_true y_score)
                         (fst (draw_seq R (length y_score) n g))),
      snd (draw_seq R (length y_score) n g)).
Proof.
  intros HR Hlen HN. revert g acc.
  induction n as [| n IH]; intros g acc; simpl.
  - rewrite app_nil_r. reflexivity.
  - destruct (randint_ok R HR g 0 _ (length y_score) HN)
      as (l & g' & -> & Hl & Hall).
    simpl bind.
    assert (Hin : Forall (fun i => (i < length y_score)%nat) l).
    { eapply Forall_impl; [| exact Hall]. simpl. intros i Hi. lia. }
    rewrite (take_resample y_true false l)
      by (rewrite Hlen; exact Hin).
    simpl bind.
    destruct (draw_seq R (length y_score) n g') as [rest g''] eqn:Erest.
    simpl fst. simpl snd.
    destruct (Nat.ltb_spec (length (np_unique (resample y_true false l))) 2)
      as [Hlt | Hge].
    + rewrite IH, Erest. simpl.
      rewrite (contribution_discarded _ _ _ Hlt). reflexivity.
    + rewrite (take_resample y_score 0 l) by exact Hin.
      simpl bind.
      destruct (contribution_kept y_true y_score l Hge) as (v & Hv & Hc).
      rewrite Hv. simpl bind. rewrite IH, Erest. simpl.
      rewrite Hc, map_app, <- app_assoc. reflexivity.
Qed.

(** Whatever the generator, every value the loop appends is the AUC of a
    resample with both classes: finite, and in the unit interval. *)
Lemma bootstrap_loop_finite (R : RandomState) (y_true : list bool)
    (y_score : list Q) (n : nat) :
  forall (g g' : rs_state R) (acc bs : list pyfloat),
    roc_utils.bootstrap_loop R y_true y_score n g acc = Ok (bs, g') ->
    exists new : list Q,
      bs = acc ++ map finite new /\ Forall unit_interval new.
Proof.
  induction n as [| n IH]; intros g g' acc bs H; simpl in H.
  - injection H as <- _. exists []. rewrite app_nil_r.
    split; [reflexivity | constructor].
  - bind_inv H as [l g1] Hdraw.
    bind_inv H as labels Hlabels.
    destruct (Nat.ltb_spec (length (np_unique labels)) 2) as [Hlt | Hge].
    + eapply IH; eassumption.
    + bind_inv H as scores Hscores.
      bind_inv H as v Hv.
      destruct v as [v |];
        [| apply roc_auc_score_nan_inv in Hv; lia].
      destruct (IH _ _ _ _ H) as (new & -> & Hnew).
      exists (v :: new). rewrite <- app_assoc. split; [reflexivity |].
      constructor; [| exact Hnew].
      eapply roc_auc_score_unit. exact Hv.
Qed.

Lemma take_In {A : Type} (a : list A) (indices : list nat) (l : list A) :
  take a indices = Ok l -> forall x, In x l -> In x a.
Proof.
  revert l. induction indices as [| i rest IH]; intros l H x Hx; simpl in H.
  - injection H as <-. contradiction.
  - destruct (nth_error a i) as [y |] eqn:E; [| discriminate].
    bind_inv H as xs Hxs. injection H as <-.
    destruct Hx as [<- | Hx].
    + eapply nth_error_In. exact E.
    + eapply IH; eassumption.
Qed.

Lemma np_unique_incl (l a : list bool) :
  (forall x, In x l -> In x a) ->
  (length (np_unique l) <= length (np_unique a))%nat.
Proof.
  intros Hin. unfold np_unique.
  assert (Hf : forall f : bool -> bool,
             existsb f l = true -> existsb f a = true).
  { intros f H. apply existsb_exists in H. destruct H as (x & Hx & Hfx).
    apply existsb_exists. exists x. split; [apply Hin, Hx | exact Hfx]. }
  pose proof (Hf negb) as Hn. pose proof (Hf (fun b => b)) as Hp.
  destruct (existsb negb l), (existsb (fun b => b) l);
    try rewrite (Hn eq_refl); try rewrite (Hp eq_refl);
    destruct (existsb negb a), (existsb (fun b => b) a); simpl; lia.
Qed.

(** On labels of one class every resample is discarded, whatever the
    generator draws. *)
Lemma bootstrap_loop_one_class (R : RandomState) (y_true : list bool)
    (y_score : list Q) (n : nat) :
  (length (np_unique y_true) < 2)%nat ->
  forall (g g' : rs_state R) (acc bs : list pyfloat),
    roc_utils.bootstrap_loop R y_true y_score n g acc = Ok (bs, g') ->
    bs = acc.
Proof.
  intros Hone.
  induction n as [| n IH]; intros g g' acc bs H; simpl in H.
  - injection H as <- _. reflexivity.
  - bind_inv H as [l g1] Hdraw.
    bind_inv H as labels Hlabels.
    pose proof (np_unique_incl labels y_true (take_In _ _ _ Hlabels)) as Hle.
    destruct (Nat.ltb_spec (length (np_unique labels)) 2) as [Hlt | Hge];
      [| lia].
    eapply IH. exact H.
Qed.

(* ================================================================== *)
(** ** MT19937 meets the contract of RandomState *)
(* ================================================================== *)

Lemma gen_mask_nonneg (max : Z) : (0 <= max)%Z -> (0 <= gen_mask max)%Z.
Proof.
  intros H. unfold gen_mask.
  repeat (apply Z.lor_nonneg; split; [| apply Z.shiftr_nonneg]); try exact H;
    repeat (apply Z.lor_nonneg; split; [| apply Z.shiftr_nonneg]); exact H.
Qed.

Lemma bounded_masked_uint32_range (redraws : nat) (s : mt19937_state)
    (rng mask : Z) :
  (0 <= rng)%Z -> (0 <= mask)%Z ->
  (0 <= fst (bounded_masked_uint32 redraws s rng mask) <= rng)%Z.
Proof.
  intros Hrng Hmask. revert s.
  induction redraws as [| r IH]; intros s;
    cbn [bounded_masked_uint32];
    destruct (mt19937_next s) as [v s'];
    assert (Hval : (0 <= Z.land v mask)%Z)
      by (apply Z.land_nonneg; right; exact Hmask);
    destruct (Z.leb_spec (Z.land v mask) rng) as [Hle | Hgt];
    cbn [fst]; try lia.
  - pose proof (Z.mod_pos_bound (Z.land v mask) (rng + 1) ltac:(lia)). lia.
  - apply IH.
Qed.

Lemma random_bounded_fill_spec (cnt : nat) (s : mt19937_state) (low high : nat) :
  (low < high)%nat ->
  let l := fst (random_bounded_fill cnt s (Z.of_nat low)
                  (Z.of_nat high - 1 - Z.of_nat low)) in
  length l = cnt /\ Forall (fun i => (low <= i < high)%nat) l.
Proof.
  intros Hlt. revert s.
  induction cnt as [| cnt IH]; intros s; cbn [random_bounded_fill].
  - split; [reflexivity | constructor].
  - set (rng := (Z.of_nat high - 1 - Z.of_nat low)%Z) in *.
    assert (Hrng : (0 <= rng)%Z) by (unfold rng; lia).
    assert (Hv : forall p : Z * mt19937_state,
               p = (if (rng =? 0)%Z then (0%Z, s)
                    else bounded_masked_uint32 MAX_REDRAWS s rng (gen_mask rng)) ->
               (0 <= fst p <= rng)%Z).
    { intros p ->. destruct (rng =? 0)%Z; [cbn [fst]; lia |].
      apply bounded_masked_uint32_range; [exact Hrng |].
      apply gen_mask_nonneg. exact Hrng. }
    specialize (Hv _ eq_refl).
    destruct (if (rng =? 0)%Z then (0%Z, s)
              else bounded_masked_uint32 MAX_REDRAWS s rng (gen_mask rng))
      as [v s1].
    specialize (IH s1).
    cbv zeta in IH.
    destruct (random_bounded_fill cnt s1 (Z.of_nat low) rng) as [vs s2].
    cbn [fst length] in *. destruct IH as [IH1 IH2]. split; [lia |].
    constructor; [unfold rng in Hv; lia | exact IH2].
Qed.

Lemma MT19937_lawful : lawful MT19937.
Proof.
  constructor; cbn [rs_state rs_new rs_randint MT19937].
  - intros seed Hseed. unfold mt19937_new.
    destruct (Z.leb_spec 0 seed); [| lia].
    destruct (Z.ltb_spec seed (2 ^ 32)); [| lia].
    eexists. reflexivity.
  - intros seed Hseed. unfold mt19937_new.
    destruct (Z.leb_spec 0 seed); cbn [andb]; [| reflexivity].
    destruct (Z.ltb_spec seed (2 ^ 32)); [lia | reflexivity].
  - intros g low high size Hlt. unfold mt19937_randint.
    destruct (Nat.leb_spec high low) as [Hle | _]; [lia |].
    pose proof (random_bounded_fill_spec size g low high Hlt) as H.
    cbv zeta in H.
    destruct (random_bounded_fill size g (Z.of_nat low)
                (Z.of_nat high - 1 - Z.of_nat low)) as [l g'].
    exists l, g'. cbn [fst] in H. split; [reflexivity | exact H].
  - intros g low high size Hle. unfold mt19937_randint.
    destruct (Nat.leb_spec high low); [reflexivity | lia].
Qed.

(* ================================================================== *)
(** ** The generator model against published outputs *)
(* ================================================================== *)

(** MT19937 seeded with its reference default 5489, and with 42. *)
Example mt19937_outputs_5489 :
  mt19937_outputs 3 (mt19937_seed 5489)
  = [3499211612; 581869302; 3890346734]%Z.
Proof. vm_compute. reflexivity. Qed.

Example mt19937_outputs_42 :
  mt19937_outputs 4 (mt19937_seed 42)
  = [1608637542; 3421126067; 4083286876; 787846414]%Z.
Proof. vm_compute. reflexivity. Qed.

(** [np.random.RandomState(42).randint(0, 2, 10)]. *)
Example randint_42_bits :
  bootstrap_draws MT19937 2 1 42 = [[0; 1]%nat] /\
  fst (random_bounded_fill 10 (mt19937_seed 42) 0 1)
  = [0; 1; 0; 0; 0; 1; 0; 0; 0; 1]%nat.
Proof. split; vm_compute; reflexivity. Qed.

(* ================================================================== *)
(** ** The estimator of roc_utils.py *)
(* ================================================================== *)

Lemma finites_map_finite (l : list Q) : finites (map finite l) = l.
Proof.
  induction l as [| x l IH]; simpl; [reflexivity |]. rewrite IH. reflexivity.
Qed.

Lemma existsb_isnan_map_finite (l : list Q) :
  existsb isnan (map finite l) = false.
Proof. induction l as [| x l IH]; simpl; [reflexivity | exact IH]. Qed.

Lemma filter_isnan_map_finite (l : list Q) :
  filter isnan (map finite l) = [].
Proof. induction l as [| x l IH]; simpl; [reflexivity | exact IH]. Qed.

(** On an array without nan, [np.sort] and [np.percentile] are the sort and
    the percentile of its values. *)
Lemma np_sort_finite (l : list Q) :
  np_sort (map finite l) = map finite (sort_Q l).
Proof.
  unfold np_sort.
  rewrite finites_map_finite, filter_isnan_map_finite, app_nil_r.
  reflexivity.
Qed.

Lemma np_percentile_finite (l : list Q) (q : Q) :
  np_percentile (map finite l) q = (v <- percentile_Q l q ;; Ok (finite v)).
Proof.
  unfold np_percentile.
  rewrite existsb_isnan_map_finite, finites_map_finite. reflexivity.
Qed.

Lemma np_percentile_finite_Ok_inv (l : list Q) (q : Q) (x : pyfloat) :
  np_percentile (map finite l) q = Ok x ->
  exists v, x = finite v /\ percentile_Q l q = Ok v.
Proof.
  rewrite np_percentile_finite. intros H.
  bind_inv H as v Hv. injection H as <-. exists v. split; [reflexivity | exact Hv].
Qed.

(** What a returned dictionary tells: the point estimate is the finite
    score of the full sample, and both bounds are percentiles of the finite
    values the loop collected. *)
Lemma roc_auc_ci_Ok_inv (R : RandomState) (y_true : list bool)
    (y_score : list Q) (help : bool) (n_bootstrap : nat) (random_state : Z)
    (w : world (rs_state R)) (auc lo mid hi : pyfloat) :
  fst (roc_utils.roc_auc_ci R y_true y_score help n_bootstrap random_state w)
    = Ok (Dict auc (lo, mid, hi)) ->
  help = false /\ mid = auc /\
  exists (a l h : Q) rng (boot_scores : list Q) rng',
    auc = finite a /\ lo = finite l /\ hi = finite h /\
    roc_auc_score y_true y_score = Ok (finite a) /\
    rs_new R random_state = Ok rng /\
    roc_utils.bootstrap_loop R y_true y_score n_bootstrap rng []
      = Ok (map finite boot_scores, rng') /\
    Forall unit_interval boot_scores /\
    percentile_Q (sort_Q boot_scores) 2.5 = Ok l /\
    percentile_Q (sort_Q boot_scores) 97.5 = Ok h.
Proof.
  unfold roc_utils.roc_auc_ci. destruct help; cbn [fst]; [discriminate |].
  intros H.
  bind_inv H as auc_val Hauc.
  bind_inv H as rng Hrng.
  bind_inv H as [bs rng'] Hloop.
  cbv zeta in H.
  destruct (bootstrap_loop_finite R _ _ _ _ _ _ _ Hloop) as (new & -> & Hunit).
  cbn [app] in *. rewrite np_sort_finite in H.
  bind_inv H as ci_lower Hlo.
  bind_inv H as ci_upper Hhi.
  injection H as <- <- <- <-.
  apply np_percentile_finite_Ok_inv in Hlo. destruct Hlo as (l & -> & Hl).
  apply np_percentile_finite_Ok_inv in Hhi. destruct Hhi as (h & -> & Hh).
  split; [reflexivity |]. split; [reflexivity |].
  destruct auc_val as [a |].
  - exists a, l, h, rng, new, rng'. repeat split; assumption.
  - exfalso. apply roc_auc_score_nan_inv in Hauc.
    pose proof (bootstrap_loop_one_class R _ _ _ Hauc _ _ _ _ Hloop) as E.
    destruct new; [| discriminate E].
    vm_compute in Hl. discriminate Hl.
Qed.

Lemma np_unique_two_nonempty (a : list bool) :
  (2 <= length (np_unique a))%nat -> (0 < length a)%nat.
Proof. pose proof (np_unique_length_le a). lia. Qed.

Lemma percentile_of_sorted (bs : list Q) (q : Q) :
  bs <> [] -> 0 <= q -> q <= 100 ->
  exists v, percentile_Q (sort_Q bs) q = Ok v /\
            v == interpolated_percentile (sort_Q bs) q.
Proof.
  intros Hne H0 H1.
  assert (Hne' : sort_Q bs <> []).
  { intros E. apply Hne. apply length_zero_iff_nil.
    rewrite <- sort_Q_length, E. reflexivity. }
  destruct (percentile_Q_spec (sort_Q bs) q Hne' H0 H1) as (v & Hv & Hq).
  rewrite sort_Q_idem in Hq. exists v. split; assumption.
Qed.

Lemma sort_Q_nonempty_inv (bs : list Q) : sort_Q bs <> [] -> bs <> [].
Proof. intros H ->. apply H. reflexivity. Qed.

Lemma flat_map_nonempty {A B : Type} (f : A -> list B) (l : list A) (x : A) :
  In x l -> f x <> [] -> flat_map f l <> [].
Proof.
  induction l as [| y l IH]; intros Hin Hfx; [contradiction |].
  simpl. destruct Hin as [-> | Hin].
  - intros E. apply app_eq_nil in E. tauto.
  - intros E. apply app_eq_nil in E. apply (IH Hin Hfx). tauto.
Qed.

Lemma flat_map_all_nil {A B : Type} (f : A -> list B) (l : list A) :
  Forall (fun x => f x = []) l -> flat_map f l = [].
Proof.
  induction 1 as [| x l Hx _ IH]; simpl; [reflexivity |].
  rewrite Hx, IH. reflexivity.
Qed.

Lemma two_classes_false (y_true : list bool) (indices : list nat) :
  two_classes y_true indices = false ->
  (length (np_unique (resample y_true false indices)) < 2)%nat.
Proof. unfold two_classes. intros H. apply Nat.leb_gt in H. exact H. Qed.

Lemma two_classes_true (y_true : list bool) (indices : list nat) :
  two_classes y_true indices = true ->
  (2 <= length (np_unique (resample y_true false indices)))%nat.
Proof. unfold two_classes. intros H. apply Nat.leb_le in H. exact H. Qed.

(** The call once the point estimate, the generator and the loop have
    returned: the two percentile look-ups on the values collected. *)
Lemma roc_auc_ci_tail (R : RandomState) (y_true : list bool)
    (y_score : list Q) (n_bootstrap : nat) (random_state : Z)
    (w : world (rs_state R)) (auc_val : pyfloat) (rng rng' : rs_state R)
    (boot_scores : list Q) :
  roc_auc_score y_true y_score = Ok auc_val ->
  rs_new R random_state = Ok rng ->
  roc_utils.bootstrap_loop R y_true y_score n_bootstrap rng []
    = Ok (map finite boot_scores, rng') ->
  roc_utils.roc_auc_ci R y_true y_score false n_bootstrap random_state w =
  (ci_lower <- percentile_Q (sort_Q boot_scores) 2.5 ;;
   ci_upper <- percentile_Q (sort_Q boot_scores) 97.5 ;;
   Ok (Dict auc_val (finite ci_lower, auc_val, finite ci_upper)), w).
Proof.
  intros Hauc Hrng Hloop. unfold roc_utils.roc_auc_ci.
  rewrite Hauc, Hrng. cbn [bind]. rewrite Hloop. cbn [bind].
  rewrite np_sort_finite, !np_percentile_finite.
  destruct (percentile_Q (sort_Q boot_scores) 2.5); [| reflexivity].
  destruct (percentile_Q (sort_Q boot_scores) 97.5); reflexivity.
Qed.

(** On valid input with a seed in range the call reduces to the two
    percentile look-ups on what the draws contribute. *)
Lemma roc_auc_ci_unfold (R : RandomState) (y_true : list bool)
    (y_score : list Q) (n_bootstrap : nat) (random_state : Z)
    (w : world (rs_state R)) :
  lawful R ->
  length y_true = length y_score ->
  (2 <= length (np_unique y_true))%nat ->
  (0 <= random_state < 2 ^ 32)%Z ->
  exists auc,
    roc_auc_score y_true y_score = Ok (finite auc) /\
    roc_utils.roc_auc_ci R y_true y_score false n_bootstrap random_state w =
    (let boot_scores :=
       flat_map (contribution y_true y_score)
         (bootstrap_draws R (length y_score) n_bootstrap random_state) in
     ci_lower <- percentile_Q (sort_Q boot_scores) 2.5 ;;
     ci_upper <- percentile_Q (sort_Q boot_scores) 97.5 ;;
     Ok (Dict (finite auc) (finite ci_lower, finite auc, finite ci_upper)),
     w).
Proof.
  intros HR Hlen Hcls Hseed.
  pose proof (roc_auc_score_returns y_true y_score Hlen Hcls) as Hauc.
  destruct (new_ok R HR random_state Hseed) as [rng Hrng].
  exists (rank_auc y_true y_score). split; [exact Hauc |].
  cbv zeta. unfold bootstrap_draws. rewrite Hrng.
  assert (Hpos : (0 < length y_score)%nat).
  { rewrite <- Hlen. apply np_unique_two_nonempty, Hcls. }
  apply (roc_auc_ci_tail R y_true y_score n_bootstrap random_state w _ rng
           (snd (draw_seq R (length y_score) n_bootstrap rng)) _ Hauc Hrng).
  rewrite (bootstrap_loop_spec R y_true y_score n_bootstrap rng [] HR Hlen Hpos).
  reflexivity.
Qed.

(** Claim C1, as the code has it: on valid input (arrays of one length
    showing both classes, hence N >= 2), with a seed in [0, 2**32 - 1] and
    at least one resample that keeps both classes, the call returns the
    dictionary whose AUC is the rank-based point estimate over the full
    sample and whose CI triple carries that very value in the middle; the
    world is left as it was. *)
Theorem roc_auc_ci_returns (R : RandomState) (y_true : list bool)
    (y_score : list Q) (n_bootstrap : nat) (random_state : Z)
    (w : world (rs_state R)) :
  lawful R ->
  length y_true = length y_score ->
  (2 <= length (np_unique y_true))%nat ->
  (0 <= random_state < 2 ^ 32)%Z ->
  existsb (two_classes y_true)
    (bootstrap_draws R (length y_score) n_bootstrap random_state) = true ->
  exists auc lower upper : Q,
    roc_auc_score y_true y_score = Ok (finite auc) /\
    auc = rank_auc y_true y_score /\
    roc_utils.roc_auc_ci R y_true y_score false n_bootstrap random_state w
      = (Ok (Dict (finite auc) (finite lower, finite auc, finite upper)), w).
Proof.
  intros HR Hlen Hcls Hseed Hsome.
  destruct (roc_auc_ci_unfold R y_true y_score n_bootstrap random_state w
              HR Hlen Hcls Hseed) as (auc & Hauc & Hrun).
  cbv zeta in Hrun.
  set (bs := flat_map (contribution y_true y_score)
               (bootstrap_draws R (length y_score) n_bootstrap random_state))
    in *.
  assert (Hne : bs <> []).
  { apply existsb_exists in Hsome. destruct Hsome as (d & Hin & Hd).
    apply (flat_map_nonempty _ _ d Hin).
    destruct (contribution_kept y_true y_score d (two_classes_true _ _ Hd))
      as (v & _ & ->).
    discriminate. }
  destruct (percentile_of_sorted bs 2.5 Hne ltac:(lra) ltac:(lra))
    as (lo & Elo & _).
  destruct (percentile_of_sorted bs 97.5 Hne ltac:(lra) ltac:(lra))
    as (hi & Ehi & _).
  exists auc, lo, hi. split; [exact Hauc |].
  split; [apply (roc_auc_score_finite_inv _ _ _ Hauc) |].
  rewrite Hrun, Elo, Ehi. reflexivity.
Qed.


Lemma roc_auc_ci_returns_witness :
  length mixed_labels = length mixed_scores /\
  existsb (two_classes mixed_labels)
    (bootstrap_draws MT19937 (length mixed_scores) 20 42) = true /\
  exists auc lower upper : Q,
    roc_auc_score mixed_labels mixed_scores = Ok (finite auc) /\
    auc = rank_auc mixed_labels mixed_scores /\
    roc_utils.roc_auc_ci MT19937 mixed_labels mixed_scores false 20 42
      demo_world
    = (Ok (Dict (finite auc) (finite lower, finite auc, finite upper)),
       demo_world).
Proof.
  assert (Hsome : existsb (two_classes mixed_labels)
            (bootstrap_draws MT19937 (length mixed_scores) 20 42) = true)
    by (vm_compute; reflexivity).
  split; [reflexivity |]. split; [exact Hsome |].
  apply roc_auc_ci_returns.
  - exact MT19937_lawful.
  - reflexivity.
  - vm_compute. lia.
  - lia.
  - exact Hsome.
Defined.

(** Claim C1 as stated fails: labels [0, 1] with scores [0.2, 0.8], one
    resample and seed 1 are valid input, the single resample draws index 1
    twice, and the call raises IndexError instead of returning. *)
Lemma roc_auc_ci_valid_input_raises :
  length pair_labels = length pair_scores /\
  (2 <= length pair_labels)%nat /\
  (2 <= length (np_unique pair_labels))%nat /\
  bootstrap_draws MT19937 2 1 1 = [[1; 1]%nat] /\
  fst (roc_utils.roc_auc_ci MT19937 pair_labels pair_scores false 1 1
         demo_world) = Raise IndexError.
Proof.
  split; [reflexivity |]. split; [vm_compute; lia |].
  split; [vm_compute; lia |]. split; vm_compute; reflexivity.
Qed.

(** A seed outside [0, 2**32 - 1] is refused by the generator's
    constructor. *)
Example roc_auc_ci_negative_seed :
  fst (roc_utils.roc_auc_ci MT19937 toy_labels toy_scores false 2000 (-1)
         demo_world) = Raise ValueError.
Proof. vm_compute. reflexivity. Qed.

(** Claim C2, as the code has it: whenever the call returns a dictionary,
    its three values are finite, the bounds satisfy
    0 <= lower <= upper <= 1, the point estimate lies in [0, 1] and is the
    middle of the triple.  That the point estimate lies between the bounds
    is not part of it. *)
Theorem roc_auc_ci_bounds (R : RandomState) (y_true : list bool)
    (y_score : list Q) (help : bool) (n_bootstrap : nat) (random_state : Z)
    (w : world (rs_state R)) (auc lower mid upper : pyfloat) :
  fst (roc_utils.roc_auc_ci R y_true y_score help n_bootstrap random_state w)
    = Ok (Dict auc (lower, mid, upper)) ->
  exists a l u : Q,
    auc = finite a /\ lower = finite l /\ upper = finite u /\
    0 <= l /\ l <= u /\ u <= 1 /\
    0 <= a /\ a <= 1 /\ mid = auc.
Proof.
  intros H. apply roc_auc_ci_Ok_inv in H.
  destruct H as (_ & Hmid & a & l & u & rng & bs & rng' & -> & -> & -> &
                 Hauc & _ & Hloop & Hunit' & Hlo & Hhi).
  pose proof (sort_Q_nonempty_inv bs (percentile_Q_Ok_nonempty _ _ _ Hlo)) as Hne.
  destruct (percentile_of_sorted bs 2.5 Hne ltac:(lra) ltac:(lra))
    as (lo' & Elo & Hlo').
  destruct (percentile_of_sorted bs 97.5 Hne ltac:(lra) ltac:(lra))
    as (hi' & Ehi & Hhi').
  rewrite Hlo in Elo. injection Elo as <-.
  rewrite Hhi in Ehi. injection Ehi as <-.
  assert (Hunit : Forall unit_interval (sort_Q bs)).
  { eapply Permutation_Forall; [apply Permutation_sym, sort_Q_perm |].
    exact Hunit'. }
  assert (Hne' : sort_Q bs <> []).
  { intros E. apply Hne. apply length_zero_iff_nil.
    rewrite <- sort_Q_length, E. reflexivity. }
  pose proof (interpolated_unit _ 2.5 Hne' (sort_Q_sorted bs) Hunit) as [L0 _].
  pose proof (interpolated_unit _ 97.5 Hne' (sort_Q_sorted bs) Hunit) as [_ U1].
  pose proof (interpolated_mono (sort_Q bs) 2.5 97.5 (sort_Q_sorted bs) Hne'
                ltac:(lra) ltac:(lra)) as Hmono.
  destruct (roc_auc_score_unit _ _ _ Hauc) as [A0 A1].
  exists a, l, u.
  split; [reflexivity |]. split; [reflexivity |]. split; [reflexivity |].
  rewrite Hlo', Hhi'. repeat split; assumption.
Qed.


Lemma roc_auc_ci_bounds_witness :
  fst (roc_utils.roc_auc_ci MT19937 mixed_labels mixed_scores false 50 42
         demo_world)
    = Ok (Dict (finite (3 # 4))
            (finite (0 # 36000), finite (3 # 4), finite (48000 # 48000))) /\
  exists a l u : Q,
    finite (3 # 4) = finite a /\ finite (0 # 36000) = finite l /\
    finite (48000 # 48000) = finite u /\
    0 <= l /\ l <= u /\ u <= 1 /\
    0 <= a /\ a <= 1 /\ finite (3 # 4) = finite (3 # 4).
Proof.
  assert (H : fst (roc_utils.roc_auc_ci MT19937 mixed_labels mixed_scores
                     false 50 42 demo_world)
              = Ok (Dict (finite (3 # 4))
                      (finite (0 # 36000), finite (3 # 4),
                       finite (48000 # 48000))))
    by (vm_compute; reflexivity).
  split; [exact H |].
  exact (roc_auc_ci_bounds MT19937 mixed_labels mixed_scores false 50 42
           demo_world _ _ _ _ H).
Defined.

(** Claim C2 as stated fails: with the default seed 42 and one resample,
    the four observations below have point AUC 3/4 while both bounds are
    the AUC 1/2 of the single resample [2, 3, 0, 2]. *)
Lemma roc_auc_ci_point_above_upper :
  bootstrap_draws MT19937 4 1 42 = [[2; 3; 0; 2]%nat] /\
  fst (roc_utils.roc_auc_ci MT19937 mixed_labels mixed_scores false 1 42
         demo_world)
    = Ok (Dict (finite (3 # 4))
            (finite (32000 # 64000), finite (3 # 4),
             finite (32000 # 64000))) /\
  ~ (3 # 4 <= 32000 # 64000).
Proof.
  split; [vm_compute; reflexivity |]. split; [vm_compute; reflexivity |].
  intros H. vm_compute in H. apply H. reflexivity.
Qed.

(** Claim C3, as the code has it: when the arrays differ in length, or
    hold fewer than two observations, or show fewer than two classes, the
    call returns no AUC: it raises, and leaves the world as it was.  There
    is no validation and no error kind of the function's own.  An empty
    array, and arrays of different lengths that show both classes, end in
    the ValueError of [roc_auc_score].  Labels of one class as long as the
    scores (a single observation included) pass [roc_auc_score], which
    returns nan; every resample is then discarded, and with a lawful
    generator and a seed in range the call ends in the IndexError of
    [np.percentile] on the empty bootstrap distribution. *)
Theorem roc_auc_ci_invalid_input (R : RandomState) (y_true : list bool)
    (y_score : list Q) (n_bootstrap : nat) (random_state : Z)
    (w : world (rs_state R)) :
  length y_true <> length y_score \/
  (length y_true < 2)%nat \/
  (length (np_unique y_true) < 2)%nat ->
  (exists e,
     roc_utils.roc_auc_ci R y_true y_score false n_bootstrap random_state w
       = (Raise e, w)) /\
  (y_true = [] \/ y_score = [] \/
   (2 <= length (np_unique y_true))%nat ->
   roc_utils.roc_auc_ci R y_true y_score false n_bootstrap random_state w
     = (Raise ValueError, w)) /\
  (lawful R -> length y_true = length y_score -> y_true <> [] ->
   (0 <= random_state < 2 ^ 32)%Z ->
   roc_utils.roc_auc_ci R y_true y_score false n_bootstrap random_state w
     = (Raise IndexError, w)).
Proof.
  intros H.
  assert (Hone : length y_true = length y_score ->
                 (length (np_unique y_true) < 2)%nat).
  { intros Hlen. destruct H as [H | [H | H]]; [contradiction | | exact H].
    pose proof (np_unique_length_le y_true). lia. }
  split; [| split].
  - assert (Hw : roc_utils.roc_auc_ci R y_true y_score false n_bootstrap
                   random_state w
                 = (fst (roc_utils.roc_auc_ci R y_true y_score false
                           n_bootstrap random_state w), w))
      by reflexivity.
    destruct (fst (roc_utils.roc_auc_ci R y_true y_score false n_bootstrap
                     random_state w)) as [[| auc [[lo mid] hi]] | e] eqn:E.
    + unfold roc_utils.roc_auc_ci in E. cbn [fst] in E.
      bind_inv E as auc_val Hauc. bind_inv E as rng Hrng.
      bind_inv E as [bs rng'] Hloop. cbv zeta in E.
      bind_inv E as lo Hlo. bind_inv E as hi Hhi. discriminate E.
    + exfalso. apply roc_auc_ci_Ok_inv in E.
      destruct E as (_ & _ & a & _ & _ & _ & _ & _ & _ & _ & _ & Hauc & _).
      apply roc_auc_score_finite_inv in Hauc.
      destruct Hauc as (_ & Hlen & Hcls).
      specialize (Hone Hlen). lia.
    + exists e. exact Hw.
  - intros Hv. unfold roc_utils.roc_auc_ci.
    rewrite roc_auc_score_raises; [reflexivity |].
    destruct Hv as [Hv | [Hv | Hv]]; [left; exact Hv | right; left; exact Hv |].
    right. right. split; [| exact Hv].
    intros Hlen. specialize (Hone Hlen). lia.
  - intros HR Hlen Hne Hseed. specialize (Hone Hlen).
    assert (Hpos : (0 < length y_score)%nat).
    { rewrite <- Hlen. destruct y_true; [contradiction | simpl; lia]. }
    assert (Hs : y_score <> []) by (intros ->; simpl in Hpos; lia).
    pose proof (roc_auc_score_one_class y_true y_score Hne Hs Hone) as Hauc.
    destruct (new_ok R HR random_state Hseed) as [rng Hrng].
    pose proof (bootstrap_loop_spec R y_true y_score n_bootstrap rng [] HR
                  Hlen Hpos) as Hloop.
    pose proof (bootstrap_loop_one_class R _ _ _ Hone _ _ _ _ Hloop) as Hnil.
    cbn [app] in Hnil, Hloop. rewrite Hnil in Hloop.
    change (@nil pyfloat) with (map finite []) in Hloop at 2.
    rewrite (roc_auc_ci_tail R y_true y_score n_bootstrap random_state w _ _ _
               _ Hauc Hrng Hloop).
    reflexivity.
Qed.


Lemma roc_auc_ci_invalid_input_witness :
  (length (np_unique [true; true]) < 2)%nat /\
  (exists e,
     roc_utils.roc_auc_ci MT19937 [true; true] [0.2; 0.8] false 2000 42
       demo_world = (Raise e, demo_world)) /\
  roc_utils.roc_auc_ci MT19937 [true; true] [0.2; 0.8] false 2000 42
    demo_world = (Raise IndexError, demo_world).
Proof.
  assert (H : (length (np_unique [true; true]) < 2)%nat)
    by (vm_compute; lia).
  split; [exact H |].
  pose proof (roc_auc_ci_invalid_input MT19937 [true; true] [0.2; 0.8] 2000
                42 demo_world (or_intror (or_intror H))) as (He & _ & Hi).
  split; [exact He |].
  apply Hi.
  - exact MT19937_lawful.
  - reflexivity.
  - discriminate.
  - lia.
Defined.

(** Claim C3 as stated fails: labels [1, 1] with scores [0.2, 0.8], and
    the single observation [1] with score [0.8], are not refused as invalid
    input.  [roc_auc_score] returns nan on them, the 2000 resamples are all
    discarded, and the call ends in IndexError: neither an InvalidInput
    error nor the ValueError of an input check. *)
Lemma roc_auc_ci_one_class_index_error :
  (length (np_unique [true; true]) < 2)%nat /\
  roc_auc_score [true; true] [0.2; 0.8] = Ok nan /\
  fst (roc_utils.roc_auc_ci MT19937 [true; true] [0.2; 0.8] false 2000 42
         demo_world) = Raise IndexError /\
  fst (roc_utils.roc_auc_ci MT19937 [true; true] [0.2; 0.8] false 2000 42
         demo_world) <> Raise InvalidInput /\
  fst (roc_utils.roc_auc_ci MT19937 [true; true] [0.2; 0.8] false 2000 42
         demo_world) <> Raise ValueError /\
  (length [true] < 2)%nat /\
  fst (roc_utils.roc_auc_ci MT19937 [true] [0.8] false 2000 42 demo_world)
    = Raise IndexError.
Proof.
  split; [vm_compute; lia |]. split; [vm_compute; reflexivity |].
  assert (H : fst (roc_utils.roc_auc_ci MT19937 [true; true] [0.2; 0.8] false
                     2000 42 demo_world) = Raise IndexError)
    by (vm_compute; reflexivity).
  split; [exact H |]. rewrite H.
  split; [discriminate |]. split; [discriminate |].
  split; [simpl; lia |]. vm_compute. reflexivity.
Qed.

(** Arrays of different lengths that show both classes, and empty arrays,
    are refused by [roc_auc_score]. *)
Example roc_auc_ci_invalid_inputs :
  fst (roc_utils.roc_auc_ci MT19937 [false; true; true] [0.2; 0.8] false
         2000 42 demo_world) = Raise ValueError /\
  fst (roc_utils.roc_auc_ci MT19937 [] [] false 2000 42 demo_world)
    = Raise ValueError.
Proof. repeat split; vm_compute; reflexivity. Qed.

(** Claim C4, as the code has it: on valid input with a seed in range,
    when every resample is discarded the call has no check of its own; the
    empty distribution reaches [np.percentile], whose IndexError is what
    the caller gets.  No percentile is returned. *)
Theorem roc_auc_ci_all_discarded (R : RandomState) (y_true : list bool)
    (y_score : list Q) (n_bootstrap : nat) (random_state : Z)
    (w : world (rs_state R)) :
  lawful R ->
  length y_true = length y_score ->
  (2 <= length (np_unique y_true))%nat ->
  (0 <= random_state < 2 ^ 32)%Z ->
  forallb (fun indices => negb (two_classes y_true indices))
    (bootstrap_draws R (length y_score) n_bootstrap random_state) = true ->
  roc_utils.roc_auc_ci R y_true y_score false n_bootstrap random_state w
    = (Raise IndexError, w).
Proof.
  intros HR Hlen Hcls Hseed Hall.
  destruct (roc_auc_ci_unfold R y_true y_score n_bootstrap random_state w
              HR Hlen Hcls Hseed) as (auc & _ & Hrun).
  cbv zeta in Hrun. rewrite Hrun.
  rewrite flat_map_all_nil; [reflexivity |].
  rewrite forallb_forall in Hall. apply Forall_forall. intros d Hd.
  apply contribution_discarded, two_classes_false.
  apply negb_true_iff, Hall, Hd.
Qed.


Lemma roc_auc_ci_all_discarded_witness :
  forallb (fun indices => negb (two_classes pair_labels indices))
    (bootstrap_draws MT19937 (length pair_scores) 3 3) = true /\
  roc_utils.roc_auc_ci MT19937 pair_labels pair_scores false 3 3 demo_world
    = (Raise IndexError, demo_world).
Proof.
  assert (Hall : forallb (fun indices => negb (two_classes pair_labels indices))
            (bootstrap_draws MT19937 (length pair_scores) 3 3) = true)
    by (vm_compute; reflexivity).
  split; [exact Hall |].
  apply roc_auc_ci_all_discarded.
  - exact MT19937_lawful.
  - reflexivity.
  - vm_compute. lia.
  - lia.
  - exact Hall.
Defined.

(** Claim C4 as stated fails: labels [0, 1], three resamples, seed 3.  The
    draws are [0, 0], [1, 1], [0, 0]: all three are discarded, and the
    error raised is IndexError, not InsufficientBootstrapSamples. *)
Lemma roc_auc_ci_no_insufficient_samples_error :
  bootstrap_draws MT19937 2 3 3 = [[0; 0]; [1; 1]; [0; 0]]%nat /\
  fst (roc_utils.roc_auc_ci MT19937 pair_labels pair_scores false 3 3
         demo_world) = Raise IndexError /\
  fst (roc_utils.roc_auc_ci MT19937 pair_labels pair_scores false 3 3
         demo_world) <> Raise InsufficientBootstrapSamples.
Proof.
  split; [vm_compute; reflexivity |]. split; [vm_compute; reflexivity |].
  vm_compute. discriminate.
Qed.

(** Claim C5: with a lawful generator the loop makes exactly
    [n_bootstrap] draws, each of N indices in [0, N); it returns, in order,
    what each draw contributes: nothing when the drawn labels show fewer
    than two classes (no redraw takes its place), the AUC of the resampled
    pairs otherwise.  So the distribution has at most [n_bootstrap]
    elements.  (That the draws are uniform is a property of the generator
    and lies outside this deterministic model.) *)
Theorem bootstrap_loop_draws (R : RandomState) (y_true : list bool)
    (y_score : list Q) (n_bootstrap : nat) (rng : rs_state R) :
  lawful R ->
  length y_true = length y_score ->
  (0 < length y_score)%nat ->
  let N := length y_score in
  let draws := fst (draw_seq R N n_bootstrap rng) in
  let boot_scores := flat_map (contribution y_true y_score) draws in
  length draws = n_bootstrap /\
  Forall (in_range N) draws /\
  roc_utils.bootstrap_loop R y_true y_score n_bootstrap rng []
    = Ok (map finite boot_scores, snd (draw_seq R N n_bootstrap rng)) /\
  (length boot_scores <= n_bootstrap)%nat /\
  Forall (fun indices =>
            if two_classes y_true indices
            then exists v,
                   roc_auc_score (resample y_true false indices)
                                 (resample y_score 0 indices)
                     = Ok (finite v) /\
                   contribution y_true y_score indices = [v]
            else contribution y_true y_score indices = []) draws.
Proof.
  intros HR Hlen Hpos N draws boot_scores.
  destruct (draw_seq_spec R N n_bootstrap rng HR Hpos) as [Hn Hrange].
  fold draws in Hn, Hrange.
  split; [exact Hn |]. split; [exact Hrange |]. split.
  - rewrite (bootstrap_loop_spec R y_true y_score n_bootstrap rng [] HR Hlen Hpos).
    reflexivity.
  - split.
    + pose proof (flat_map_contribution_length y_true y_score draws) as Hle.
      fold boot_scores in Hle. lia.
    + apply Forall_forall. intros d _.
      destruct (two_classes y_true d) eqn:E.
      * apply contribution_kept, two_classes_true, E.
      * apply contribution_discarded, two_classes_false, E.
Qed.


Lemma bootstrap_loop_draws_witness :
  fst (draw_seq MT19937 (length mixed_scores) 3 (mt19937_seed 42))
    = [[2; 3; 0; 2]; [2; 3; 0; 0]; [2; 1; 2; 2]]%nat /\
  roc_utils.bootstrap_loop MT19937 mixed_labels mixed_scores 3
    (mt19937_seed 42) []
  = Ok (map finite
          (flat_map (contribution mixed_labels mixed_scores)
             (fst (draw_seq MT19937 (length mixed_scores) 3
                     (mt19937_seed 42)))),
        snd (draw_seq MT19937 (length mixed_scores) 3 (mt19937_seed 42))).
Proof.
  split; [vm_compute; reflexivity |].
  apply (bootstrap_loop_draws MT19937 mixed_labels mixed_scores 3
           (mt19937_seed 42) MT19937_lawful eq_refl).
  vm_compute. lia.
Defined.

(** Claim C6: the returned bounds are the 2.5th and 97.5th percentiles, by
    linear interpolation between order statistics, of the sorted bootstrap
    distribution, which is then not empty and holds finite values only; on
    a distribution of one value both bounds are that value. *)
Theorem roc_auc_ci_percentiles (R : RandomState) (y_true : list bool)
    (y_score : list Q) (help : bool) (n_bootstrap : nat) (random_state : Z)
    (w : world (rs_state R)) (auc lower mid upper : pyfloat) :
  fst (roc_utils.roc_auc_ci R y_true y_score help n_bootstrap random_state w)
    = Ok (Dict auc (lower, mid, upper)) ->
  exists rng (boot_scores : list Q) rng' (l u : Q),
    rs_new R random_state = Ok rng /\
    roc_utils.bootstrap_loop R y_true y_score n_bootstrap rng []
      = Ok (map finite boot_scores, rng') /\
    boot_scores <> [] /\
    np_sort (map finite boot_scores) = map finite (sort_Q boot_scores) /\
    StronglySorted Qle (sort_Q boot_scores) /\
    Permutation (sort_Q boot_scores) boot_scores /\
    lower = finite l /\ upper = finite u /\
    l == interpolated_percentile (sort_Q boot_scores) 2.5 /\
    u == interpolated_percentile (sort_Q boot_scores) 97.5 /\
    (forall x, boot_scores = [x] -> l == x /\ u == x).
Proof.
  intros H. apply roc_auc_ci_Ok_inv in H.
  destruct H as (_ & _ & a & l & u & rng & bs & rng' & _ & -> & -> &
                 _ & Hrng & Hloop & _ & Hlo & Hhi).
  pose proof (sort_Q_nonempty_inv bs (percentile_Q_Ok_nonempty _ _ _ Hlo)) as Hne.
  destruct (percentile_of_sorted bs 2.5 Hne ltac:(lra) ltac:(lra))
    as (lo' & Elo & Hlo').
  destruct (percentile_of_sorted bs 97.5 Hne ltac:(lra) ltac:(lra))
    as (hi' & Ehi & Hhi').
  rewrite Hlo in Elo. injection Elo as <-.
  rewrite Hhi in Ehi. injection Ehi as <-.
  exists rng, bs, rng', l, u.
  repeat split; try assumption; try reflexivity.
  - apply np_sort_finite.
  - apply sort_Q_sorted.
  - apply sort_Q_perm.
  - subst bs. rewrite Hlo'. apply interpolated_singleton.
  - subst bs. rewrite Hhi'. apply interpolated_singleton.
Qed.


Lemma roc_auc_ci_percentiles_witness :
  fst (roc_utils.roc_auc_ci MT19937 mixed_labels mixed_scores false 3 42
         demo_world)
    = Ok (Dict (finite (3 # 4))
            (finite (24200 # 48000), finite (3 # 4),
             finite (23850 # 36000))) /\
  exists rng (boot_scores : list Q) rng' (l u : Q),
    rs_new MT19937 42 = Ok rng /\
    roc_utils.bootstrap_loop MT19937 mixed_labels mixed_scores 3 rng []
      = Ok (map finite boot_scores, rng') /\
    boot_scores <> [] /\
    np_sort (map finite boot_scores) = map finite (sort_Q boot_scores) /\
    StronglySorted Qle (sort_Q boot_scores) /\
    Permutation (sort_Q boot_scores) boot_scores /\
    finite (24200 # 48000) = finite l /\ finite (23850 # 36000) = finite u /\
    l == interpolated_percentile (sort_Q boot_scores) 2.5 /\
    u == interpolated_percentile (sort_Q boot_scores) 97.5 /\
    (forall x, boot_scores = [x] -> l == x /\ u == x).
Proof.
  assert (H : fst (roc_utils.roc_auc_ci MT19937 mixed_labels mixed_scores
                     false 3 42 demo_world)
              = Ok (Dict (finite (3 # 4))
                      (finite (24200 # 48000), finite (3 # 4),
                       finite (23850 # 36000))))
    by (vm_compute; reflexivity).
  split; [exact H |].
  exact (roc_auc_ci_percentiles MT19937 mixed_labels mixed_scores false 3 42
           demo_world _ _ _ _ H).
Defined.

(* ================================================================== *)
(** ** The estimator in a process: inputs and surroundings *)
(* ================================================================== *)

(** Deciding the comparisons of addresses, looking an address up in a
    process built from another, and showing that such a process leaves the
    objects below an address alone. *)
Ltac eqb_decide :=
  repeat match goal with
  | |- context [Nat.eqb ?a ?b] =>
      first
        [ replace (Nat.eqb a b) with true
            by (symmetry; apply Nat.eqb_eq; lia)
        | replace (Nat.eqb a b) with false
            by (symmetry; apply Nat.eqb_neq; lia) ]
  end.

Ltac lookup :=
  unfold roc_utils_process.with_new, roc_utils_process.with_object,
    roc_utils_process.with_warning;
  cbn [roc_utils_process.objects roc_utils_process.next];
  eqb_decide; first [assumption | reflexivity].

Ltac frame_step :=
  split;
  [ intros ? ?;
    unfold roc_utils_process.with_new, roc_utils_process.with_object,
      roc_utils_process.with_warning;
    cbn [roc_utils_process.objects roc_utils_process.next];
    eqb_decide; reflexivity
  | split;
    [ unfold roc_utils_process.with_new, roc_utils_process.with_object,
        roc_utils_process.with_warning;
      cbn [roc_utils_process.next]; lia
    | reflexivity ] ].

Section ProcessFacts.

Import roc_utils_process.

Variable R : RandomState.

Lemma bindM_case {A B : Type} (m : M R A) (f : A -> M R B) (p p1 : process R)
    (r : result A) :
  m p = (r, p1) ->
  bindM m f p
  = match r with Ok a => f a p1 | Raise e => (Raise e, p1) end.
Proof. intros H. unfold bindM. rewrite H. reflexivity. Qed.

Lemma bindM_match {A B : Type} (m : M R A) (f : A -> M R B) (p : process R) :
  bindM m f p
  = match m p with
    | (Ok a, p1) => f a p1
    | (Raise e, p1) => (Raise e, p1)
    end.
Proof. reflexivity. Qed.

Ltac step H := rewrite (bindM_case _ _ _ _ _ H); cbn beta iota.

Lemma load_Some (p : process R) (r : nat) (o : object R) :
  objects p r = Some o -> load R r p = (Ok o, p).
Proof. intros H. unfold load. rewrite H. reflexivity. Qed.

Lemma len_Scores (p : process R) (r : nat) (a : list Q) :
  objects p r = Some (Scores a) -> len R r p = (Ok (length a), p).
Proof. intros H. unfold len. step (load_Some _ _ _ H). reflexivity. Qed.

Lemma len_Labels (p : process R) (r : nat) (a : list bool) :
  objects p r = Some (Labels a) -> len R r p = (Ok (length a), p).
Proof. intros H. unfold len. step (load_Some _ _ _ H). reflexivity. Qed.

Lemma labels_at_eq (p : process R) (r : nat) (a : list bool) :
  objects p r = Some (Labels a) -> labels_at R r p = (Ok a, p).
Proof. intros H. unfold labels_at. step (load_Some _ _ _ H). reflexivity. Qed.

Lemma scores_at_eq (p : process R) (r : nat) (a : list Q) :
  objects p r = Some (Scores a) -> scores_at R r p = (Ok a, p).
Proof. intros H. unfold scores_at. step (load_Some _ _ _ H). reflexivity. Qed.

Lemma floats_at_eq (p : process R) (r : nat) (a : list pyfloat) :
  objects p r = Some (Floats a) -> floats_at R r p = (Ok a, p).
Proof. intros H. unfold floats_at. step (load_Some _ _ _ H). reflexivity. Qed.

Lemma indices_at_eq (p : process R) (r : nat) (a : list nat) :
  objects p r = Some (Indices a) -> indices_at R r p = (Ok a, p).
Proof. intros H. unfold indices_at. step (load_Some _ _ _ H). reflexivity. Qed.

Lemma generator_at_eq (p : process R) (r : nat) (g : rs_state R) :
  objects p r = Some (Generator g) -> generator_at R r p = (Ok g, p).
Proof.
  intros H. unfold generator_at. step (load_Some _ _ _ H). reflexivity.
Qed.

Lemma np_array_eq (p : process R) (r : nat) (o : object R) :
  objects p r = Some o -> np_array R r p = (Ok (next p), with_new R o p).
Proof. intros H. unfold np_array. step (load_Some _ _ _ H). reflexivity. Qed.

Lemma randint_eq (p : process R) (rng : nat) (g : rs_state R)
    (low high size : nat) :
  objects p rng = Some (Generator g) ->
  randint R rng low high size p
  = match rs_randint R g low high size with
    | Ok (l, g') =>
        (Ok (next p),
         with_new R (Indices l) (with_object R rng (Generator g') p))
    | Raise e => (Raise e, p)
    end.
Proof.
  intros H. unfold randint.
  step (generator_at_eq _ _ _ H).
  unfold bindM, lift, assign, alloc.
  destruct (rs_randint R g low high size) as [[l g'] | e]; reflexivity.
Qed.

Lemma getitem_Labels (p : process R) (a i : nat) (l : list bool)
    (idx : list nat) :
  objects p a = Some (Labels l) -> objects p i = Some (Indices idx) ->
  getitem R a i p
  = match take l idx with
    | Ok x => (Ok (next p), with_new R (Labels x) p)
    | Raise e => (Raise e, p)
    end.
Proof.
  intros Ha Hi. unfold getitem.
  step (load_Some _ _ _ Ha).
  step (indices_at_eq _ _ _ Hi).
  unfold bindM, lift, alloc. destruct (take l idx); reflexivity.
Qed.

Lemma getitem_Scores (p : process R) (a i : nat) (l : list Q)
    (idx : list nat) :
  objects p a = Some (Scores l) -> objects p i = Some (Indices idx) ->
  getitem R a i p
  = match take l idx with
    | Ok x => (Ok (next p), with_new R (Scores x) p)
    | Raise e => (Raise e, p)
    end.
Proof.
  intros Ha Hi. unfold getitem.
  step (load_Some _ _ _ Ha).
  step (indices_at_eq _ _ _ Hi).
  unfold bindM, lift, alloc. destruct (take l idx); reflexivity.
Qed.

Lemma np_unique_at_eq (p : process R) (a : nat) (l : list bool) :
  objects p a = Some (Labels l) ->
  np_unique_at R a p
  = (Ok (next p), with_new R (Labels (np_unique l)) p).
Proof.
  intros H. unfold np_unique_at.
  step (labels_at_eq _ _ _ H). reflexivity.
Qed.

Lemma roc_auc_score_at_eq (p : process R) (y s : nat) (a : list bool)
    (b : list Q) :
  objects p y = Some (Labels a) -> objects p s = Some (Scores b) ->
  roc_auc_score_at R y s p
  = match roc_auc_score a b with
    | Ok v =>
        (Ok v,
         if isnan v then with_warning R "UndefinedMetricWarning" p else p)
    | Raise e => (Raise e, p)
    end.
Proof.
  intros Hy Hs. unfold roc_auc_score_at.
  step (labels_at_eq _ _ _ Hy).
  step (scores_at_eq _ _ _ Hs).
  unfold bindM, lift, warn, ret.
  destruct (roc_auc_score a b) as [[v |] | e]; reflexivity.
Qed.

Lemma append_eq (p : process R) (l : nat) (a : list pyfloat) (x : pyfloat) :
  objects p l = Some (Floats a) ->
  append R l x p = (Ok tt, with_object R l (Floats (a ++ [x])) p).
Proof.
  intros H. unfold append.
  step (floats_at_eq _ _ _ H). reflexivity.
Qed.

Lemma np_sort_at_eq (p : process R) (a : nat) (l : list pyfloat) :
  objects p a = Some (Floats l) ->
  np_sort_at R a p = (Ok (next p), with_new R (Floats (np_sort l)) p).
Proof.
  intros H. unfold np_sort_at.
  step (floats_at_eq _ _ _ H). reflexivity.
Qed.

Lemma np_percentile_at_eq (p : process R) (a : nat) (l : list pyfloat)
    (q : Q) :
  objects p a = Some (Floats l) ->
  np_percentile_at R a q p = (np_percentile l q, p).
Proof.
  intros H. unfold np_percentile_at.
  step (floats_at_eq _ _ _ H). reflexivity.
Qed.

Lemma frame_refl (base : nat) (p : process R) : frame base p p.
Proof. repeat split; try reflexivity; try lia. Qed.

Lemma frame_trans (base : nat) (p p1 p2 : process R) :
  frame base p p1 -> frame base p1 p2 -> frame base p p2.
Proof.
  intros (H1 & N1 & C1) (H2 & N2 & C2). repeat split.
  - intros r Hr. rewrite H2, H1 by exact Hr. reflexivity.
  - lia.
  - congruence.
Qed.

Lemma frame_le (base base' : nat) (p p' : process R) :
  (base' <= base)%nat -> frame base p p' -> frame base' p p'.
Proof.
  intros Hle (H & N & C). repeat split; try assumption.
  intros r Hr. apply H. lia.
Qed.

(** The loop in the process does what the loop on values does, on the
    contents of the generator and of the list; it creates objects, and
    changes those two only. *)
Lemma bootstrap_loop_refines (n : nat) :
  forall (p : process R) (y_true y_score rng boot : nat)
         (yt : list bool) (ys : list Q) (g : rs_state R)
         (acc : list pyfloat),
    objects p y_true = Some (Labels yt) ->
    objects p y_score = Some (Scores ys) ->
    objects p rng = Some (Generator g) ->
    objects p boot = Some (Floats acc) ->
    (y_true < rng)%nat -> (y_score < rng)%nat ->
    (rng < boot)%nat -> (boot < next p)%nat ->
    exists p',
      bootstrap_loop R y_true y_score rng boot n p
      = (match roc_utils.bootstrap_loop R yt ys n g acc with
         | Ok _ => Ok tt
         | Raise e => Raise e
         end, p') /\
      frame rng p p' /\
      warnings p' = warnings p /\
      (forall bs g',
         roc_utils.bootstrap_loop R yt ys n g acc = Ok (bs, g') ->
         objects p' rng = Some (Generator g') /\
         objects p' boot = Some (Floats bs)).
Proof.
  induction n as [| n IH];
    intros p y_true y_score rng boot yt ys g acc Hy Hs Hg Hb Lt1 Lt2 Lt3 Lt4.
  - exists p. cbn [bootstrap_loop roc_utils.bootstrap_loop].
    split; [reflexivity |]. split; [apply frame_refl |].
    split; [reflexivity |].
    intros bs g' E. injection E as <- <-. split; assumption.
  - cbn [bootstrap_loop roc_utils.bootstrap_loop].
    step (len_Scores _ _ _ Hs).
    rewrite bindM_match, (randint_eq p rng g 0 _ _ Hg).
    destruct (rs_randint R g 0 (length ys) (length ys)) as [[l g1] | e];
      cbn [bind];
      [| exists p; split; [reflexivity |]; split; [apply frame_refl |];
         split; [reflexivity | discriminate]].
    cbn beta iota.
    set (p1 := with_new R (Indices l) (with_object R rng (Generator g1) p)).
    assert (F1 : frame rng p p1) by (unfold p1; frame_step).
    assert (Hy1 : objects p1 y_true = Some (Labels yt)) by (unfold p1; lookup).
    assert (Hi1 : objects p1 (next p) = Some (Indices l))
      by (unfold p1; lookup).
    rewrite bindM_match, (getitem_Labels p1 _ _ _ _ Hy1 Hi1).
    destruct (take yt l) as [labels | e] eqn:Et; cbn [bind];
      [| exists p1; split; [reflexivity |]; split; [exact F1 |];
         split; [reflexivity | discriminate]].
    cbn beta iota.
    set (p2 := with_new R (Labels labels) p1).
    assert (Hl2 : objects p2 (next p1) = Some (Labels labels))
      by (unfold p2, p1; lookup).
    step (np_unique_at_eq p2 _ _ Hl2).
    set (p3 := with_new R (Labels (np_unique labels)) p2).
    assert (Hu3 : objects p3 (next p2) = Some (Labels (np_unique labels)))
      by (unfold p3, p2, p1; lookup).
    step (len_Labels p3 _ _ Hu3).
    assert (F3 : frame rng p p3) by (unfold p3, p2, p1; frame_step).
    assert (W3 : warnings p3 = warnings p) by reflexivity.
    assert (Hy3 : objects p3 y_true = Some (Labels yt))
      by (unfold p3, p2, p1; lookup).
    assert (Hs3 : objects p3 y_score = Some (Scores ys))
      by (unfold p3, p2, p1; lookup).
    assert (Hg3 : objects p3 rng = Some (Generator g1))
      by (unfold p3, p2, p1; lookup).
    assert (Hb3 : objects p3 boot = Some (Floats acc))
      by (unfold p3, p2, p1; lookup).
    assert (Hi3 : objects p3 (next p) = Some (Indices l))
      by (unfold p3, p2, p1; lookup).
    assert (N3 : (boot < next p3)%nat)
      by (unfold p3, p2, p1, with_new, with_object; cbn [next]; lia).
    destruct (Nat.ltb_spec (length (np_unique labels)) 2) as [Hlt | Hge].
    + destruct (IH p3 y_true y_score rng boot yt ys g1 acc Hy3 Hs3 Hg3 Hb3
                  Lt1 Lt2 Lt3 N3) as (p' & E & F & W & Hres).
      exists p'. split; [exact E |].
      split; [exact (frame_trans _ _ _ _ F3 F) |].
      split; [congruence | exact Hres].
    + rewrite bindM_match, (getitem_Labels p3 _ _ _ _ Hy3 Hi3).
      rewrite Et. cbn beta iota.
      set (p4 := with_new R (Labels labels) p3).
      assert (Hs4 : objects p4 y_score = Some (Scores ys))
        by (unfold p4, p3, p2, p1; lookup).
      assert (Hi4 : objects p4 (next p) = Some (Indices l))
        by (unfold p4, p3, p2, p1; lookup).
      rewrite bindM_match, (getitem_Scores p4 _ _ _ _ Hs4 Hi4).
      assert (F4 : frame rng p p4) by (unfold p4, p3, p2, p1; frame_step).
      destruct (take ys l) as [scores | e]; cbn [bind];
        [| exists p4; split; [reflexivity |]; split; [exact F4 |];
           split; [reflexivity | discriminate]].
      cbn beta iota.
      set (p5 := with_new R (Scores scores) p4).
      assert (Hl5 : objects p5 (next p3) = Some (Labels labels))
        by (unfold p5, p4, p3, p2, p1; lookup).
      assert (Hs5 : objects p5 (next p4) = Some (Scores scores))
        by (unfold p5, p4, p3, p2, p1; lookup).
      rewrite bindM_match, (roc_auc_score_at_eq p5 _ _ _ _ Hl5 Hs5).
      assert (F5 : frame rng p p5)
        by (unfold p5, p4, p3, p2, p1; frame_step).
      destruct (roc_auc_score labels scores) as [v | e] eqn:Ev; cbn [bind];
        [| exists p5; split; [reflexivity |]; split; [exact F5 |];
           split; [reflexivity | discriminate]].
      destruct v as [v |];
        [| apply roc_auc_score_nan_inv in Ev; lia].
      cbn [isnan]. cbn beta iota.
      assert (Hb5 : objects p5 boot = Some (Floats acc))
        by (unfold p5, p4, p3, p2, p1; lookup).
      step (append_eq p5 _ _ (finite v) Hb5).
      set (p6 := with_object R boot (Floats (acc ++ [finite v])) p5).
      assert (F6 : frame rng p p6)
        by (unfold p6, p5, p4, p3, p2, p1; frame_step).
      assert (Hy6 : objects p6 y_true = Some (Labels yt))
        by (unfold p6, p5, p4, p3, p2, p1; lookup).
      assert (Hs6 : objects p6 y_score = Some (Scores ys))
        by (unfold p6, p5, p4, p3, p2, p1; lookup).
      assert (Hg6 : objects p6 rng = Some (Generator g1))
        by (unfold p6, p5, p4, p3, p2, p1; lookup).
      assert (Hb6 : objects p6 boot = Some (Floats (acc ++ [finite v])))
        by (unfold p6, p5, p4, p3, p2, p1; lookup).
      assert (N6 : (boot < next p6)%nat)
        by (unfold p6, p5, p4, p3, p2, p1, with_new, with_object;
            cbn [next]; lia).
      destruct (IH p6 y_true y_score rng boot yt ys g1 _ Hy6 Hs6 Hg6 Hb6
                  Lt1 Lt2 Lt3 N6) as (p' & E & F & W & Hres).
      exists p'. split; [exact E |].
      split; [exact (frame_trans _ _ _ _ F6 F) |].
      split; [rewrite W; reflexivity | exact Hres].
Qed.

End ProcessFacts.

Section ProcessCall.

Import roc_utils_process.

Variable R : RandomState.

Lemma RandomState_new_eq (p : process R) (seed : Z) :
  RandomState_new R seed p
  = match rs_new R seed with
    | Ok g => (Ok (next p), with_new R (Generator g) p)
    | Raise e => (Raise e, p)
    end.
Proof.
  unfold RandomState_new, bindM, lift, alloc.
  destruct (rs_new R seed); reflexivity.
Qed.

(** The call from the creation of the generator on, in a process that
    holds the two copies. *)
Lemma roc_auc_ci_tail_refines (y_true y_score : nat) (n_bootstrap : nat)
    (random_state : Z) (auc_val : pyfloat) (p : process R)
    (yt : list bool) (ys : list Q) :
  objects p y_true = Some (Labels yt) ->
  objects p y_score = Some (Scores ys) ->
  (y_true < next p)%nat -> (y_score < next p)%nat ->
  exists p',
    bindM (RandomState_new R random_state) (fun rng =>
    bindM (list_new R) (fun boot_scores =>
    bindM (bootstrap_loop R y_true y_score rng boot_scores n_bootstrap)
      (fun _ =>
    bindM (np_sort_at R boot_scores) (fun sorted_scores =>
    bindM (np_percentile_at R sorted_scores 2.5) (fun ci_lower =>
    bindM (np_percentile_at R sorted_scores 97.5) (fun ci_upper =>
    ret (Dict auc_val (ci_lower, auc_val, ci_upper)))))))) p
    = (rng <- rs_new R random_state ;;
       ' (boot_scores, _) <-
         roc_utils.bootstrap_loop R yt ys n_bootstrap rng [] ;;
       let sorted_scores := np_sort boot_scores in
       ci_lower <- np_percentile sorted_scores 2.5 ;;
       ci_upper <- np_percentile sorted_scores 97.5 ;;
       Ok (Dict auc_val (ci_lower, auc_val, ci_upper)), p') /\
    frame (next p) p p' /\
    warnings p' = warnings p.
Proof.
  intros Hy Hs Ly Ls.
  rewrite bindM_match, RandomState_new_eq.
  destruct (rs_new R random_state) as [g | e]; cbn [bind];
    [| exists p; split; [reflexivity |]; split;
       [apply frame_refl | reflexivity]].
  cbn beta iota.
  set (p1 := with_new R (Generator g) p).
  rewrite bindM_match. unfold list_new at 1, alloc at 1. cbn beta iota.
  set (p2 := with_new R (Floats []) p1).
  assert (Hy2 : objects p2 y_true = Some (Labels yt))
    by (unfold p2, p1; lookup).
  assert (Hs2 : objects p2 y_score = Some (Scores ys))
    by (unfold p2, p1; lookup).
  assert (Hg2 : objects p2 (next p) = Some (Generator g))
    by (unfold p2, p1; lookup).
  assert (Hb2 : objects p2 (next p1) = Some (Floats []))
    by (unfold p2, p1; lookup).
  assert (F2 : frame (next p) p p2) by (unfold p2, p1; frame_step).
  destruct (bootstrap_loop_refines R n_bootstrap p2 y_true y_score (next p)
              (next p1) yt ys g [] Hy2 Hs2 Hg2 Hb2 Ly Ls)
    as (p3 & E & F3 & W3 & Hres);
    [unfold p1, with_new; cbn [next]; lia
    | unfold p2, p1, with_new; cbn [next]; lia |].
  rewrite bindM_match, E.
  assert (F3' : frame (next p) p p3) by exact (frame_trans _ _ _ _ _ F2 F3).
  destruct (roc_utils.bootstrap_loop R yt ys n_bootstrap g [])
    as [[bs g'] | e]; cbn [bind];
    [| exists p3; split; [reflexivity |]; split; [exact F3' | exact W3]].
  cbn beta iota zeta.
  destruct (Hres bs g' eq_refl) as [_ Hb3].
  rewrite (bindM_case _ _ _ _ _ _ (np_sort_at_eq R p3 _ _ Hb3)).
  cbn beta iota.
  set (p4 := with_new R (Floats (np_sort bs)) p3).
  assert (Hs4 : objects p4 (next p3) = Some (Floats (np_sort bs)))
    by (unfold p4; lookup).
  assert (F4 : frame (next p) p p4).
  { apply (frame_trans _ _ _ _ _ F3'). destruct F3' as (_ & N3 & _).
    unfold p4. frame_step. }
  rewrite (bindM_case _ _ _ _ _ _ (np_percentile_at_eq R p4 _ _ 2.5 Hs4)).
  destruct (np_percentile (np_sort bs) 2.5) as [lo | e]; cbn [bind];
    [| exists p4; split; [reflexivity |]; split; [exact F4 | exact W3]].
  rewrite (bindM_case _ _ _ _ _ _ (np_percentile_at_eq R p4 _ _ 97.5 Hs4)).
  destruct (np_percentile (np_sort bs) 97.5) as [hi | e]; cbn [bind];
    exists p4; (split; [reflexivity |]; split; [exact F4 | exact W3]).
Qed.

Lemma issued_finite (y_true : list bool) (y_score : list Q) (v : Q) :
  roc_auc_score y_true y_score = Ok (finite v) -> issued y_true y_score = [].
Proof. intros H. unfold issued. rewrite H. reflexivity. Qed.

(** The call in the process does what the call on values does on the
    contents of its two arguments; it creates objects and changes none
    that was there, prints nothing, leaves numpy's module-level generator
    alone, and issues the warning of [roc_auc_score], if any. *)
Lemma roc_auc_ci_refines (y_true y_score : nat) (n_bootstrap : nat)
    (random_state : Z) (p : process R) (labels : list bool)
    (scores : list Q) :
  objects p y_true = Some (Labels labels) ->
  objects p y_score = Some (Scores scores) ->
  (y_true < next p)%nat -> (y_score < next p)%nat ->
  exists p',
    roc_utils_process.roc_auc_ci R y_true y_score false n_bootstrap
      random_state p
    = (fst (roc_utils.roc_auc_ci R labels scores false n_bootstrap
              random_state (console p)), p') /\
    frame (next p) p p' /\
    warnings p' = warnings p ++ issued labels scores.
Proof.
  intros Hy Hs Ly Ls.
  unfold roc_utils_process.roc_auc_ci, roc_utils.roc_auc_ci. cbn [fst].
  rewrite (bindM_case _ _ _ _ _ _ (np_array_eq R p _ _ Hy)). cbn beta iota.
  set (p1 := with_new R (Labels labels) p).
  assert (Hs1 : objects p1 y_score = Some (Scores scores))
    by (unfold p1; lookup).
  rewrite (bindM_case _ _ _ _ _ _ (np_array_eq R p1 _ _ Hs1)). cbn beta iota.
  set (p2 := with_new R (Scores scores) p1).
  assert (Hy2 : objects p2 (next p) = Some (Labels labels))
    by (unfold p2, p1; lookup).
  assert (Hs2 : objects p2 (next p1) = Some (Scores scores))
    by (unfold p2, p1; lookup).
  assert (F2 : frame (next p) p p2) by (unfold p2, p1; frame_step).
  rewrite bindM_match, (roc_auc_score_at_eq R p2 _ _ _ _ Hy2 Hs2).
  unfold issued.
  destruct (roc_auc_score labels scores) as [v | e]; cbn [bind].
  2:{ exists p2. split; [reflexivity |]. split; [exact F2 |].
      rewrite app_nil_r. reflexivity. }
  cbn beta iota.
  set (p3 := if isnan v then with_warning R "UndefinedMetricWarning" p2
             else p2).
  assert (Hy3 : objects p3 (next p) = Some (Labels labels))
    by (unfold p3; destruct (isnan v); exact Hy2).
  assert (Hs3 : objects p3 (next p1) = Some (Scores scores))
    by (unfold p3; destruct (isnan v); exact Hs2).
  assert (N3 : next p3 = next p2)
    by (unfold p3; destruct (isnan v); reflexivity).
  assert (F3 : frame (next p) p p3).
  { apply (frame_trans _ _ _ _ _ F2). unfold p3.
    destruct (isnan v); [| apply frame_refl].
    split; [intros; reflexivity |]. split; [cbn; lia | reflexivity]. }
  assert (W3 : warnings p3
               = warnings p ++ (if isnan v
                                then ["UndefinedMetricWarning"%string]
                                else []))
    by (unfold p3; destruct (isnan v);
        [reflexivity | rewrite app_nil_r; reflexivity]).
  destruct (roc_auc_ci_tail_refines (next p) (next p1) n_bootstrap
              random_state v p3 labels scores Hy3 Hs3)
    as (p' & E & F & W);
    [rewrite N3; unfold p2, p1, with_new; cbn [next]; lia
    | rewrite N3; unfold p2, p1, with_new; cbn [next]; lia |].
  exists p'. split; [exact E |]. split.
  - apply (frame_trans _ _ _ _ _ F3).
    apply (frame_le R (next p3)); [| exact F].
    rewrite N3. unfold p2, p1, with_new. cbn [next]. lia.
  - rewrite W. exact W3.
Qed.

End ProcessCall.




(** Claim C9: with help on, the call prints the docstring and returns
    None, whatever the other arguments are (also those on which
    [roc_auc_score] or the generator's constructor would raise); numpy's
    module-level generator is untouched. *)
Theorem roc_auc_ci_help (R : RandomState) (y_true : list bool)
    (y_score : list Q) (n_bootstrap : nat) (random_state : Z)
    (w : world (rs_state R)) :
  let '(outcome, w') :=
    roc_utils.roc_auc_ci R y_true y_score true n_bootstrap random_state w in
  outcome = Ok PyNone /\
  stdout w' = stdout w ++ [roc_utils.__doc__] /\
  np_random w' = np_random w.
Proof.
  unfold roc_utils.roc_auc_ci, print. cbn.
  split; [reflexivity |]. split; reflexivity.
Qed.

(** The text handed to [print] is the whole docstring, 705 characters from
    the line feed after the opening quotes to the indentation before the
    closing ones ([print] ends it with one more line feed). *)
Example docstring_length :
  String.length roc_utils.__doc__ = 705%nat /\
  String.prefix (roc_utils.nl ++ "    Compute the ROC AUC value")%string
    roc_utils.__doc__ = true.
Proof. split; vm_compute; reflexivity. Qed.


(** Claim C8: on labels [0, 1, 1, 0] with scores [0.2, 0.8, 0.7, 0.3] the
    point AUC the call returns is 1. *)
Theorem roc_auc_ci_toy (R : RandomState) (n_bootstrap : nat)
    (random_state : Z) (w : world (rs_state R)) (auc : pyfloat)
    (ci : pyfloat * pyfloat * pyfloat) :
  fst (roc_utils.roc_auc_ci R toy_labels toy_scores false n_bootstrap
         random_state w) = Ok (Dict auc ci) ->
  exists a : Q, auc = finite a /\ a == 1.
Proof.
  destruct ci as [[lo mid] hi]. intros H.
  apply roc_auc_ci_Ok_inv in H.
  destruct H as (_ & _ & a & _ & _ & _ & _ & _ & -> & _ & _ & Hauc & _).
  exists a. split; [reflexivity |].
  vm_compute in Hauc. injection Hauc as <-. reflexivity.
Qed.


Lemma roc_auc_ci_toy_witness :
  fst (roc_utils.roc_auc_ci MT19937 toy_labels toy_scores false
         roc_utils.default_n_bootstrap roc_utils.default_random_state
         demo_world)
    = Ok (Dict (finite (4 # 4))
            (finite (48000 # 48000), finite (4 # 4),
             finite (27000 # 27000))) /\
  exists a : Q, finite (4 # 4) = finite a /\ a == 1.
Proof.
  assert (H : fst (roc_utils.roc_auc_ci MT19937 toy_labels toy_scores false
                     roc_utils.default_n_bootstrap
                     roc_utils.default_random_state demo_world)
              = Ok (Dict (finite (4 # 4))
                      (finite (48000 # 48000), finite (4 # 4),
                       finite (27000 # 27000))))
    by (vm_compute; reflexivity).
  split; [exact H |].
  exact (roc_auc_ci_toy MT19937 _ _ demo_world _ _ H).
Defined.

(* ================================================================== *)
(** ** The analytic estimator of test.py *)
(* ================================================================== *)

Lemma sqrt_6dp_nonneg (x r : Q) : test.sqrt_6dp x = Ok r -> 0 <= r.
Proof.
  unfold test.sqrt_6dp. destruct (Qlt_bool x 0); [discriminate |].
  intros H. injection H as <-.
  unfold Qle. cbn [Qnum Qden]. rewrite Z.mul_1_r. apply Z.sqrt_nonneg.
Qed.

Lemma sqrt_6dp_lawful : test.sqrt_lawful test.sqrt_6dp.
Proof.
  constructor.
  - intros x Hx. unfold test.sqrt_6dp, Qlt_bool.
    destruct (Qle_bool 0 x) eqn:E; [| reflexivity].
    apply Qle_bool_iff in E. lra.
  - intros x Hx. unfold test.sqrt_6dp, Qlt_bool.
    apply Qle_bool_iff in Hx. rewrite Hx. eexists. reflexivity.
  - exact sqrt_6dp_nonneg.
Qed.

Lemma np_unique_two_In (a : list bool) :
  (2 <= length (np_unique a))%nat -> In true a /\ In false a.
Proof.
  unfold np_unique. intros H.
  destruct (existsb negb a) eqn:En, (existsb (fun b => b) a) eqn:Ep;
    simpl in H; try lia.
  apply existsb_exists in En, Ep.
  destruct En as ([|] & Hn & En); [discriminate |].
  destruct Ep as ([|] & Hp & Ep); [| discriminate].
  split; assumption.
Qed.

Lemma count_pos (c : bool) (a : list bool) :
  In c a -> 1 <= inject_Z (Z.of_nat (test.count c a)).
Proof.
  intros H. unfold test.count.
  apply (count_occ_In bool_dec) in H.
  change 1 with (inject_Z 1). rewrite <- Zle_Qle. lia.
Qed.

(** Labels of one class: one of the two counts is zero. *)
Lemma one_class_count (a : list bool) :
  (length (np_unique a) < 2)%nat ->
  test.count true a = 0%nat \/ test.count false a = 0%nat.
Proof.
  unfold np_unique, test.count. intros H.
  destruct (existsb negb a) eqn:En, (existsb (fun b => b) a) eqn:Ep;
    simpl in H; try lia.
  - left. apply count_occ_not_In. intros Hin.
    assert (E : existsb (fun b => b) a = true)
      by (apply existsb_exists; exists true; split; [exact Hin | reflexivity]).
    congruence.
  - right. apply count_occ_not_In. intros Hin.
    assert (E : existsb negb a = true)
      by (apply existsb_exists; exists false; split; [exact Hin | reflexivity]).
    congruence.
  - left. apply count_occ_not_In. intros Hin.
    assert (E : existsb (fun b => b) a = true)
      by (apply existsb_exists; exists true; split; [exact Hin | reflexivity]).
    congruence.
Qed.

Lemma one_class_product (a : list bool) :
  (length (np_unique a) < 2)%nat ->
  Qeq_bool (inject_Z (Z.of_nat (test.count true a))
            * inject_Z (Z.of_nat (test.count false a))) 0 = true.
Proof.
  intros H. apply Qeq_bool_iff.
  destruct (one_class_count a H) as [-> | ->]; cbn [Z.of_nat];
    change (inject_Z 0) with 0; ring.
Qed.

Ltac float_simpl H :=
  cbn [bind fsub fadd fmul fpow lift2 flt test.truediv test.fsqrt] in H.

(** On labels of one class the point estimate is nan, and the division by
    [N1 * N2 = 0] on line 22 raises. *)
Lemma analytic_ci_nan (sqrt : Q -> result Q) (y_true : list bool)
    (y_score : list Q) :
  roc_auc_score y_true y_score = Ok nan ->
  test.roc_auc_ci sqrt y_true y_score = Raise ZeroDivisionError.
Proof.
  intros HAUC. unfold test.roc_auc_ci. rewrite HAUC. cbv zeta.
  cbn [bind fsub fadd fmul fpow lift2 flt test.truediv test.fsqrt].
  rewrite (one_class_product y_true (roc_auc_score_nan_inv _ _ HAUC)).
  reflexivity.
Qed.

(** What a returned triple of the analytic estimator is made of: the point
    estimate is finite, and so are the standard error and both bounds. *)
Lemma analytic_ci_Ok_inv (sqrt : Q -> result Q) (y_true : list bool)
    (y_score : list Q) (lower upper SE_AUC : pyfloat) :
  test.roc_auc_ci sqrt y_true y_score = Ok ((lower, upper), SE_AUC) ->
  exists AUC SE : Q,
    roc_auc_score y_true y_score = Ok (finite AUC) /\
    SE_AUC = finite SE /\
    let N1 := inject_Z (Z.of_nat (test.count true y_true)) in
    let N2 := inject_Z (Z.of_nat (test.count false y_true)) in
    sqrt ((AUC * (1 - AUC) + (N1 - 1) * (AUC / (2 - AUC) - AUC ^ 2)
           + (N2 - 1) * (2 * AUC ^ 2 / (1 + AUC) - AUC ^ 2)) / (N1 * N2))
      = Ok SE /\
    lower = finite (if Qlt_bool (AUC - 1.96 * SE) 0 then 0
                    else AUC - 1.96 * SE) /\
    upper = finite (if Qlt_bool 1 (AUC + 1.96 * SE) then 1
                    else AUC + 1.96 * SE).
Proof.
  intros H.
  destruct (roc_auc_score y_true y_score) as [[AUC |] | e] eqn:HAUC.
  - exists AUC. unfold test.roc_auc_ci in H. rewrite HAUC in H.
    cbv zeta in *. float_simpl H.
    destruct (Qeq_bool (2 - AUC) 0); [discriminate |]. float_simpl H.
    destruct (Qeq_bool (1 + AUC) 0); [discriminate |]. float_simpl H.
    destruct (Qeq_bool _ 0); [discriminate |]. float_simpl H.
    bind_inv H as SE' HSE'. bind_inv HSE' as SE HSE.
    injection HSE' as <-. float_simpl H.
    exists SE. injection H as <- <- <-.
    split; [reflexivity |]. split; [reflexivity |]. split; [exact HSE |].
    split.
    + destruct (Qlt_bool (AUC - 1.96 * SE) 0); reflexivity.
    + destruct (Qlt_bool 1 (AUC + 1.96 * SE)); reflexivity.
  - rewrite (analytic_ci_nan sqrt _ _ HAUC) in H. discriminate.
  - unfold test.roc_auc_ci in H. rewrite HAUC in H. discriminate.
Qed.

(** Claim C10: whenever the analytic estimator returns, the interval it
    returns is finite and clamped: 0 <= lower <= upper <= 1.  Of
    [math.sqrt] only the sign of its result is used. *)
Theorem analytic_ci_clamped (sqrt : Q -> result Q) (y_true : list bool)
    (y_score : list Q) (lower upper SE_AUC : pyfloat) :
  (forall x r, sqrt x = Ok r -> 0 <= r) ->
  test.roc_auc_ci sqrt y_true y_score = Ok ((lower, upper), SE_AUC) ->
  exists l u : Q,
    lower = finite l /\ upper = finite u /\
    0 <= l /\ l <= u /\ u <= 1.
Proof.
  intros Hsqrt H. apply analytic_ci_Ok_inv in H.
  destruct H as (AUC & SE & HAUC & _ & HSE & -> & ->). cbv zeta in HSE.
  eexists _, _. split; [reflexivity |]. split; [reflexivity |].
  destruct (roc_auc_score_unit _ _ _ HAUC) as [A0 A1].
  pose proof (Hsqrt _ _ HSE) as S0.
  unfold Qlt_bool.
  destruct (Qle_bool 0 (AUC - 1.96 * SE)) eqn:El;
    destruct (Qle_bool (AUC + 1.96 * SE) 1) eqn:Eu; cbn [negb];
    try (apply Qle_bool_iff in El); try (apply Qle_bool_false in El);
    try (apply Qle_bool_iff in Eu); try (apply Qle_bool_false in Eu);
    repeat split; lra.
Qed.

Lemma analytic_ci_clamped_witness :
  test.roc_auc_ci test.sqrt_6dp mixed_labels mixed_scores
    = Ok (finite (83384720 # 400000000), finite 1, finite 0.276295) /\
  exists l u : Q,
    finite (83384720 # 400000000) = finite l /\ finite 1 = finite u /\
    0 <= l /\ l <= u /\ u <= 1.
Proof.
  assert (H : test.roc_auc_ci test.sqrt_6dp mixed_labels mixed_scores
              = Ok (finite (83384720 # 400000000), finite 1,
                    finite 0.276295))
    by (vm_compute; reflexivity).
  split; [exact H |].
  exact (analytic_ci_clamped test.sqrt_6dp mixed_labels mixed_scores _ _ _
           sqrt_6dp_nonneg H).
Defined.

Lemma truediv_Ok (a b : Q) :
  ~ b == 0 -> test.truediv (finite a) (finite b) = Ok (finite (a / b)).
Proof.
  intros Hb. unfold test.truediv.
  destruct (Qeq_bool b 0) eqn:E; [| reflexivity].
  apply Qeq_bool_iff in E. contradiction.
Qed.

(** The variance under the square root is never negative, so the analytic
    estimator returns on arrays of one length that show both classes. *)
Theorem analytic_ci_returns (sqrt : Q -> result Q) (y_true : list bool)
    (y_score : list Q) :
  test.sqrt_lawful sqrt ->
  length y_true = length y_score ->
  (2 <= length (np_unique y_true))%nat ->
  exists lower upper SE_AUC : Q,
    test.roc_auc_ci sqrt y_true y_score
      = Ok ((finite lower, finite upper), finite SE_AUC).
Proof.
  intros Hsqrt Hlen Hcls.
  pose proof (roc_auc_score_returns y_true y_score Hlen Hcls) as HA.
  destruct (roc_auc_score_unit _ _ _ HA) as [A0 A1].
  destruct (np_unique_two_In y_true Hcls) as [Hp Hn].
  pose proof (count_pos true y_true Hp) as HN1.
  pose proof (count_pos false y_true Hn) as HN2.
  unfold test.roc_auc_ci. rewrite HA. cbn [bind]. cbv zeta.
  set (A := rank_auc y_true y_score) in *.
  set (N1 := inject_Z (Z.of_nat (test.count true y_true))) in *.
  set (N2 := inject_Z (Z.of_nat (test.count false y_true))) in *.
  cbn [fsub fadd fmul fpow lift2].
  rewrite (truediv_Ok A (2 - A)) by (intros E; lra). cbn [bind].
  rewrite (truediv_Ok (2 * A ^ 2) (1 + A)) by (intros E; lra). cbn [bind].
  cbn [fsub fadd fmul fpow lift2].
  assert (HN : 0 < N1 * N2) by nra.
  rewrite truediv_Ok by (intros E; lra). cbn [bind].
  assert (Hsq : A ^ 2 == A * A) by (simpl; ring).
  assert (HQ1 : A ^ 2 <= A / (2 - A)).
  { apply Qle_shift_div_l; [lra |]. rewrite Hsq.
    assert (H : 0 <= A * ((1 - A) * (1 - A))).
    { apply Qmult_le_0_compat; [exact A0 |].
      apply Qmult_le_0_compat; lra. }
    lra. }
  assert (HQ2 : A ^ 2 <= 2 * A ^ 2 / (1 + A)).
  { apply Qle_shift_div_l; [lra |]. rewrite Hsq.
    assert (H : 0 <= A * A * (1 - A)).
    { apply Qmult_le_0_compat; [| lra].
      apply Qmult_le_0_compat; exact A0. }
    lra. }
  set (Q1 := A / (2 - A)) in *. set (Q2 := 2 * A ^ 2 / (1 + A)) in *.
  set (A2 := A ^ 2) in *.
  assert (Hvar : 0 <= (A * (1 - A) + (N1 - 1) * (Q1 - A2)
                       + (N2 - 1) * (Q2 - A2)) / (N1 * N2)).
  { apply Qle_shift_div_l; [exact HN |]. nra. }
  unfold test.fsqrt.
  destruct (test.sqrt_total sqrt Hsqrt _ Hvar) as [SE ->]. cbn [bind].
  cbn [fsub fadd fmul fpow lift2 flt].
  destruct (Qlt_bool (A - 1.96 * SE) 0), (Qlt_bool 1 (A + 1.96 * SE));
    eexists _, _, _; reflexivity.
Qed.

Example analytic_ci_returns_toy :
  exists lower upper SE_AUC : Q,
    test.roc_auc_ci test.sqrt_6dp toy_labels toy_scores
      = Ok ((finite lower, finite upper), finite SE_AUC).
Proof.
  apply analytic_ci_returns.
  - exact sqrt_6dp_lawful.
  - reflexivity.
  - vm_compute. lia.
Qed.

(* ================================================================== *)
(** ** More on the bootstrap estimator: separated data, the range of the
    bounds, the loop in two parts, the errors *)
(* ================================================================== *)

Lemma take_Ok_inv {A : Type} (a : list A) (d : A) (indices : list nat)
    (l : list A) :
  take a indices = Ok l ->
  l = resample a d indices /\ Forall (fun i => (i < length a)%nat) indices.
Proof.
  revert l. induction indices as [| i rest IH]; intros l H; simpl in H.
  - injection H as <-. split; [reflexivity | constructor].
  - destruct (nth_error a i) as [x |] eqn:E; [| discriminate].
    bind_inv H as xs Hxs. injection H as <-.
    destruct (IH xs Hxs) as [-> Hall]. split.
    + simpl. rewrite (nth_error_nth a i d E). reflexivity.
    + constructor; [| exact Hall].
      apply nth_error_Some. rewrite E. discriminate.
Qed.

Lemma combine_resample {A B : Type} (a : list A) (b : list B) (da : A)
    (db : B) (indices : list nat) :
  combine (resample a da indices) (resample b db indices)
  = map (fun i => (nth i a da, nth i b db)) indices.
Proof.
  induction indices as [| i rest IH]; simpl; [reflexivity |].
  rewrite <- IH. reflexivity.
Qed.

Lemma In_combine_nth {A B : Type} (a : list A) (b : list B) (da : A)
    (db : B) (i : nat) :
  length a = length b -> (i < length a)%nat ->
  In (nth i a da, nth i b db) (combine a b).
Proof.
  intros Hlen Hi. rewrite <- (combine_nth a b i da db Hlen).
  apply nth_In. rewrite length_combine. lia.
Qed.

(** A resample only holds observations of the sample. *)
Lemma scores_of_resample (c : bool) (y_true : list bool) (y_score : list Q)
    (indices : list nat) (x : Q) :
  length y_true = length y_score ->
  Forall (fun i => (i < length y_true)%nat) indices ->
  In x (scores_of c (resample y_true false indices)
                    (resample y_score 0 indices)) ->
  In x (scores_of c y_true y_score).
Proof.
  intros Hlen Hall. unfold scores_of. rewrite combine_resample.
  rewrite !in_map_iff. intros ([l s] & <- & Hin).
  apply filter_In in Hin. destruct Hin as [Hin Hc].
  apply in_map_iff in Hin. destruct Hin as (i & Hi & Hin).
  injection Hi as <- <-.
  exists (nth i y_true false, nth i y_score 0). split; [reflexivity |].
  apply filter_In. split; [| exact Hc].
  apply In_combine_nth; [exact Hlen |].
  rewrite Forall_forall in Hall. apply Hall, Hin.
Qed.

Lemma separated_spec (y_true : list bool) (y_score : list Q) :
  separated y_true y_score = true <->
  forall p n, In p (scores_of true y_true y_score) ->
              In n (scores_of false y_true y_score) -> n < p.
Proof.
  unfold separated. rewrite forallb_forall. split.
  - intros H p n Hp Hn. specialize (H p Hp).
    rewrite forallb_forall in H. specialize (H n Hn).
    apply negb_true_iff in H. apply Qle_bool_false. exact H.
  - intros H p Hp. apply forallb_forall. intros n Hn.
    apply negb_true_iff. destruct (Qle_bool p n) eqn:E; [| reflexivity].
    apply Qle_bool_iff in E. specialize (H p n Hp Hn). lra.
Qed.

Lemma separated_resample (y_true : list bool) (y_score : list Q)
    (indices : list nat) :
  length y_true = length y_score ->
  Forall (fun i => (i < length y_true)%nat) indices ->
  separated y_true y_score = true ->
  separated (resample y_true false indices) (resample y_score 0 indices)
  = true.
Proof.
  intros Hlen Hall Hsep. apply separated_spec. intros p n Hp Hn.
  apply (proj1 (separated_spec y_true y_score) Hsep).
  - eapply scores_of_resample; eassumption.
  - eapply scores_of_resample; eassumption.
Qed.

Lemma Qsum_ones (l : list Q) :
  Forall (fun x => x = 1) l -> Qsum l == inject_Z (Z.of_nat (length l)).
Proof.
  induction 1 as [| x l Hx _ IH].
  - reflexivity.
  - change (Qsum (x :: l)) with (x + Qsum l).
    change (length (x :: l)) with (S (length l)).
    rewrite Nat2Z.inj_succ, <- Z.add_1_r, inject_Z_plus, IH, Hx.
    change (inject_Z 1) with 1. ring.
Qed.

Lemma scores_of_nonempty (c : bool) (y_true : list bool) (y_score : list Q) :
  length y_true = length y_score -> In c y_true ->
  scores_of c y_true y_score <> [].
Proof.
  revert y_score. induction y_true as [| b yt IH]; intros ys Hlen Hin;
    [contradiction |].
  destruct ys as [| s ys]; [discriminate |].
  unfold scores_of. simpl.
  destruct (Bool.eqb b c) eqn:E; [discriminate |].
  destruct Hin as [-> | Hin].
  - rewrite Bool.eqb_reflx in E. discriminate.
  - apply IH; [simpl in Hlen; lia | exact Hin].
Qed.

(** On separated data the AUC is 1. *)
Lemma roc_auc_score_separated (y_true : list bool) (y_score : list Q) (v : Q) :
  separated y_true y_score = true ->
  roc_auc_score y_true y_score = Ok (finite v) -> v == 1.
Proof.
  intros Hsep H. apply roc_auc_score_finite_inv in H.
  destruct H as (-> & Hlen & Hcls).
  assert (Hcls' : (2 <= length (np_unique y_true))%nat) by lia.
  destruct (np_unique_two_In y_true Hcls') as [Hp Hn].
  pose proof (scores_of_nonempty true y_true y_score Hlen Hp) as Hpos.
  pose proof (scores_of_nonempty false y_true y_score Hlen Hn) as Hneg.
  unfold rank_auc.
  set (pos := scores_of true y_true y_score) in *.
  set (neg := scores_of false y_true y_score) in *.
  rewrite Qsum_ones.
  - rewrite length_map, length_prod.
    assert (Hd : 0 < inject_Z (Z.of_nat (length pos * length neg))).
    { change 0 with (inject_Z 0). rewrite <- Zlt_Qlt.
      destruct pos; [congruence |]. destruct neg; [congruence |].
      simpl length. lia. }
    field. lra.
  - apply Forall_forall. intros x Hx. apply in_map_iff in Hx.
    destruct Hx as ([p n] & <- & Hin). apply in_prod_iff in Hin.
    destruct Hin as [Hip Hin].
    pose proof (proj1 (separated_spec y_true y_score) Hsep p n Hip Hin) as Hlt.
    unfold pair_credit. cbn [fst snd].
    apply Qgt_alt in Hlt. rewrite Hlt. reflexivity.
Qed.

(** The interpolated percentile of a non-empty sorted array lies between
    two of its elements. *)
Lemma percentile_between_elements (bs : list Q) (q v : Q) :
  bs <> [] -> v == interpolated_percentile (sort_Q bs) q ->
  exists a b, In a bs /\ In b bs /\ a <= v /\ v <= b.
Proof.
  intros Hne Hv.
  assert (Hne' : sort_Q bs <> []).
  { intros E. apply Hne. apply length_zero_iff_nil.
    rewrite <- sort_Q_length, E. reflexivity. }
  destruct (interpolated_between (sort_Q bs) q (sort_Q_sorted bs))
    as [Hlo Hhi].
  cbv zeta in Hlo, Hhi.
  eexists _, _. split; [| split; [| split]].
  - eapply Permutation_in; [apply sort_Q_perm |].
    apply order_stat_In, Hne'.
  - eapply Permutation_in; [apply sort_Q_perm |].
    apply order_stat_In, Hne'.
  - rewrite Hv. exact Hlo.
  - rewrite Hv. exact Hhi.
Qed.

(** What a returned dictionary says about the distribution behind it. *)
Lemma roc_auc_ci_Ok_distribution (R : RandomState) (y_true : list bool)
    (y_score : list Q) (help : bool) (n_bootstrap : nat) (random_state : Z)
    (w : world (rs_state R)) (auc lower mid upper : pyfloat) :
  fst (roc_utils.roc_auc_ci R y_true y_score help n_bootstrap random_state w)
    = Ok (Dict auc (lower, mid, upper)) ->
  exists rng (boot_scores : list Q) rng' (l u : Q),
    rs_new R random_state = Ok rng /\
    roc_utils.bootstrap_loop R y_true y_score n_bootstrap rng []
      = Ok (map finite boot_scores, rng') /\
    boot_scores <> [] /\
    lower = finite l /\ upper = finite u /\
    l == interpolated_percentile (sort_Q boot_scores) 2.5 /\
    u == interpolated_percentile (sort_Q boot_scores) 97.5.
Proof.
  intros H. apply roc_auc_ci_Ok_inv in H.
  destruct H as (_ & _ & a & l & u & rng & bs & rng' & _ & -> & -> &
                 _ & Hrng & Hloop & _ & Hlo & Hhi).
  pose proof (sort_Q_nonempty_inv bs (percentile_Q_Ok_nonempty _ _ _ Hlo)) as Hne.
  destruct (percentile_of_sorted bs 2.5 Hne ltac:(lra) ltac:(lra))
    as (lo' & Elo & Hlo').
  destruct (percentile_of_sorted bs 97.5 Hne ltac:(lra) ltac:(lra))
    as (hi' & Ehi & Hhi').
  rewrite Hlo in Elo. injection Elo as <-.
  rewrite Hhi in Ehi. injection Ehi as <-.
  exists rng, bs, rng', l, u.
  repeat split; try assumption; reflexivity.
Qed.

Lemma map_finite_inj (l1 l2 : list Q) : map finite l1 = map finite l2 -> l1 = l2.
Proof.
  revert l2. induction l1 as [| x l1 IH]; intros [| y l2] H;
    try discriminate; [reflexivity |].
  simpl in H. injection H as -> H. rewrite (IH _ H). reflexivity.
Qed.

(** A property of the AUC of every resample with both classes is a
    property of every value the loop appends. *)
Lemma bootstrap_loop_values (R : RandomState) (y_true : list bool)
    (y_score : list Q) (P : Q -> Prop) (n : nat) :
  (forall indices v,
     Forall (fun i => (i < length y_true)%nat) indices ->
     roc_auc_score (resample y_true false indices)
                   (resample y_score 0 indices) = Ok (finite v) -> P v) ->
  forall (g g' : rs_state R) (acc bs : list pyfloat),
    roc_utils.bootstrap_loop R y_true y_score n g acc = Ok (bs, g') ->
    exists new : list Q, bs = acc ++ map finite new /\ Forall P new.
Proof.
  intros HP.
  induction n as [| n IH]; intros g g' acc bs H; simpl in H.
  - injection H as <- _. exists []. rewrite app_nil_r.
    split; [reflexivity | constructor].
  - bind_inv H as [l g1] Hdraw.
    bind_inv H as labels Hlabels.
    destruct (take_Ok_inv y_true false l labels Hlabels) as [-> Hin].
    destruct (Nat.ltb_spec (length (np_unique (resample y_true false l))) 2)
      as [Hlt | Hge].
    + eapply IH; eassumption.
    + bind_inv H as scores Hscores.
      destruct (take_Ok_inv y_score 0 l scores Hscores) as [-> _].
      bind_inv H as v Hv.
      destruct v as [v |];
        [| apply roc_auc_score_nan_inv in Hv; lia].
      destruct (IH _ _ _ _ H) as (new & -> & Hnew).
      exists (v :: new). rewrite <- app_assoc. split; [reflexivity |].
      constructor; [| exact Hnew].
      exact (HP l v Hin Hv).
Qed.

(** With separated data every value the loop appends is 1. *)
Lemma bootstrap_loop_separated (R : RandomState) (y_true : list bool)
    (y_score : list Q) (n : nat) :
  length y_true = length y_score ->
  separated y_true y_score = true ->
  forall (g g' : rs_state R) (bs : list Q),
    roc_utils.bootstrap_loop R y_true y_score n g [] = Ok (map finite bs, g') ->
    Forall (fun x => x == 1) bs.
Proof.
  intros Hlen Hsep g g' bs H.
  destruct (bootstrap_loop_values R y_true y_score (fun x => x == 1) n)
    with (1 := fun indices v Hin Hv =>
                 roc_auc_score_separated _ _ v
                   (separated_resample y_true y_score indices Hlen Hin Hsep)
                   Hv)
         (2 := H) as (new & E & Hnew).
  cbn [app] in E. apply map_finite_inj in E. subst bs. exact Hnew.
Qed.


(** Extra X1: on data whose positives all score above all negatives, a
    returned dictionary has AUC 1 and both bounds 1, whatever the seed, the
    number of resamples and the generator. *)
Theorem roc_auc_ci_separated (R : RandomState) (y_true : list bool)
    (y_score : list Q) (help : bool) (n_bootstrap : nat) (random_state : Z)
    (w : world (rs_state R)) (auc lower mid upper : pyfloat) :
  separated y_true y_score = true ->
  fst (roc_utils.roc_auc_ci R y_true y_score help n_bootstrap random_state w)
    = Ok (Dict auc (lower, mid, upper)) ->
  exists a l u : Q,
    auc = finite a /\ lower = finite l /\ upper = finite u /\
    a == 1 /\ l == 1 /\ u == 1.
Proof.
  intros Hsep H.
  pose proof (roc_auc_ci_Ok_inv _ _ _ _ _ _ _ _ _ _ _ H)
    as (_ & _ & a & _ & _ & _ & _ & _ & Ea & _ & _ & Hauc & _).
  destruct (roc_auc_score_finite_inv _ _ _ Hauc) as (_ & Hlen & _).
  apply roc_auc_ci_Ok_distribution in H.
  destruct H as (rng & bs & rng' & l & u & Hrng & Hloop & Hne & -> & -> &
                 Hlo & Hhi).
  pose proof (bootstrap_loop_separated R y_true y_score n_bootstrap Hlen Hsep
                rng rng' bs Hloop) as Hall.
  rewrite Forall_forall in Hall.
  destruct (percentile_between_elements bs 2.5 l Hne Hlo)
    as (x & y & Hx & Hy & Hxl & Hly).
  destruct (percentile_between_elements bs 97.5 u Hne Hhi)
    as (x' & y' & Hx' & Hy' & Hxu & Huy).
  pose proof (Hall x Hx). pose proof (Hall y Hy).
  pose proof (Hall x' Hx'). pose proof (Hall y' Hy').
  exists a, l, u. split; [exact Ea |].
  split; [reflexivity |]. split; [reflexivity |].
  split; [eapply roc_auc_score_separated; eassumption |].
  split; lra.
Qed.


Lemma roc_auc_ci_separated_witness :
  separated toy_labels toy_scores = true /\
  fst (roc_utils.roc_auc_ci MT19937 toy_labels toy_scores false 20 42
         demo_world)
    = Ok (Dict (finite (4 # 4))
            (finite (48000 # 48000), finite (4 # 4),
             finite (36000 # 36000))) /\
  exists a l u : Q,
    finite (4 # 4) = finite a /\ finite (48000 # 48000) = finite l /\
    finite (36000 # 36000) = finite u /\
    a == 1 /\ l == 1 /\ u == 1.
Proof.
  assert (Hs : separated toy_labels toy_scores = true)
    by (vm_compute; reflexivity).
  assert (H : fst (roc_utils.roc_auc_ci MT19937 toy_labels toy_scores false
                     20 42 demo_world)
              = Ok (Dict (finite (4 # 4))
                      (finite (48000 # 48000), finite (4 # 4),
                       finite (36000 # 36000))))
    by (vm_compute; reflexivity).
  split; [exact Hs |]. split; [exact H |].
  exact (roc_auc_ci_separated MT19937 toy_labels toy_scores false 20 42
           demo_world _ _ _ _ Hs H).
Defined.

(** Extra X2: the bounds never leave the range of the bootstrap
    distribution: whatever bounds [m <= x <= M] hold for every bootstrap
    AUC hold for the interval, [m <= lower] and [upper <= M]. *)
Theorem roc_auc_ci_within_distribution (R : RandomState)
    (y_true : list bool) (y_score : list Q) (help : bool)
    (n_bootstrap : nat) (random_state : Z) (w : world (rs_state R))
    (auc lower mid upper : pyfloat) :
  fst (roc_utils.roc_auc_ci R y_true y_score help n_bootstrap random_state w)
    = Ok (Dict auc (lower, mid, upper)) ->
  exists rng (boot_scores : list Q) rng' (l u : Q),
    rs_new R random_state = Ok rng /\
    roc_utils.bootstrap_loop R y_true y_score n_bootstrap rng []
      = Ok (map finite boot_scores, rng') /\
    lower = finite l /\ upper = finite u /\
    forall m M : Q,
      Forall (fun x => m <= x /\ x <= M) boot_scores ->
      m <= l /\ u <= M.
Proof.
  intros H. apply roc_auc_ci_Ok_distribution in H.
  destruct H as (rng & bs & rng' & l & u & Hrng & Hloop & Hne & -> & -> &
                 Hlo & Hhi).
  exists rng, bs, rng', l, u.
  split; [exact Hrng |]. split; [exact Hloop |].
  split; [reflexivity |]. split; [reflexivity |].
  intros m M Hall. rewrite Forall_forall in Hall.
  destruct (percentile_between_elements bs 2.5 l Hne Hlo)
    as (a & _ & Ha & _ & Hal & _).
  destruct (percentile_between_elements bs 97.5 u Hne Hhi)
    as (_ & b & _ & Hb & _ & Hbu).
  destruct (Hall a Ha) as [Hma _]. destruct (Hall b Hb) as [_ HbM].
  split; lra.
Qed.


Lemma roc_auc_ci_within_distribution_witness :
  fst (roc_utils.roc_auc_ci MT19937 mixed_labels mixed_scores false 20 42
         demo_world)
    = Ok (Dict (finite (3 # 4))
            (finite (0 # 27000), finite (3 # 4), finite (48000 # 48000))) /\
  exists rng (boot_scores : list Q) rng' (l u : Q),
    rs_new MT19937 42 = Ok rng /\
    roc_utils.bootstrap_loop MT19937 mixed_labels mixed_scores 20 rng []
      = Ok (map finite boot_scores, rng') /\
    finite (0 # 27000) = finite l /\ finite (48000 # 48000) = finite u /\
    forall m M : Q,
      Forall (fun x => m <= x /\ x <= M) boot_scores ->
      m <= l /\ u <= M.
Proof.
  assert (H : fst (roc_utils.roc_auc_ci MT19937 mixed_labels mixed_scores
                     false 20 42 demo_world)
              = Ok (Dict (finite (3 # 4))
                      (finite (0 # 27000), finite (3 # 4),
                       finite (48000 # 48000))))
    by (vm_compute; reflexivity).
  split; [exact H |].
  exact (roc_auc_ci_within_distribution MT19937 mixed_labels mixed_scores
           false 20 42 demo_world _ _ _ _ H).
Defined.

(** Extra X3: the loop can be run in two parts: [n + m] iterations are [n]
    iterations followed by [m] more from the generator state and the
    distribution the first part leaves (an error in either part is the
    error of the whole). *)
Theorem bootstrap_loop_add (R : RandomState) (y_true : list bool)
    (y_score : list Q) (n m : nat) (rng : rs_state R)
    (boot_scores : list pyfloat) :
  roc_utils.bootstrap_loop R y_true y_score (n + m) rng boot_scores =
  (' (bs, rng') <-
     roc_utils.bootstrap_loop R y_true y_score n rng boot_scores ;;
   roc_utils.bootstrap_loop R y_true y_score m rng' bs).
Proof.
  revert rng boot_scores.
  induction n as [| n IH]; intros rng boot_scores; simpl; [reflexivity |].
  destruct (rs_randint R rng 0 (length y_score) (length y_score))
    as [[indices rng1] | e]; simpl; [| reflexivity].
  destruct (take y_true indices) as [labels | e]; simpl; [| reflexivity].
  destruct (length (np_unique labels) <? 2)%nat; [apply IH |].
  destruct (take y_score indices) as [scores | e]; simpl; [| reflexivity].
  destruct (roc_auc_score labels scores) as [boot_auc | e]; simpl;
    [apply IH | reflexivity].
Qed.

Lemma valid_input_true (y_true : list bool) (y_score : list Q) :
  valid_input y_true y_score = true <->
  length y_true = length y_score /\ (2 <= length (np_unique y_true))%nat.
Proof.
  unfold valid_input. rewrite andb_true_iff, Nat.eqb_eq, Nat.leb_le.
  reflexivity.
Qed.

Lemma valid_seed_true (random_state : Z) :
  valid_seed random_state = true <-> (0 <= random_state < 2 ^ 32)%Z.
Proof.
  unfold valid_seed. rewrite andb_true_iff, Z.leb_le, Z.ltb_lt. reflexivity.
Qed.

Lemma existsb_two_classes_false (y_true : list bool) (draws : list (list nat)) :
  existsb (two_classes y_true) draws = false ->
  forallb (fun indices => negb (two_classes y_true indices)) draws = true.
Proof.
  induction draws as [| d ds IH]; simpl; [reflexivity |].
  intros H. apply orb_false_iff in H. destruct H as [Hd Hds].
  rewrite Hd, (IH Hds). reflexivity.
Qed.

Lemma valid_seed_false (random_state : Z) :
  valid_seed random_state = false -> ~ (0 <= random_state < 2 ^ 32)%Z.
Proof.
  intros H Hs. apply valid_seed_true in Hs. congruence.
Qed.

(** On arrays of one length that are not empty, [roc_auc_score] returns:
    a finite score, or nan. *)
Lemma roc_auc_score_total (y_true : list bool) (y_score : list Q) :
  length y_true = length y_score -> y_true <> [] ->
  exists v, roc_auc_score y_true y_score = Ok v.
Proof.
  intros Hlen Hne.
  destruct (Nat.ltb_spec (length (np_unique y_true)) 2) as [Hone | Htwo].
  - exists nan. apply roc_auc_score_one_class; [exact Hne | | exact Hone].
    intros ->. destruct y_true; [contradiction | discriminate].
  - eexists. apply roc_auc_score_returns; assumption.
Qed.

(** The three ways a call that estimates can end, for a lawful generator
    and arrays of one length that are not empty. *)
Lemma roc_auc_ci_cases (R : RandomState) (y_true : list bool)
    (y_score : list Q) (n_bootstrap : nat) (random_state : Z)
    (w : world (rs_state R)) :
  lawful R ->
  length y_true = length y_score -> y_true <> [] ->
  let outcome :=
    fst (roc_utils.roc_auc_ci R y_true y_score false n_bootstrap
           random_state w) in
  let kept :=
    existsb (two_classes y_true)
      (bootstrap_draws R (length y_score) n_bootstrap random_state) in
  (valid_seed random_state = false /\ outcome = Raise ValueError) \/
  (valid_seed random_state = true /\
   kept = false /\ outcome = Raise IndexError) \/
  (valid_seed random_state = true /\
   kept = true /\
   exists auc lower upper,
     outcome = Ok (Dict auc (finite lower, auc, finite upper))).
Proof.
  intros HR Hlen Hne outcome kept.
  destruct (roc_auc_score_total y_true y_score Hlen Hne) as [auc Hauc].
  destruct (valid_seed random_state) eqn:Es.
  2:{ left. split; [reflexivity |]. unfold outcome, roc_utils.roc_auc_ci.
      rewrite Hauc. cbn [bind fst].
      rewrite (new_range R HR random_state (valid_seed_false _ Es)).
      reflexivity. }
  apply valid_seed_true in Es. right.
  destruct (new_ok R HR random_state Es) as [rng Hrng].
  assert (Hpos : (0 < length y_score)%nat).
  { rewrite <- Hlen. destruct y_true; [contradiction | simpl; lia]. }
  pose proof (bootstrap_loop_spec R y_true y_score n_bootstrap rng [] HR
                Hlen Hpos) as Hloop.
  cbn [app] in Hloop.
  unfold outcome.
  rewrite (roc_auc_ci_tail R y_true y_score n_bootstrap random_state w _ _ _
             _ Hauc Hrng Hloop).
  cbn [fst].
  assert (Ed : bootstrap_draws R (length y_score) n_bootstrap random_state
               = fst (draw_seq R (length y_score) n_bootstrap rng))
    by (unfold bootstrap_draws; rewrite Hrng; reflexivity).
  unfold kept. rewrite Ed.
  set (draws := fst (draw_seq R (length y_score) n_bootstrap rng)) in *.
  destruct (existsb (two_classes y_true) draws) eqn:Ek.
  - right. split; [reflexivity |]. split; [reflexivity |].
    assert (Hnn : flat_map (contribution y_true y_score) draws <> []).
    { apply existsb_exists in Ek. destruct Ek as (d & Hin & Hd).
      apply (flat_map_nonempty _ _ d Hin).
      destruct (contribution_kept y_true y_score d (two_classes_true _ _ Hd))
        as (v & _ & ->).
      discriminate. }
    destruct (percentile_of_sorted _ 2.5 Hnn ltac:(lra) ltac:(lra))
      as (lo & -> & _).
    destruct (percentile_of_sorted _ 97.5 Hnn ltac:(lra) ltac:(lra))
      as (hi & -> & _).
    exists auc, lo, hi. reflexivity.
  - left. split; [reflexivity |]. split; [reflexivity |].
    rewrite flat_map_all_nil; [reflexivity |].
    apply existsb_two_classes_false in Ek.
    rewrite forallb_forall in Ek. apply Forall_forall. intros d Hd.
    apply contribution_discarded, two_classes_false.
    apply negb_true_iff, Ek, Hd.
Qed.


(** Extra X4: on arrays of one length that are not empty, with a lawful
    generator, a call that estimates raises ValueError exactly when the
    seed is out of range, IndexError exactly when the seed is in range and
    no resample keeps both classes, and nothing else; it never returns
    None. *)
Theorem roc_auc_ci_errors (R : RandomState) (y_true : list bool)
    (y_score : list Q) (n_bootstrap : nat) (random_state : Z)
    (w : world (rs_state R)) :
  lawful R ->
  length y_true = length y_score -> y_true <> [] ->
  let outcome :=
    fst (roc_utils.roc_auc_ci R y_true y_score false n_bootstrap
           random_state w) in
  (outcome = Raise ValueError <-> valid_seed random_state = false) /\
  (outcome = Raise IndexError <->
   valid_seed random_state = true /\
   existsb (two_classes y_true)
     (bootstrap_draws R (length y_score) n_bootstrap random_state) = false) /\
  (forall e, outcome = Raise e -> e = ValueError \/ e = IndexError) /\
  outcome <> Ok PyNone.
Proof.
  intros HR Hlen Hne outcome.
  pose proof (roc_auc_ci_cases R y_true y_score n_bootstrap random_state w HR
                Hlen Hne) as Hcases.
  cbv zeta in Hcases. fold outcome in Hcases.
  destruct Hcases
    as [[Hv Ho] | [(Hv & Hk & Ho) | (Hv & Hk & auc & lo & hi & Ho)]];
    rewrite Ho, Hv.
  - (* seed out of range *)
    split; [split; reflexivity |].
    split; [split; [discriminate | intros [H _]; discriminate H] |].
    split; [| discriminate].
    intros e H. injection H as <-. left. reflexivity.
  - (* every resample discarded *)
    rewrite Hk.
    split; [split; discriminate |].
    split; [split; [intros _; split; reflexivity | reflexivity] |].
    split; [| discriminate].
    intros e H. injection H as <-. right. reflexivity.
  - (* a dictionary *)
    rewrite Hk.
    split; [split; discriminate |].
    split; [split; [discriminate | intros [_ H]; discriminate H] |].
    split; discriminate.
Qed.

Lemma roc_auc_ci_errors_witness :
  length [true; true] = length [0.2; 0.8] /\
  let outcome :=
    fst (roc_utils.roc_auc_ci MT19937 [true; true] [0.2; 0.8] false 3 3
           demo_world) in
  (outcome = Raise ValueError <-> valid_seed 3 = false) /\
  (outcome = Raise IndexError <->
   valid_seed 3 = true /\
   existsb (two_classes [true; true])
     (bootstrap_draws MT19937 (length [0.2; 0.8]) 3 3) = false) /\
  (forall e, outcome = Raise e -> e = ValueError \/ e = IndexError) /\
  outcome <> Ok PyNone.
Proof.
  split; [reflexivity |].
  apply (roc_auc_ci_errors MT19937 [true; true] [0.2; 0.8] 3 3 demo_world
           MT19937_lawful eq_refl).
  discriminate.
Defined.

(** Extra X5: with [n_bootstrap = 0] no resample is drawn and every valid
    call ends in IndexError. *)
Theorem roc_auc_ci_zero_resamples (R : RandomState) (y_true : list bool)
    (y_score : list Q) (random_state : Z) (w : world (rs_state R)) :
  lawful R ->
  valid_input y_true y_score = true ->
  valid_seed random_state = true ->
  roc_utils.roc_auc_ci R y_true y_score false 0 random_state w
    = (Raise IndexError, w).
Proof.
  intros HR Hv Hs.
  apply valid_input_true in Hv. destruct Hv as [Hlen Hcls].
  apply valid_seed_true in Hs.
  destruct (roc_auc_ci_unfold R y_true y_score 0 random_state w
              HR Hlen Hcls Hs) as (auc & _ & ->).
  unfold bootstrap_draws.
  destruct (rs_new R random_state); reflexivity.
Qed.

Lemma roc_auc_ci_zero_resamples_witness :
  valid_input toy_labels toy_scores = true /\
  valid_seed 42 = true /\
  roc_utils.roc_auc_ci MT19937 toy_labels toy_scores false 0 42 demo_world
    = (Raise IndexError, demo_world).
Proof.
  split; [reflexivity |]. split; [reflexivity |].
  apply roc_auc_ci_zero_resamples.
  - exact MT19937_lawful.
  - reflexivity.
  - reflexivity.
Defined.

(* ================================================================== *)
(** ** More on the analytic estimator of test.py *)
(* ================================================================== *)

Lemma sqrt_6dp_zero (x r : Q) : x == 0 -> test.sqrt_6dp x = Ok r -> r == 0.
Proof.
  intros Hx. unfold test.sqrt_6dp.
  destruct (Qlt_bool x 0); [discriminate |].
  intros H. injection H as <-.
  assert (Hn : Qnum x = 0%Z).
  { unfold Qeq in Hx. cbn [Qnum Qden] in Hx. lia. }
  rewrite Hn. reflexivity.
Qed.




(** Extra X7: the interval the analytic estimator returns contains the
    point AUC, and is at most 2 * 1.96 standard errors wide. *)
Theorem analytic_ci_contains_auc (sqrt : Q -> result Q) (y_true : list bool)
    (y_score : list Q) (lower upper SE_AUC : pyfloat) :
  (forall x r, sqrt x = Ok r -> 0 <= r) ->
  test.roc_auc_ci sqrt y_true y_score = Ok ((lower, upper), SE_AUC) ->
  exists AUC l u SE : Q,
    roc_auc_score y_true y_score = Ok (finite AUC) /\
    lower = finite l /\ upper = finite u /\ SE_AUC = finite SE /\
    l <= AUC /\ AUC <= u /\
    u - l <= 2 * 1.96 * SE.
Proof.
  intros Hsqrt H. apply analytic_ci_Ok_inv in H.
  destruct H as (AUC & SE & HAUC & -> & HSE & -> & ->). cbv zeta in HSE.
  eexists AUC, _, _, SE. split; [exact HAUC |].
  split; [reflexivity |]. split; [reflexivity |]. split; [reflexivity |].
  destruct (roc_auc_score_unit _ _ _ HAUC) as [A0 A1].
  pose proof (Hsqrt _ _ HSE) as S0.
  unfold Qlt_bool.
  destruct (Qle_bool 0 (AUC - 1.96 * SE)) eqn:El;
    destruct (Qle_bool (AUC + 1.96 * SE) 1) eqn:Eu; cbn [negb];
    try (apply Qle_bool_iff in El); try (apply Qle_bool_false in El);
    try (apply Qle_bool_iff in Eu); try (apply Qle_bool_false in Eu);
    repeat split; lra.
Qed.


Lemma analytic_ci_contains_auc_witness :
  test.roc_auc_ci test.sqrt_6dp mixed_labels mixed_scores
    = Ok (finite (83384720 # 400000000), finite 1, finite 0.276295) /\
  exists AUC l u SE : Q,
    roc_auc_score mixed_labels mixed_scores = Ok (finite AUC) /\
    finite (83384720 # 400000000) = finite l /\ finite 1 = finite u /\
    finite 0.276295 = finite SE /\
    l <= AUC /\ AUC <= u /\
    u - l <= 2 * 1.96 * SE.
Proof.
  assert (H : test.roc_auc_ci test.sqrt_6dp mixed_labels mixed_scores
              = Ok (finite (83384720 # 400000000), finite 1,
                    finite 0.276295))
    by (vm_compute; reflexivity).
  split; [exact H |].
  exact (analytic_ci_contains_auc test.sqrt_6dp mixed_labels mixed_scores
           _ _ _ sqrt_6dp_nonneg H).
Defined.

(** Extra X8: when the point AUC is 0 or 1 the variance is zero: with a
    square root that is exact at zero, the standard error is 0 and both
    bounds equal the AUC. *)
Theorem analytic_ci_degenerate (sqrt : Q -> result Q) (y_true : list bool)
    (y_score : list Q) (AUC : Q) (lower upper SE_AUC : pyfloat) :
  (forall x r, x == 0 -> sqrt x = Ok r -> r == 0) ->
  roc_auc_score y_true y_score = Ok (finite AUC) ->
  AUC == 0 \/ AUC == 1 ->
  test.roc_auc_ci sqrt y_true y_score = Ok ((lower, upper), SE_AUC) ->
  exists l u SE : Q,
    lower = finite l /\ upper = finite u /\ SE_AUC = finite SE /\
    SE == 0 /\ l == AUC /\ u == AUC.
Proof.
  intros Hsqrt HAUC Hends H. apply analytic_ci_Ok_inv in H.
  destruct H as (A & SE & HA & -> & HSE & -> & ->). cbv zeta in HSE.
  rewrite HAUC in HA. injection HA as <-.
  assert (Hnum : AUC * (1 - AUC)
                 + (inject_Z (Z.of_nat (test.count true y_true)) - 1)
                   * (AUC / (2 - AUC) - AUC ^ 2)
                 + (inject_Z (Z.of_nat (test.count false y_true)) - 1)
                   * (2 * AUC ^ 2 / (1 + AUC) - AUC ^ 2) == 0).
  { assert (H1 : AUC * (1 - AUC) == 0)
      by (destruct Hends as [E | E]; rewrite E; reflexivity).
    assert (H2 : AUC / (2 - AUC) - AUC ^ 2 == 0)
      by (destruct Hends as [E | E]; rewrite E; reflexivity).
    assert (H3 : 2 * AUC ^ 2 / (1 + AUC) - AUC ^ 2 == 0)
      by (destruct Hends as [E | E]; rewrite E; reflexivity).
    rewrite H1, H2, H3. ring. }
  assert (Hvar : forall d, (AUC * (1 - AUC)
                 + (inject_Z (Z.of_nat (test.count true y_true)) - 1)
                   * (AUC / (2 - AUC) - AUC ^ 2)
                 + (inject_Z (Z.of_nat (test.count false y_true)) - 1)
                   * (2 * AUC ^ 2 / (1 + AUC) - AUC ^ 2)) / d == 0).
  { intros d. rewrite Hnum. unfold Qdiv. ring. }
  pose proof (Hsqrt _ _ (Hvar _) HSE) as HS.
  destruct (roc_auc_score_unit _ _ _ HAUC) as [A0 A1].
  eexists _, _, SE.
  split; [reflexivity |]. split; [reflexivity |]. split; [reflexivity |].
  split; [exact HS |].
  unfold Qlt_bool.
  assert (El : Qle_bool 0 (AUC - 1.96 * SE) = true)
    by (apply Qle_bool_iff; rewrite HS; lra).
  assert (Eu : Qle_bool (AUC + 1.96 * SE) 1 = true)
    by (apply Qle_bool_iff; rewrite HS; lra).
  rewrite El, Eu. cbn [negb]. rewrite HS. split; ring.
Qed.

Lemma analytic_ci_degenerate_witness :
  test.roc_auc_ci test.sqrt_6dp toy_labels toy_scores
    = Ok (finite (400000000 # 400000000), finite (400000000 # 400000000),
          finite (0 # 1000000)) /\
  exists l u SE : Q,
    finite (400000000 # 400000000) = finite l /\
    finite (400000000 # 400000000) = finite u /\
    finite (0 # 1000000) = finite SE /\
    SE == 0 /\ l == 4 # 4 /\ u == 4 # 4.
Proof.
  assert (H : test.roc_auc_ci test.sqrt_6dp toy_labels toy_scores
              = Ok (finite (400000000 # 400000000),
                    finite (400000000 # 400000000), finite (0 # 1000000)))
    by (vm_compute; reflexivity).
  assert (HA : roc_auc_score toy_labels toy_scores = Ok (finite (4 # 4)))
    by (vm_compute; reflexivity).
  split; [exact H |].
  apply (analytic_ci_degenerate test.sqrt_6dp toy_labels toy_scores (4 # 4)
           _ _ _ sqrt_6dp_zero HA).
  - right. reflexivity.
  - exact H.
Defined.

(* ================================================================== *)
(** ** The grid of plot_roc_panels_pub *)
(* ================================================================== *)

Section PanelGrid.

Import roc_utils_plots.

(** [int(np.ceil(n / c))] is the least number of rows of [c] panels that
    hold [n] panels. *)
Lemma Qceiling_rows (n c : Z) :
  (0 < c)%Z ->
  let k := Qceiling (inject_Z n / inject_Z c) in
  ((k - 1) * c < n <= k * c)%Z.
Proof.
  intros Hc k.
  pose proof (Qle_ceiling (inject_Z n / inject_Z c)) as Hle.
  pose proof (Qceiling_lt (inject_Z n / inject_Z c)) as Hlt.
  fold k in Hle, Hlt.
  assert (Hcq : (0 < inject_Z c)%Q).
  { change 0%Q with (inject_Z 0). rewrite <- Zlt_Qlt. exact Hc. }
  assert (Hn : (inject_Z n == inject_Z n / inject_Z c * inject_Z c)%Q)
    by (field; lra).
  set (x := (inject_Z n / inject_Z c)%Q) in *.
  split.
  - rewrite Zlt_Qlt, inject_Z_mult, Hn.
    apply Qmult_lt_compat_r; assumption.
  - rewrite Zle_Qle, inject_Z_mult, Hn.
    apply Qmult_le_compat_r; [exact Hle | lra].
Qed.


Lemma update_length (i : nat) (f : Axes -> Axes) (l : list Axes) :
  length (update i f l) = length l.
Proof.
  revert i. induction l as [| a t IH]; intros [| i]; simpl; auto.
Qed.

Lemma update_nth_same (i : nat) (f : Axes -> Axes) (l : list Axes) :
  nth_error (update i f l) i = option_map f (nth_error l i).
Proof.
  revert i. induction l as [| a t IH]; intros [| i]; simpl; auto.
Qed.

Lemma update_nth_other (i j : nat) (f : Axes -> Axes) (l : list Axes) :
  i <> j -> nth_error (update i f l) j = nth_error l j.
Proof.
  revert i j.
  induction l as [| a t IH]; intros [| i] [| j] H; simpl;
    try reflexivity; try contradiction.
  apply IH. lia.
Qed.

Lemma index2_Ok (nrow ncol idx : Z) (ax : nat) :
  (0 < ncol)%Z -> (0 <= idx)%Z ->
  index2 nrow ncol (idx / ncol) (idx mod ncol) = Ok ax ->
  ax = Z.to_nat idx /\ (idx / ncol < nrow)%Z.
Proof.
  intros Hc Hidx. unfold index2.
  destruct (Z.leb_spec 0 (idx / ncol)); cbn [andb]; [| discriminate].
  destruct (Z.ltb_spec (idx / ncol) nrow); cbn [andb]; [| discriminate].
  destruct (Z.leb_spec 0 (idx mod ncol)); cbn [andb]; [| discriminate].
  destruct (Z.ltb_spec (idx mod ncol) ncol); [| discriminate].
  intros E. injection E as <-. split; [| assumption].
  f_equal. rewrite (Z.div_mod idx ncol) at 3 by lia. lia.
Qed.

Lemma index2_in_grid (nrow ncol idx : Z) :
  (0 < ncol)%Z -> (0 <= idx < nrow * ncol)%Z ->
  index2 nrow ncol (idx / ncol) (idx mod ncol) = Ok (Z.to_nat idx).
Proof.
  intros Hc Hidx. unfold index2.
  pose proof (Z.mod_pos_bound idx ncol Hc) as Hmod.
  assert (Hdiv : (0 <= idx / ncol < nrow)%Z).
  { split; [apply Z.div_pos; lia |].
    apply Z.div_lt_upper_bound; [exact Hc | lia]. }
  destruct (Z.leb_spec 0 (idx / ncol)); [| lia].
  destruct (Z.ltb_spec (idx / ncol) nrow); [| lia].
  destruct (Z.leb_spec 0 (idx mod ncol)); [| lia].
  destruct (Z.ltb_spec (idx mod ncol) ncol); [| lia].
  cbn [andb]. f_equal. f_equal.
  rewrite (Z.div_mod idx ncol) at 3 by lia. lia.
Qed.

Lemma update_update (i : nat) (f g : Axes -> Axes) (l : list Axes) :
  update i f (update i g l) = update i (fun a => f (g a)) l.
Proof.
  revert i. induction l as [| a t IH]; intros [| i]; simpl;
    try reflexivity.
  rewrite IH. reflexivity.
Qed.

Lemma update_ext (i : nat) (f g : Axes -> Axes) (l : list Axes) :
  (forall a, f a = g a) -> update i f l = update i g l.
Proof.
  intros Hfg. revert i. induction l as [| a t IH]; intros [| i]; simpl;
    try reflexivity.
  - rewrite Hfg. reflexivity.
  - rewrite IH. reflexivity.
Qed.

Lemma update_add_calls (i : nat) (cs1 cs2 : list ax_call) (l : list Axes) :
  update i (add_calls cs2) (update i (add_calls cs1) l)
  = update i (add_calls (cs1 ++ cs2)) l.
Proof.
  rewrite update_update. apply update_ext. intros a.
  unfold add_calls. cbn [calls in_figure]. rewrite app_assoc. reflexivity.
Qed.

Section PanelLoop.

Variable roc_curve :
  list bool -> list Q -> result (list pyfloat * list pyfloat).
Variable mpl : ax_call -> result unit.
Variable infer_df : list row.
Variable kw : kwargs.
Hypothesis ncol_pos : (0 < ncol kw)%Z.

Lemma call_Ok_inv (ax : nat) (c : ax_call) (axs axs' : list Axes) :
  call mpl ax c axs = Ok axs' ->
  mpl c = Ok tt /\ axs' = update ax (add_calls [c]) axs.
Proof.
  unfold call. intros H. bind_inv H as u Hu. destruct u.
  injection H as <-. split; [exact Hu | reflexivity].
Qed.

(** What the loop over the datasets leaves: the Axes [k], [k + 1], ...
    are drawn on, one per dataset, and no other Axes is touched. *)
Lemma draw_panels_spec (nrow : Z) (datasets : list string) :
  forall (k : nat) (axs axs' : list Axes),
    draw_panels roc_curve mpl infer_df kw nrow (Z.of_nat k) datasets axs
      = Ok axs' ->
    length axs' = length axs /\
    (forall j, (j < k \/ k + length datasets <= j)%nat ->
               nth_error axs' j = nth_error axs j) /\
    (forall i ds, nth_error datasets i = Some ds ->
       (Z.of_nat (k + i) / ncol kw < nrow)%Z /\
       exists fpr tpr auc_val,
         roc_curve (labels_of infer_df ds) (values_of infer_df ds)
           = Ok (fpr, tpr) /\
         roc_auc_score (labels_of infer_df ds) (values_of infer_df ds)
           = Ok auc_val /\
         Forall (fun c => mpl c = Ok tt)
                (panel_calls kw ds fpr tpr auc_val) /\
         nth_error axs' (k + i)
           = option_map (draw kw ds fpr tpr auc_val)
                        (nth_error axs (k + i))).
Proof.
  induction datasets as [| d rest IH]; intros k axs axs' H.
  - simpl in H. injection H as <-. split; [reflexivity |].
    split; [reflexivity |]. intros [| i] ds Hd; discriminate Hd.
  - cbn [draw_panels] in H.
    bind_inv H as ax Hax.
    apply (index2_Ok _ _ _ _ ncol_pos (Nat2Z.is_nonneg k)) in Hax.
    destruct Hax as [-> Hrow]. rewrite Nat2Z.id in H.
    bind_inv H as [fpr tpr] Hcurve.
    bind_inv H as auc_val Hauc.
    bind_inv H as axs1 H1. apply call_Ok_inv in H1. destruct H1 as [M1 ->].
    bind_inv H as axs2 H2. apply call_Ok_inv in H2. destruct H2 as [M2 ->].
    bind_inv H as axs3 H3. apply call_Ok_inv in H3. destruct H3 as [M3 ->].
    bind_inv H as axs4 H4. apply call_Ok_inv in H4. destruct H4 as [M4 ->].
    bind_inv H as axs5 H5. apply call_Ok_inv in H5. destruct H5 as [M5 ->].
    rewrite !update_add_calls in H. cbn [app] in H.
    replace (Z.of_nat k + 1)%Z with (Z.of_nat (S k)) in H by lia.
    destruct (IH (S k) _ _ H) as (Hlen & Hout & Hin).
    rewrite update_length in Hlen.
    split; [exact Hlen |]. split.
    + intros j Hj. simpl length in Hj.
      rewrite Hout by lia. apply update_nth_other. lia.
    + intros [| i] ds Hd.
      * injection Hd as <-. rewrite Nat.add_0_r.
        split; [exact Hrow |].
        exists fpr, tpr, auc_val. split; [exact Hcurve |].
        split; [exact Hauc |].
        split; [repeat constructor; assumption |].
        rewrite Hout by lia. apply update_nth_same.
      * simpl in Hd.
        destruct (Hin i ds Hd) as (Hr & f & t & a & Hc & Ha & Hm & Hn).
        replace (k + S i)%nat with (S k + i)%nat by lia.
        split; [exact Hr |].
        exists f, t, a. split; [exact Hc |]. split; [exact Ha |].
        split; [exact Hm |].
        rewrite Hn. f_equal. apply update_nth_other. lia.
Qed.

(** The loop returns when every panel is inside the grid and every
    library call on a dataset returns. *)
Lemma draw_panels_returns (nrow : Z) (datasets : list string) :
  forall (k : nat) (axs : list Axes),
    (Z.of_nat (k + length datasets) <= nrow * ncol kw)%Z ->
    Forall (fun ds =>
              exists fpr tpr auc_val,
                roc_curve (labels_of infer_df ds) (values_of infer_df ds)
                  = Ok (fpr, tpr) /\
                roc_auc_score (labels_of infer_df ds) (values_of infer_df ds)
                  = Ok auc_val /\
                Forall (fun c => mpl c = Ok tt)
                       (panel_calls kw ds fpr tpr auc_val)) datasets ->
    exists axs',
      draw_panels roc_curve mpl infer_df kw nrow (Z.of_nat k) datasets axs
        = Ok axs'.
Proof.
  induction datasets as [| d rest IH]; intros k axs Hfit Hall.
  - eexists. reflexivity.
  - cbn [draw_panels]. simpl length in Hfit.
    rewrite index2_in_grid by lia. cbn [bind].
    inversion Hall as [| ? ? (fpr & tpr & auc & Hcurve & Hauc & Hm) Hrest];
      subst.
    fold (labels_of infer_df d). fold (values_of infer_df d).
    rewrite Hcurve. cbn [bind]. rewrite Hauc. cbn [bind].
    unfold panel_calls in Hm.
    inversion Hm as [| ? ? M1 Hm1]; subst.
    inversion Hm1 as [| ? ? M2 Hm2]; subst.
    inversion Hm2 as [| ? ? M3 Hm3]; subst.
    inversion Hm3 as [| ? ? M4 Hm4]; subst.
    inversion Hm4 as [| ? ? M5 _]; subst.
    unfold call. rewrite M1. cbn [bind]. rewrite M2. cbn [bind].
    rewrite M3. cbn [bind]. rewrite M4. cbn [bind]. rewrite M5. cbn [bind].
    replace (Z.of_nat k + 1)%Z with (Z.of_nat (S k)) by lia.
    apply IH; [| exact Hrest].
    replace (S k + length rest)%nat with (k + S (length rest))%nat by lia.
    exact Hfit.
Qed.

End PanelLoop.

Lemma delaxes_seq_spec (len start : nat) :
  forall (l : list Axes),
    let l' :=
      fold_left (fun l j => update j remove l) (seq start len) l in
    length l' = length l /\
    forall j, nth_error l' j
              = if ((start <=? j) && (j <? start + len))%nat
                then option_map remove (nth_error l j)
                else nth_error l j.
Proof.
  revert start. induction len as [| len IH]; intros start l; cbn zeta.
  - split; [reflexivity |]. intros j.
    destruct (Nat.leb_spec start j); destruct (Nat.ltb_spec j (start + 0));
      cbn [andb]; try reflexivity; lia.
  - cbn [seq fold_left].
    destruct (IH (S start) (update start remove l)) as [Hlen Hnth].
    rewrite update_length in Hlen. split; [exact Hlen |].
    intros j. rewrite Hnth.
    destruct (Nat.eq_dec start j) as [<- | Hne].
    + destruct (Nat.leb_spec (S start) start); [lia |]. cbn [andb].
      rewrite update_nth_same.
      destruct (Nat.leb_spec start start); [| lia].
      destruct (Nat.ltb_spec start (start + S len)); [| lia].
      reflexivity.
    + rewrite update_nth_other by exact Hne.
      destruct (Nat.leb_spec (S start) j); destruct (Nat.leb_spec start j);
        destruct (Nat.ltb_spec j (S start + len));
        destruct (Nat.ltb_spec j (start + S len));
        cbn [andb]; try reflexivity; lia.
Qed.

Lemma delaxes_from_spec (n total : nat) (l : list Axes) :
  length (delaxes_from n total l) = length l /\
  forall j, nth_error (delaxes_from n total l) j
            = if ((n <=? j) && (j <? total))%nat
              then option_map remove (nth_error l j)
              else nth_error l j.
Proof.
  destruct (delaxes_seq_spec (total - n) n l) as [Hlen Hnth].
  split; [exact Hlen |]. intros j. unfold delaxes_from.
  change (fun a : Axes => {| calls := calls a; in_figure := false |})
    with remove.
  rewrite Hnth.
  destruct (Nat.leb_spec n j); destruct (Nat.ltb_spec j (n + (total - n)));
    destruct (Nat.ltb_spec j total); cbn [andb]; try reflexivity; lia.
Qed.

Lemma Qlt_bool_nonneg (x : Q) : (0 <= x)%Q -> Qlt_bool x 0 = false.
Proof.
  intros H. unfold Qlt_bool. apply negb_false_iff, Qle_bool_iff, H.
Qed.

(** What a returned figure is made of. *)
Lemma plot_roc_panels_pub_Ok_inv
    (roc_curve : list bool -> list Q -> result (list pyfloat * list pyfloat))
    (mpl : ax_call -> result unit) (layout : Figure -> result unit)
    (infer_df : list row) (kw : kwargs) (datasets : option (list string))
    (fig : Figure) :
  plot_roc_panels_pub roc_curve mpl layout infer_df kw datasets = Ok fig ->
  let ds := panel_datasets infer_df datasets in
  let nrow :=
    Qceiling (inject_Z (Z.of_nat (length ds)) / inject_Z (ncol kw)) in
  (0 < ncol kw)%Z /\ (0 < nrow)%Z /\
  exists axs,
    draw_panels roc_curve mpl infer_df kw nrow 0 ds
      (repeat blank (Z.to_nat (nrow * ncol kw))) = Ok axs /\
    nrows fig = nrow /\ ncols fig = ncol kw /\
    axes fig = delaxes_from (length ds) (Z.to_nat (nrow * ncol kw)) axs /\
    layout fig = Ok tt.
Proof.
  intros H. cbv zeta. unfold plot_roc_panels_pub in H.
  fold (panel_datasets infer_df datasets) in H.
  set (ds := panel_datasets infer_df datasets) in *.
  destruct (ncol kw =? 0)%Z; [discriminate |].
  set (nrow := Qceiling (inject_Z (Z.of_nat (length ds)) / inject_Z (ncol kw)))
    in *.
  bind_inv H as fig0 Hfig. unfold subplots in Hfig.
  destruct (Qlt_bool _ 0 || Qlt_bool _ 0 || negb (0 <? nrow)%Z
            || negb (0 <? ncol kw)%Z) eqn:Econd; [discriminate |].
  apply orb_false_iff in Econd. destruct Econd as [Econd Hc].
  apply orb_false_iff in Econd. destruct Econd as [_ Hr].
  apply negb_false_iff, Z.ltb_lt in Hc, Hr.
  injection Hfig as <-. cbn [axes nrows ncols figsize] in H.
  bind_inv H as axs Haxs. cbv zeta in H.
  bind_inv H as u Hu. destruct u. injection H as <-.
  split; [exact Hc |]. split; [exact Hr |].
  exists axs. split; [exact Haxs |]. repeat split. exact Hu.
Qed.


(** The default call on the demo frame returns a figure. *)
Lemma panels_returns_demo :
  exists fig,
    plot_roc_panels_pub roc_points mpl_accepts layout_accepts demo_rows
      defaults None = Ok fig.
Proof. eexists. vm_compute. reflexivity. Qed.

(** Extra X9: a returned figure has [ncol] columns and the fewest rows
    that hold one panel per dataset: [(nrows - 1) * ncol < n <= nrows *
    ncol], so fewer than [ncol] Axes of the grid are left over; [ncol] is
    positive and there is at least one dataset. *)
Theorem panels_grid
    (roc_curve : list bool -> list Q -> result (list pyfloat * list pyfloat))
    (mpl : ax_call -> result unit) (layout : Figure -> result unit)
    (infer_df : list row) (kw : kwargs) (datasets : option (list string))
    (fig : Figure) :
  plot_roc_panels_pub roc_curve mpl layout infer_df kw datasets = Ok fig ->
  let n := Z.of_nat (length (panel_datasets infer_df datasets)) in
  (0 < ncol kw)%Z /\ (0 < n)%Z /\
  ncols fig = ncol kw /\
  ((nrows fig - 1) * ncol kw < n <= nrows fig * ncol kw)%Z /\
  Z.of_nat (length (axes fig)) = (nrows fig * ncols fig)%Z.
Proof.
  intros H n. apply plot_roc_panels_pub_Ok_inv in H. cbv zeta in H.
  destruct H as (Hc & Hr & axs & Hdraw & -> & -> & -> & _).
  pose proof (Qceiling_rows n (ncol kw) Hc) as Hrows. cbv zeta in Hrows.
  fold n in Hr, Hdraw |- *.
  set (nrow := Qceiling (inject_Z n / inject_Z (ncol kw))) in *.
  split; [exact Hc |]. split; [nia |]. split; [reflexivity |].
  split; [exact Hrows |].
  destruct (delaxes_from_spec (Z.to_nat n) (Z.to_nat (nrow * ncol kw)) axs)
    as [Hlen _].
  unfold n in Hlen at 1. rewrite Nat2Z.id in Hlen. rewrite Hlen.
  destruct (draw_panels_spec roc_curve mpl infer_df kw Hc nrow _ 0%nat _ _
              Hdraw) as (Hlen' & _ & _).
  rewrite Hlen', repeat_length. nia.
Qed.


Lemma panels_grid_witness :
  exists fig,
    plot_roc_panels_pub roc_points mpl_accepts layout_accepts demo_rows
      defaults None = Ok fig /\
    (0 < ncol defaults)%Z /\
    (0 < Z.of_nat (length (panel_datasets demo_rows None)))%Z /\
    ncols fig = ncol defaults /\
    ((nrows fig - 1) * ncol defaults
     < Z.of_nat (length (panel_datasets demo_rows None))
     <= nrows fig * ncol defaults)%Z /\
    Z.of_nat (length (axes fig)) = (nrows fig * ncols fig)%Z.
Proof.
  destruct (panels_returns_demo) as [fig Hfig].
  exists fig. split; [exact Hfig |].
  exact (panels_grid roc_points mpl_accepts layout_accepts demo_rows defaults
           None fig Hfig).
Defined.

(** Extra X10: in a returned figure the dataset at position [idx] is drawn
    on the Axes at position [idx] of the row-major grid (row [idx / ncol]),
    with its own ROC curve and AUC, and is kept; every Axes past the last
    dataset was never drawn on and is removed from the figure. *)
Theorem panels_placement
    (roc_curve : list bool -> list Q -> result (list pyfloat * list pyfloat))
    (mpl : ax_call -> result unit) (layout : Figure -> result unit)
    (infer_df : list row) (kw : kwargs) (datasets : option (list string))
    (fig : Figure) :
  plot_roc_panels_pub roc_curve mpl layout infer_df kw datasets = Ok fig ->
  (forall idx ds,
     nth_error (panel_datasets infer_df datasets) idx = Some ds ->
     (Z.of_nat idx / ncol kw < nrows fig)%Z /\
     exists fpr tpr auc_val,
       roc_curve (labels_of infer_df ds) (values_of infer_df ds)
         = Ok (fpr, tpr) /\
       roc_auc_score (labels_of infer_df ds) (values_of infer_df ds)
         = Ok auc_val /\
       nth_error (axes fig) idx
         = Some {| calls := panel_calls kw ds fpr tpr auc_val;
                   in_figure := true |}) /\
  (forall j,
     (length (panel_datasets infer_df datasets) <= j < length (axes fig))%nat ->
     nth_error (axes fig) j = Some {| calls := []; in_figure := false |}).
Proof.
  intros H.
  apply plot_roc_panels_pub_Ok_inv in H. cbv zeta in H.
  destruct H as (Hc & Hr & axs & Hdraw & Hnr & Hnc & Hax & _).
  set (ds := panel_datasets infer_df datasets) in *.
  pose proof (Qceiling_rows (Z.of_nat (length ds)) (ncol kw) Hc) as [_ Hfit].
  set (nrow := Qceiling (inject_Z (Z.of_nat (length ds)) / inject_Z (ncol kw)))
    in *.
  set (total := Z.to_nat (nrow * ncol kw)) in *.
  destruct (draw_panels_spec roc_curve mpl infer_df kw Hc nrow _ 0%nat _ _
              Hdraw) as (Hlen & Hout & Hin).
  destruct (delaxes_from_spec (length ds) total axs) as [Hdlen Hdel].
  rewrite repeat_length in Hlen.
  split.
  - intros idx d Hd.
    assert (Hidx : (idx < length ds)%nat)
      by (apply nth_error_Some; rewrite Hd; discriminate).
    destruct (Hin idx d Hd)
      as (Hrow & fpr & tpr & auc & Hcurve & Hauc & _ & Hn).
    cbn [Nat.add] in Hrow, Hn. rewrite Hnr.
    split; [exact Hrow |].
    exists fpr, tpr, auc. split; [exact Hcurve |]. split; [exact Hauc |].
    rewrite Hax, Hdel.
    destruct (Nat.leb_spec (length ds) idx); [lia |]. cbn [andb].
    rewrite Hn, nth_error_repeat by (unfold total; lia).
    reflexivity.
  - intros j Hj. rewrite Hax, Hdlen, Hlen in Hj.
    rewrite Hax, Hdel.
    destruct (Nat.leb_spec (length ds) j); [| lia].
    destruct (Nat.ltb_spec j total); [| lia]. cbn [andb].
    rewrite Hout by lia.
    rewrite nth_error_repeat by lia. reflexivity.
Qed.


Lemma panels_placement_witness :
  exists fig,
    plot_roc_panels_pub roc_points mpl_accepts layout_accepts demo_rows
      defaults None = Ok fig /\
    (forall idx ds,
       nth_error (panel_datasets demo_rows None) idx = Some ds ->
       (Z.of_nat idx / ncol defaults < nrows fig)%Z /\
       exists fpr tpr auc_val,
         roc_points (labels_of demo_rows ds) (values_of demo_rows ds)
           = Ok (fpr, tpr) /\
         roc_auc_score (labels_of demo_rows ds) (values_of demo_rows ds)
           = Ok auc_val /\
         nth_error (axes fig) idx
           = Some {| calls := panel_calls defaults ds fpr tpr auc_val;
                     in_figure := true |}) /\
    (forall j,
       (length (panel_datasets demo_rows None) <= j < length (axes fig))%nat ->
       nth_error (axes fig) j = Some {| calls := []; in_figure := false |}).
Proof.
  destruct (panels_returns_demo) as [fig Hfig].
  exists fig. split; [exact Hfig |].
  exact (panels_placement roc_points mpl_accepts layout_accepts demo_rows
           defaults None fig Hfig).
Defined.

(** Extra X11: the function's own steps never fail.  With a positive
    [ncol], at least one dataset and a panel size that is not negative,
    the figure is returned as soon as every library call the function
    makes returns: [roc_curve], [roc_auc_score] and the five calls on the
    panel of every dataset, and the closing layout.  In particular the
    look-up [axes[r, c]] never leaves the grid. *)
Theorem panels_returns
    (roc_curve : list bool -> list Q -> result (list pyfloat * list pyfloat))
    (mpl : ax_call -> result unit) (layout : Figure -> result unit)
    (infer_df : list row) (kw : kwargs) (datasets : option (list string)) :
  (0 < ncol kw)%Z ->
  panel_datasets infer_df datasets <> [] ->
  (0 <= fst (panel_size kw))%Q -> (0 <= snd (panel_size kw))%Q ->
  Forall (fun ds =>
            exists fpr tpr auc_val,
              roc_curve (labels_of infer_df ds) (values_of infer_df ds)
                = Ok (fpr, tpr) /\
              roc_auc_score (labels_of infer_df ds) (values_of infer_df ds)
                = Ok auc_val /\
              Forall (fun c => mpl c = Ok tt)
                     (panel_calls kw ds fpr tpr auc_val))
         (panel_datasets infer_df datasets) ->
  (forall fig, layout fig = Ok tt) ->
  exists fig,
    plot_roc_panels_pub roc_curve mpl layout infer_df kw datasets = Ok fig.
Proof.
  intros Hc Hne Hw Hh Hall Hlayout.
  unfold plot_roc_panels_pub. fold (panel_datasets infer_df datasets).
  set (ds := panel_datasets infer_df datasets) in *.
  destruct (Z.eqb_spec (ncol kw) 0) as [E | _]; [lia |].
  pose proof (Qceiling_rows (Z.of_nat (length ds)) (ncol kw) Hc) as [_ Hfit].
  set (nrow := Qceiling (inject_Z (Z.of_nat (length ds)) / inject_Z (ncol kw)))
    in *.
  assert (Hn : (0 < length ds)%nat) by (destruct ds; [congruence | simpl; lia]).
  assert (Hr : (0 < nrow)%Z) by nia.
  unfold subplots. cbn [fst snd].
  assert (Hcq : (0 <= inject_Z (ncol kw))%Q)
    by (change 0%Q with (inject_Z 0); rewrite <- Zle_Qle; lia).
  assert (Hrq : (0 <= inject_Z nrow)%Q)
    by (change 0%Q with (inject_Z 0); rewrite <- Zle_Qle; lia).
  rewrite (Qlt_bool_nonneg _ (Qmult_le_0_compat _ _ Hw Hcq)).
  rewrite (Qlt_bool_nonneg _ (Qmult_le_0_compat _ _ Hh Hrq)).
  rewrite (proj2 (Z.ltb_lt _ _) Hr), (proj2 (Z.ltb_lt _ _) Hc).
  cbn [orb negb bind axes].
  destruct (draw_panels_returns roc_curve mpl infer_df kw Hc nrow ds 0%nat
              (repeat {| calls := []; in_figure := true |}
                      (Z.to_nat (nrow * ncol kw))))
    as [axs Haxs]; [cbn [Nat.add]; lia | exact Hall |].
  cbn [Z.of_nat] in Haxs. rewrite Haxs. cbn [bind]. cbv zeta.
  rewrite Hlayout. cbn [bind].
  eexists. reflexivity.
Qed.

Lemma panels_returns_witness :
  panel_datasets demo_rows None = ["A"; "B"; "C"; "D"]%string /\
  exists fig,
    plot_roc_panels_pub roc_points mpl_accepts layout_accepts demo_rows
      defaults None = Ok fig.
Proof.
  split; [reflexivity |].
  apply panels_returns.
  - reflexivity.
  - discriminate.
  - discriminate.
  - discriminate.
  - repeat (constructor;
            [eexists _, _, _;
             split; [vm_compute; reflexivity |];
             split; [vm_compute; reflexivity |];
             repeat constructor |]).
    constructor.
  - reflexivity.
Defined.

(** Extra X12: [ncol = 0] ends in ZeroDivisionError; a negative [ncol], or
    no dataset at all, ends in the ValueError of [plt.subplots]. *)
Theorem panels_errors
    (roc_curve : list bool -> list Q -> result (list pyfloat * list pyfloat))
    (mpl : ax_call -> result unit) (layout : Figure -> result unit)
    (infer_df : list row) (kw : kwargs) (datasets : option (list string)) :
  (ncol kw = 0%Z ->
   plot_roc_panels_pub roc_curve mpl layout infer_df kw datasets
     = Raise ZeroDivisionError) /\
  ((ncol kw < 0)%Z \/
   ((0 < ncol kw)%Z /\ panel_datasets infer_df datasets = []) ->
   plot_roc_panels_pub roc_curve mpl layout infer_df kw datasets
     = Raise ValueError).
Proof.
  unfold plot_roc_panels_pub. fold (panel_datasets infer_df datasets).
  split.
  - intros ->. reflexivity.
  - intros H.
    destruct (Z.eqb_spec (ncol kw) 0) as [E | _]; [lia |].
    unfold subplots. destruct H as [Hneg | [Hpos Hnil]].
    + destruct (Z.ltb_spec 0 (ncol kw)); [lia |].
      cbn [negb]. rewrite orb_true_r. reflexivity.
    + rewrite Hnil. cbn [length Z.of_nat].
      assert (E : (inject_Z 0 / inject_Z (ncol kw) == 0)%Q)
        by (unfold Qdiv; ring).
      rewrite E. change (Qceiling 0) with 0%Z.
      change (0 <? 0)%Z with false.
      cbn [negb]. rewrite orb_true_r. reflexivity.
Qed.


Lemma panels_errors_witness :
  let with_ncol n :=
    {| colors := colors defaults; title_main := title_main defaults;
       base_font := base_font defaults; title_font := title_font defaults;
       line_width := line_width defaults; alpha := alpha defaults;
       ncol := n; panel_size := panel_size defaults;
       legend_title := legend_title defaults;
       legend_font_delta := legend_font_delta defaults;
       fixedlocator := fixedlocator defaults |} in
  plot_roc_panels_pub roc_points mpl_accepts layout_accepts demo_rows
    (with_ncol 0%Z) None = Raise ZeroDivisionError /\
  plot_roc_panels_pub roc_points mpl_accepts layout_accepts demo_rows
    (with_ncol (-1)%Z) None = Raise ValueError /\
  plot_roc_panels_pub roc_points mpl_accepts layout_accepts demo_rows
    defaults (Some []) = Raise ValueError.
Proof.
  intros with_ncol. split; [| split].
  - apply (proj1 (panels_errors roc_points mpl_accepts layout_accepts
                    demo_rows (with_ncol 0%Z) None)).
    reflexivity.
  - apply (proj2 (panels_errors roc_points mpl_accepts layout_accepts
                    demo_rows (with_ncol (-1)%Z) None)).
    left. reflexivity.
  - apply (proj2 (panels_errors roc_points mpl_accepts layout_accepts
                    demo_rows defaults (Some []))).
    right. split; reflexivity.
Defined.

End PanelGrid.

(* ================================================================== *)
(** ** call_ROC_value of test.py *)
(* ================================================================== *)

Section CallROCFacts.

Import test_script.

Lemma argmax_from_spec (a : list Q) :
  forall (best : Q) (best_idx idx : nat) (seen : list Q),
    length seen = idx -> (best_idx < idx)%nat ->
    nth best_idx seen 0 = best ->
    (forall i, (i < idx)%nat -> nth i seen 0 <= best) ->
    (forall i, (i < best_idx)%nat -> nth i seen 0 < best) ->
    let k := argmax_from best best_idx idx a in
    (k < idx + length a)%nat /\
    (forall i, (i < idx + length a)%nat ->
               nth i (seen ++ a) 0 <= nth k (seen ++ a) 0) /\
    (forall i, (i < k)%nat -> nth i (seen ++ a) 0 < nth k (seen ++ a) 0).
Proof.
  induction a as [| x t IH]; intros best best_idx idx seen Hlen Hb Hbest Hmax Hfirst.
  - cbn [argmax_from length]. rewrite app_nil_r, Nat.add_0_r, Hbest.
    split; [exact Hb |]. split; assumption.
  - cbn [argmax_from]. cbv zeta.
    replace (seen ++ x :: t) with ((seen ++ [x]) ++ t)
      by (rewrite <- app_assoc; reflexivity).
    replace (idx + length (x :: t))%nat with (S idx + length t)%nat
      by (simpl; lia).
    assert (Hlen' : length (seen ++ [x]) = S idx)
      by (rewrite length_app; simpl; lia).
    assert (Hold : forall i, (i < idx)%nat ->
                             nth i (seen ++ [x]) 0 = nth i seen 0)
      by (intros i Hi; apply app_nth1; lia).
    assert (Hnew : nth idx (seen ++ [x]) 0 = x)
      by (rewrite app_nth2 by lia; rewrite Hlen, Nat.sub_diag; reflexivity).
    destruct (Qlt_bool best x) eqn:E.
    + assert (Hlt : best < x).
      { unfold Qlt_bool in E. apply negb_true_iff in E.
        apply Qle_bool_false. exact E. }
      apply IH; [exact Hlen' | lia | exact Hnew | |].
      * intros i Hi. destruct (Nat.eq_dec i idx) as [-> | Hne].
        -- rewrite Hnew. lra.
        -- rewrite Hold by lia. specialize (Hmax i ltac:(lia)). lra.
      * intros i Hi. rewrite Hold by lia.
        specialize (Hmax i Hi). lra.
    + assert (Hle : x <= best).
      { unfold Qlt_bool in E. apply negb_false_iff in E.
        apply Qle_bool_iff. exact E. }
      apply IH; [exact Hlen' | lia | | |].
      * rewrite Hold by lia. exact Hbest.
      * intros i Hi. destruct (Nat.eq_dec i idx) as [-> | Hne].
        -- rewrite Hnew. exact Hle.
        -- rewrite Hold by lia. apply Hmax. lia.
      * intros i Hi. rewrite Hold by lia. apply Hfirst. exact Hi.
Qed.

(** [np.argmax] returns the first position of the largest element. *)
Lemma np_argmax_spec (a : list Q) (k : nat) :
  np_argmax a = Ok k ->
  (k < length a)%nat /\
  (forall i, (i < length a)%nat -> nth i a 0 <= nth k a 0) /\
  (forall i, (i < k)%nat -> nth i a 0 < nth k a 0).
Proof.
  destruct a as [| x t]; [discriminate |].
  intros H. injection H as <-.
  apply (argmax_from_spec t x 0%nat 1%nat [x]).
  - reflexivity.
  - lia.
  - reflexivity.
  - intros [| i] Hi; [apply Qle_refl | lia].
  - intros i Hi. lia.
Qed.

Lemma nth_subtract (a b : list Q) (i : nat) :
  length a = length b -> (i < length a)%nat ->
  nth i (map (fun p => fst p - snd p) (combine a b)) 0 = nth i a 0 - nth i b 0.
Proof.
  revert b i. induction a as [| x a IH]; intros [| y b] i Hlen Hi;
    simpl in Hlen, Hi; try lia.
  destruct i as [| i]; [reflexivity |].
  simpl. apply IH; lia.
Qed.

(** Extra X13: when [roc_curve] hands back rates of one length, the
    threshold [call_ROC_value] returns is the one at the first position
    where [tpr - fpr] (Youden's J) is largest. *)
Theorem call_ROC_value_youden (threshold : Type)
    (roc_curve : list bool -> list Q -> bool
                 -> result (list Q * list Q * list threshold))
    (auc : list Q -> list Q -> result Q) (sqrt : Q -> result Q)
    (factor : list bool) (scores : list Q) (pos : bool)
    (fpr tpr : list Q) (thresholds : list threshold) (auc_val : Q)
    (optimal_threshold : threshold)
    (ci : (pyfloat * pyfloat) * pyfloat) :
  call_ROC_value threshold roc_curve auc sqrt factor scores pos
    = Ok (fpr, tpr, auc_val, ci, thresholds, optimal_threshold) ->
  length fpr = length tpr ->
  exists k,
    nth_error thresholds k = Some optimal_threshold /\
    (k < length tpr)%nat /\
    (forall i, (i < length tpr)%nat ->
               nth i tpr 0 - nth i fpr 0 <= nth k tpr 0 - nth k fpr 0) /\
    (forall i, (i < k)%nat ->
               nth i tpr 0 - nth i fpr 0 < nth k tpr 0 - nth k fpr 0).
Proof.
  intros H Hlen. unfold call_ROC_value in H. cbv zeta in H.
  bind_inv H as [[fpr0 tpr0] thr0] Hcurve.
  bind_inv H as youden Hyouden.
  bind_inv H as k Hk.
  bind_inv H as opt Hopt.
  bind_inv H as a Ha.
  bind_inv H as c Hc.
  injection H as -> -> -> -> -> ->.
  unfold np_subtract in Hyouden.
  rewrite (proj2 (Nat.eqb_eq _ _) (eq_sym Hlen)) in Hyouden.
  injection Hyouden as <-.
  apply np_argmax_spec in Hk. destruct Hk as (Hk & Hmax & Hfirst).
  rewrite length_map, length_combine, Hlen, Nat.min_id in Hk, Hmax.
  assert (Hnth : forall i, (i < length tpr)%nat ->
            nth i (map (fun p => fst p - snd p) (combine tpr fpr)) 0
            = nth i tpr 0 - nth i fpr 0)
    by (intros i Hi; apply nth_subtract; [symmetry; exact Hlen | exact Hi]).
  exists k. split.
  - unfold item in Hopt. destruct (nth_error thresholds k); [| discriminate].
    injection Hopt as ->. reflexivity.
  - split; [exact Hk |]. split.
    + intros i Hi. rewrite <- !Hnth by assumption. apply Hmax, Hi.
    + intros i Hi. rewrite <- !Hnth by lia. apply Hfirst, Hi.
Qed.

Lemma call_ROC_value_youden_witness :
  let fpr := [0; 0 # 2; 1 # 2; 1 # 2; 2 # 2] in
  let tpr := [0; 1 # 2; 1 # 2; 2 # 2; 2 # 2] in
  let thresholds := [None; Some 0.8; Some 0.3; Some 0.25; Some 0.2] in
  call_ROC_value (option Q) roc_points_pos trapezoid_auc test.sqrt_6dp
    mixed_labels mixed_scores true
  = Ok (fpr, tpr, 196608 # 262144,
        (finite (83384720 # 400000000), finite 1, finite 0.276295),
        thresholds, Some 0.8) /\
  exists k,
    nth_error thresholds k = Some (Some 0.8) /\
    (k < length tpr)%nat /\
    (forall i, (i < length tpr)%nat ->
       nth i tpr 0 - nth i fpr 0 <= nth k tpr 0 - nth k fpr 0) /\
    (forall i, (i < k)%nat ->
       nth i tpr 0 - nth i fpr 0 < nth k tpr 0 - nth k fpr 0).
Proof.
  intros fpr tpr thresholds.
  assert (H : call_ROC_value (option Q) roc_points_pos trapezoid_auc
                test.sqrt_6dp mixed_labels mixed_scores true
              = Ok (fpr, tpr, 196608 # 262144,
                    (finite (83384720 # 400000000), finite 1,
                     finite 0.276295), thresholds, Some 0.8))
    by (vm_compute; reflexivity).
  split; [exact H |].
  exact (call_ROC_value_youden (option Q) roc_points_pos trapezoid_auc
           test.sqrt_6dp mixed_labels mixed_scores true _ _ _ _ _ _ H
           eq_refl).
Defined.

End CallROCFacts.
